(** * TeraSim street-view analysis: a shallow embedding

    This development embeds [terasim_cosmos/street_view_analysis.py]
    (class [StreetViewRetrievalAndAnalysis]) and proves properties of its
    pose lookup, context extraction, construction and camera loop.

    - Python floats are IEEE binary64 values: [spec_float] with the
      operations of [SpecFloat] at precision 53 and maximal exponent 1024.
    - Exceptions are values of [exn]; code that makes no call and may raise
      returns a [result].
    - Calls that leave the module (environment, HTTP, files, the map and
      vision libraries, [print]) are nodes of a program tree [prog]; a tree
      is run against a handler that answers every call, and the properties
      hold for every handler.
    - Pure builtins whose text is not modelled ([float] on a [str], [str] on
      a float or an object, [b64encode]) are parameters.

    The model comes first, then the vocabulary of the properties, then the
    properties, then worked examples on sample data. *)

From Stdlib Require Import ZArith List String Ascii Bool Lia Permutation Sorted.
From Stdlib Require Import Floats.SpecFloat DecimalString.
Import ListNotations.

Set Warnings "-register-all".

Local Open Scope string_scope.
Local Open Scope list_scope.

(** ** Python floats *)

Module PyFloat.

Definition float : Type := spec_float.

Definition prec : Z := 53.
Definition emax : Z := 1024.

(** [float('inf')] *)
Definition inf : float := S754_infinity false.

Definition add : float -> float -> float := SFadd prec emax.
Definition sub : float -> float -> float := SFsub prec emax.
Definition abs : float -> float := SFabs.
Definition ltb : float -> float -> bool := SFltb.
Definition leb : float -> float -> bool := SFleb.
Definition eqb : float -> float -> bool := SFeqb.

(** Conversion of a Python [int] operand in mixed arithmetic. *)
Definition of_Z (z : Z) : float := binary_normalize prec emax z 0 false.

Definition is_nan (f : float) : bool :=
  match f with S754_nan => true | _ => false end.

(** [math.isfinite] *)
Definition is_finite (f : float) : bool :=
  match f with
  | S754_zero _ | S754_finite _ _ _ => true
  | _ => false
  end.

End PyFloat.

Abbreviation float := PyFloat.float.

(** ** Exceptions and results *)

(** The exception classes the module raises or catches.  All of them derive
    from [Exception]; [OtherError] stands for any further subclass of
    [Exception] that a library may raise.  [HTTPError] is the one of
    [requests], whose base [RequestException] derives from [OSError]. *)
Inductive exn_class : Type :=
| Exception
| ValueError
| UnicodeDecodeError
| TypeError
| AttributeError
| RuntimeError
| ImportError
| ModuleNotFoundError
| OSError
| FileNotFoundError
| HTTPError
| YAMLError
| OtherError (name : string).

Record exn : Type := mk_exn { exn_type : exn_class; exn_msg : string }.

(** Direct base class, [None] at the root. *)
Definition base (c : exn_class) : option exn_class :=
  match c with
  | Exception => None
  | UnicodeDecodeError => Some ValueError
  | ModuleNotFoundError => Some ImportError
  | FileNotFoundError => Some OSError
  | HTTPError => Some OSError
  | _ => Some Exception
  end.

Definition exn_class_eqb (a b : exn_class) : bool :=
  match a, b with
  | Exception, Exception | ValueError, ValueError
  | UnicodeDecodeError, UnicodeDecodeError | TypeError, TypeError
  | AttributeError, AttributeError | RuntimeError, RuntimeError
  | ImportError, ImportError | ModuleNotFoundError, ModuleNotFoundError
  | OSError, OSError | FileNotFoundError, FileNotFoundError
  | HTTPError, HTTPError | YAMLError, YAMLError => true
  | OtherError n, OtherError m => String.eqb n m
  | _, _ => false
  end.

(** [issubclass c k]; the hierarchy above has depth three. *)
Fixpoint issubclass_upto (n : nat) (c k : exn_class) : bool :=
  exn_class_eqb c k ||
  match n, base c with
  | S n', Some b => issubclass_upto n' b k
  | _, _ => false
  end.

Definition issubclass : exn_class -> exn_class -> bool := issubclass_upto 3.

Definition isinstance (e : exn) (k : exn_class) : bool :=
  issubclass (exn_type e) k.

Inductive result (A : Type) : Type :=
| Return (a : A)
| Raise (e : exn).
Arguments Return {A} a.
Arguments Raise {A} e.

Definition rbind {A B} (r : result A) (k : A -> result B) : result B :=
  match r with
  | Return a => k a
  | Raise e => Raise e
  end.

Declare Scope result_scope.
Delimit Scope result_scope with result.
Notation "x <- r ;; k" := (rbind r (fun x => k))
  (at level 61, r at next level, right associativity) : result_scope.

(** ** XML trees of [xml.etree.ElementTree] *)

Inductive element : Type :=
| Element (tag : string) (attrib : list (string * string))
          (children : list element).

Definition tag (e : element) : string :=
  match e with Element t _ _ => t end.
Definition attrib (e : element) : list (string * string) :=
  match e with Element _ a _ => a end.
Definition children (e : element) : list element :=
  match e with Element _ _ c => c end.

(** [e.findall(t)] for a plain tag name: the direct children with that tag,
    in document order. *)
Definition findall (e : element) (t : string) : list element :=
  filter (fun c => String.eqb (tag c) t) (children e).

Fixpoint lookup (key : string) (l : list (string * string)) : option string :=
  match l with
  | [] => None
  | (k, v) :: rest => if String.eqb k key then Some v else lookup key rest
  end.

(** [e.get(key)]: the attribute, or [None]. *)
Definition get (e : element) (key : string) : option string :=
  lookup key (attrib e).

(** Equality of two [str | None] values. *)
Definition opt_str_eqb (a b : option string) : bool :=
  match a, b with
  | Some x, Some y => String.eqb x y
  | None, None => true
  | _, _ => false
  end.

(** ** Pose lookup *)

Definition pose : Type := float * float * float.

Section PoseLookup.

(** The builtin [float] on a [str]: [None] when it raises [ValueError]. *)
Variable str_to_float : string -> option float.

(** [float(v)] for [v] an attribute value or [None]. *)
Definition py_float (v : option string) : result float :=
  match v with
  | None => Raise (mk_exn TypeError "float() argument must be a string or a real number")
  | Some s =>
      match str_to_float s with
      | Some f => Return f
      | None => Raise (mk_exn ValueError "could not convert string to float")
      end
  end.

(** [key=lambda x: float(x.get("time"))] *)
Definition time_key (x : element) : result float := py_float (get x "time").

(** The keys of [list.sort(key=...)] are computed once, front to back. *)
Fixpoint decorate (l : list element) : result (list (float * element)) :=
  match l with
  | [] => Return []
  | x :: rest =>
      (k <- time_key x ;;
       rest' <- decorate rest ;;
       Return ((k, x) :: rest'))%result
  end.

(** [list.sort] is stable and compares keys with [<] only.  On keys that
    [<] orders totally every stable sort yields the same list; insertion
    sort is used here.  A new item goes behind every item it is not
    strictly less than. *)
Fixpoint insert_by_key (x : float * element) (l : list (float * element))
  : list (float * element) :=
  match l with
  | [] => [x]
  | y :: rest =>
      if PyFloat.ltb (fst x) (fst y) then x :: l
      else y :: insert_by_key x rest
  end.

Definition sort_decorated (l : list (float * element))
  : list (float * element) :=
  fold_left (fun acc x => insert_by_key x acc) l [].

(** [all_timesteps.sort(key=lambda x: float(x.get("time")))] *)
Definition sort_by_time (l : list element) : result (list element) :=
  (d <- decorate l ;; Return (map snd (sort_decorated d)))%result.

(** [abs(float(timestep.get("time")) - target_time)] *)
Definition time_diff (target_time : float) (timestep : element)
  : result float :=
  (t <- py_float (get timestep "time") ;;
   Return (PyFloat.abs (PyFloat.sub t target_time)))%result.

(** The loop of lines 157-161, with its two variables as accumulators. *)
Fixpoint closest_scan (target_time : float) (l : list element)
         (min_diff : float) (target_timestep : option element)
  : result (option element) :=
  match l with
  | [] => Return target_timestep
  | timestep :: rest =>
      (d <- time_diff target_time timestep ;;
       if PyFloat.ltb d min_diff
       then closest_scan target_time rest d (Some timestep)
       else closest_scan target_time rest min_diff target_timestep)%result
  end.

(** Lines 150-161: the timestep the lookup settles on. *)
Definition closest_timestep (root : element) (target_time : float)
  : result (option element) :=
  (all_timesteps <- sort_by_time (findall root "timestep") ;;
   closest_scan target_time all_timesteps PyFloat.inf None)%result.

(** Lines 167-174. *)
Fixpoint find_vehicle (vehicles : list element) (vehicle_id : option string)
  : result (option pose) :=
  match vehicles with
  | [] => Return None
  | vehicle :: rest =>
      if opt_str_eqb (get vehicle "id") vehicle_id then
        (x <- py_float (get vehicle "x") ;;
         y <- py_float (get vehicle "y") ;;
         angle <- py_float (get vehicle "angle") ;;
         Return (Some (x, y, angle)))%result
      else find_vehicle rest vehicle_id
  end.

(** [get_vehicle_position_at_time] on the tree that [ET.parse] returned. *)
Definition get_vehicle_position_at_time
           (root : element) (vehicle_id : option string)
           (target_time : float) : result (option pose) :=
  (target_timestep <- closest_timestep root target_time ;;
   match target_timestep with
   | None => Return None
   | Some ts => find_vehicle (findall ts "vehicle") vehicle_id
   end)%result.

End PoseLookup.

(** ** A reader for plain decimal literals

    [decimal_str_to_float] reads [-]digits[.digits] with at most fifteen
    digits.  The digits form an integer below 2^53 and the power of ten is
    at most 10^15, both exact in binary64, so one correctly rounded division
    yields the value the builtin [float] returns for that text.  Other text
    is answered with [None]; the reader serves the worked examples only, the
    lookup itself is parametric in the reader. *)

Definition digit_of (c : ascii) : option Z :=
  let n := nat_of_ascii c in
  if (48 <=? n)%nat && (n <=? 57)%nat then Some (Z.of_nat (n - 48)) else None.

(** Longest run of digits at the front of [s]: its value continued from
    [acc], the number of digits read, and the rest. *)
Fixpoint read_digits (s : string) (acc : Z) (count : nat)
  : Z * nat * string :=
  match s with
  | EmptyString => (acc, count, s)
  | String c rest =>
      match digit_of c with
      | Some d => read_digits rest (10 * acc + d)%Z (S count)
      | None => (acc, count, s)
      end
  end.

Definition unsigned_decimal (s : string) : option float :=
  let '(n, k, rest) := read_digits s 0%Z 0%nat in
  match rest with
  | EmptyString =>
      if (1 <=? k)%nat && (k <=? 15)%nat then Some (PyFloat.of_Z n) else None
  | String "." frac =>
      let '(m, j, rest') := read_digits frac n 0%nat in
      match rest' with
      | EmptyString =>
          if (1 <=? k + j)%nat && (k + j <=? 15)%nat then
            Some (SFdiv PyFloat.prec PyFloat.emax
                        (PyFloat.of_Z m) (PyFloat.of_Z (10 ^ Z.of_nat j)))
          else None
      | _ => None
      end
  | _ => None
  end.

Definition decimal_str_to_float (s : string) : option float :=
  match s with
  | String "-" rest => option_map SFopp (unsigned_decimal rest)
  | _ => unsigned_decimal s
  end.

(** ** Python values

    The objects that [yaml.safe_load] and [response.json()] hand back. *)

Definition bytes : Type := list Byte.byte.

Inductive pyval : Type :=
| VNone
| VBool (b : bool)
| VInt (z : Z)
| VFloat (f : float)
| VStr (s : string)
| VBytes (b : bytes)
| VList (items : list pyval)
| VDict (items : list (pyval * pyval))
(** any other object (a [datetime], a [set], ...): its type name and its
    truth value *)
| VOther (type_name : string) (truth : bool).

(** [bool(v)] *)
Definition truthy (v : pyval) : bool :=
  match v with
  | VNone => false
  | VBool b => b
  | VInt z => negb (z =? 0)%Z
  | VFloat (S754_zero _) => false
  | VFloat _ => true
  | VStr s => negb (s =? "")
  | VBytes b => match b with [] => false | _ => true end
  | VList l => match l with [] => false | _ => true end
  | VDict d => match d with [] => false | _ => true end
  | VOther _ t => t
  end.

(** Truth of a [str | None]. *)
Definition truthy_str (o : option string) : bool :=
  match o with
  | Some s => negb (s =? "")
  | None => false
  end.

(** The items of a dict are kept in insertion order; a dict holds no two
    equal keys.  Only a [str] key equals the [str] looked up. *)
Fixpoint dict_lookup (key : string) (items : list (pyval * pyval))
  : option pyval :=
  match items with
  | [] => None
  | (VStr k, v) :: rest => if k =? key then Some v else dict_lookup key rest
  | _ :: rest => dict_lookup key rest
  end.

(** [v.get(key, default)]: only a dict has the method. *)
Definition py_get (v : pyval) (key : string) (default : pyval) : result pyval :=
  match v with
  | VDict items =>
      Return (match dict_lookup key items with Some x => x | None => default end)
  | _ => Raise (mk_exn AttributeError "object has no attribute 'get'")
  end.

Fixpoint nth_item (l : list pyval) (n : nat) : option pyval :=
  match l, n with
  | [], _ => None
  | x :: _, O => Some x
  | _ :: rest, S n' => nth_item rest n'
  end.

(** [v[key]] for a [str] key. *)
Definition subscript_str (v : pyval) (key : string) : result pyval :=
  match v with
  | VDict items =>
      match dict_lookup key items with
      | Some x => Return x
      | None => Raise (mk_exn (OtherError "KeyError") key)
      end
  | _ => Raise (mk_exn TypeError "indices must be integers or object is not subscriptable")
  end.

(** The value under a key that equals the integer 0: [0], [False] or a
    float zero. *)
Fixpoint zero_lookup (items : list (pyval * pyval)) : option pyval :=
  match items with
  | [] => None
  | (VInt 0, v) :: _ => Some v
  | (VBool false, v) :: _ => Some v
  | (VFloat (S754_zero _), v) :: _ => Some v
  | _ :: rest => zero_lookup rest
  end.

Fixpoint nth_char (s : string) (n : nat) : option ascii :=
  match s, n with
  | EmptyString, _ => None
  | String c _, O => Some c
  | String _ rest, S n' => nth_char rest n'
  end.

(** [v[0]] *)
Definition subscript_zero (v : pyval) : result pyval :=
  match v with
  | VList l =>
      match nth_item l 0 with
      | Some x => Return x
      | None => Raise (mk_exn (OtherError "IndexError") "list index out of range")
      end
  | VDict items =>
      match zero_lookup items with
      | Some x => Return x
      | None => Raise (mk_exn (OtherError "KeyError") "0")
      end
  | VStr s =>
      match nth_char s 0 with
      | Some c => Return (VStr (String c ""))
      | None => Raise (mk_exn (OtherError "IndexError") "string index out of range")
      end
  | VBytes b =>
      match b with
      | x :: _ => Return (VInt (Z.of_N (Byte.to_N x)))
      | [] => Raise (mk_exn (OtherError "IndexError") "index out of range")
      end
  | _ => Raise (mk_exn TypeError "object is not subscriptable")
  end.

(** [d[key]] on the literal dicts of the camera table. *)
Fixpoint table_item {A} (table : list (string * A)) (key : string) : result A :=
  match table with
  | [] => Raise (mk_exn (OtherError "KeyError") key)
  | (k, v) :: rest => if k =? key then Return v else table_item rest key
  end.

(** ** Paths of [pathlib]: the list of components *)

Definition Path : Type := list string.

Definition parent (p : Path) : Path := removelast p.
Definition joinpath (p : Path) (name : string) : Path := p ++ [name].
Definition path_str (p : Path) : string := String.concat "/" p.

(** ** Calls that leave the module *)

(** A loaded [sumolib] network, with its method [convertXY2LonLat]. *)
Record sumo_net : Type :=
  { convertXY2LonLat : float -> float -> result (float * float) }.

(** A [genai.GenerativeModel]. *)
Record GenerativeModel : Type := { model_name : string }.

(** What [requests] returns: the status, the body, and what [.json()]
    yields. *)
Record response : Type :=
  { status_code : Z; content : bytes; json : result pyval }.

Inductive param : Type :=
| PNone
| PStr (s : string)
| PInt (z : Z)
| PFloat (f : float).

Inductive file_data : Type :=
| Binary (b : bytes)
| Text (s : string).

Inductive call : Type :=
| os_getenv (name : string)
| import_module (name : string)
| genai_configure (api_key : string)
| genai_GenerativeModel (name : string)
| generate_content (client : GenerativeModel) (prompt : string)
                   (mime_type : string) (data : bytes)
| requests_get (url : string) (params : list (string * param))
| requests_post (url : string) (headers : list (string * string))
                (payload : pyval) (timeout : Z)
| open_write (path : Path) (data : file_data)
| print (line : string)
| sumolib_readNet (path : Path)
| ET_parse (path : Path)
| path_exists (path : Path)
| yaml_safe_load (path : Path).

(** What each call hands back; a call that may raise hands back a
    [result]. *)
Definition answer (c : call) : Type :=
  match c with
  | os_getenv _ => option string
  | import_module _ => result unit
  | genai_configure _ => result unit
  | genai_GenerativeModel _ => result GenerativeModel
  | generate_content _ _ _ _ => result string
  | requests_get _ _ => result response
  | requests_post _ _ _ _ => result response
  | open_write _ _ => result unit
  | print _ => unit
  | sumolib_readNet _ => result sumo_net
  | ET_parse _ => result element
  | path_exists _ => bool
  | yaml_safe_load _ => result pyval
  end.

(** A program: it returns, raises, or makes a call and goes on with the
    answer. *)
Inductive prog (A : Type) : Type :=
| Ret (a : A)
| Throw (e : exn)
| Call (c : call) (k : answer c -> prog A).
Arguments Ret {A} a.
Arguments Throw {A} e.
Arguments Call {A} c k.

Fixpoint bind {A B} (p : prog A) (f : A -> prog B) : prog B :=
  match p with
  | Ret a => f a
  | Throw e => Throw e
  | Call c k => Call c (fun x => bind (k x) f)
  end.

(** [try: p except ...: h e]; [h] re-raises what its clause does not
    catch. *)
Fixpoint try_except {A} (p : prog A) (h : exn -> prog A) : prog A :=
  match p with
  | Ret a => Ret a
  | Throw e => h e
  | Call c k => Call c (fun x => try_except (k x) h)
  end.

Definition perform (c : call) : prog (answer c) := Call c Ret.

Definition lift {A} (r : result A) : prog A :=
  match r with
  | Return a => Ret a
  | Raise e => Throw e
  end.

Declare Scope prog_scope.
Delimit Scope prog_scope with prog.
Notation "x <- p ;; k" := (bind p (fun x => k))
  (at level 61, p at next level, right associativity) : prog_scope.
Notation "p ;; k" := (bind p (fun _ => k))
  (at level 61, right associativity) : prog_scope.
Notation "x <~ c ;; k" := (Call c (fun x => k))
  (at level 61, c at next level, right associativity) : prog_scope.
Notation "x <~! c ;; k" := (Call c (fun r => bind (lift r) (fun x => k)))
  (at level 61, c at next level, right associativity) : prog_scope.

(** [for x in l: ...], the body handing back what it appends. *)
Fixpoint for_each {A B} (l : list A) (body : A -> prog B) : prog (list B) :=
  match l with
  | [] => Ret []
  | x :: rest =>
      (y <- body x ;; ys <- for_each rest body ;; Ret (y :: ys))%prog
  end.

(** *** Running a program

    The world answers every call and may change with it.  A run yields the
    outcome, the final world and the calls made, in order. *)

Section Run.

Variable world : Type.
Variable handler : forall c : call, world -> answer c * world.

Fixpoint run {A} (p : prog A) (w : world) : result A * world * list call :=
  match p with
  | Ret a => (Return a, w, [])
  | Throw e => (Raise e, w, [])
  | Call c k =>
      let (x, w1) := handler c w in
      let '(r, w2, calls) := run (k x) w1 in
      (r, w2, c :: calls)
  end.

Definition outcome {A} (p : prog A) (w : world) : result A :=
  fst (fst (run p w)).

Definition calls_made {A} (p : prog A) (w : world) : list call :=
  snd (run p w).

End Run.

Arguments run {world} handler {A} p w.
Arguments outcome {world} handler {A} p w.
Arguments calls_made {world} handler {A} p w.

(** ** [datetime.strptime(s, "%m/%d/%Y %H:%M")]

    The library turns the format into a regular expression, matches it at
    the start of the text, rejects text with unconverted data left over,
    converts the groups with [int] and builds the date, which rejects a day
    the month does not have.  The model follows these steps on ASCII text. *)

Record datetime : Type :=
  { year : Z; month : Z; day : Z; hour : Z; minute : Z }.

Definition in_range (lo hi c : ascii) : bool :=
  (nat_of_ascii lo <=? nat_of_ascii c)%nat &&
  (nat_of_ascii c <=? nat_of_ascii hi)%nat.

Definition is_char (a c : ascii) : bool := Ascii.eqb a c.

(** [\d] *)
Definition re_digit : ascii -> bool := in_range "0" "9".

(** [\s]: tab to carriage return, the four separators, and space. *)
Definition re_space (c : ascii) : bool :=
  let n := nat_of_ascii c in
  ((9 <=? n) && (n <=? 13) || (28 <=? n) && (n <=? 32))%nat.

(** One alternative of a directive: a character class per position. *)
Definition alt : Type := list (ascii -> bool).

(** [%m]: [1[0-2]|0[1-9]|[1-9]] *)
Definition re_m : list alt :=
  [ [is_char "1"; in_range "0" "2"];
    [is_char "0"; in_range "1" "9"];
    [in_range "1" "9"] ].

(** [%d]: [3[0-1]|[1-2]\d|0[1-9]|[1-9]| [1-9]] *)
Definition re_d : list alt :=
  [ [is_char "3"; in_range "0" "1"];
    [in_range "1" "2"; re_digit];
    [is_char "0"; in_range "1" "9"];
    [in_range "1" "9"];
    [is_char " "; in_range "1" "9"] ].

(** [%Y]: [\d\d\d\d] *)
Definition re_Y : list alt := [ [re_digit; re_digit; re_digit; re_digit] ].

(** [%H]: [2[0-3]|[0-1]\d|\d] *)
Definition re_H : list alt :=
  [ [is_char "2"; in_range "0" "3"];
    [in_range "0" "1"; re_digit];
    [re_digit] ].

(** [%M]: [[0-5]\d|\d] *)
Definition re_M : list alt :=
  [ [in_range "0" "5"; re_digit];
    [re_digit] ].

Inductive token : Type :=
| Directive (alts : list alt)
| Literal (c : ascii)
| Whitespace.

(** The format ["%m/%d/%Y %H:%M"]; its blank stands for [\s+]. *)
Definition accident_time_format : list token :=
  [ Directive re_m; Literal "/"; Directive re_d; Literal "/"; Directive re_Y;
    Whitespace; Directive re_H; Literal ":"; Directive re_M ].

(** The text one alternative matches at the front of [s], and the rest. *)
Fixpoint match_alt (a : alt) (s : string) : option (string * string) :=
  match a, s with
  | [], _ => Some ("", s)
  | p :: a', String c s' =>
      if p c then
        match match_alt a' s' with
        | Some (m, r) => Some (String c m, r)
        | None => None
        end
      else None
  | _ :: _, EmptyString => None
  end.

(** Alternatives are tried in order; one is taken when the rest of the
    expression matches behind it. *)
Fixpoint first_alt {R} (alts : list alt) (s : string)
         (k : string -> string -> option R) : option R :=
  match alts with
  | [] => None
  | a :: rest =>
      match match match_alt a s with
            | Some (m, r) => k m r
            | None => None
            end
      with
      | Some x => Some x
      | None => first_alt rest s k
      end
  end.

(** [\s+], longest run first. *)
Fixpoint spaces_then {R} (s : string) (k : string -> option R) : option R :=
  match s with
  | String c s' =>
      if re_space c then
        match spaces_then s' k with
        | Some x => Some x
        | None => k s'
        end
      else None
  | EmptyString => None
  end.

(** [regex.match]: the groups, last first, and the text left over. *)
Fixpoint regex_match (fmt : list token) (s : string) (groups : list string)
  : option (list string * string) :=
  match fmt with
  | [] => Some (groups, s)
  | Directive alts :: fmt' =>
      first_alt alts s (fun m r => regex_match fmt' r (m :: groups))
  | Literal c :: fmt' =>
      match s with
      | String c' s' =>
          if Ascii.eqb c c' then regex_match fmt' s' groups else None
      | EmptyString => None
      end
  | Whitespace :: fmt' => spaces_then s (fun r => regex_match fmt' r groups)
  end.

(** [int] on a group: digits, after a blank that [%d] may have matched. *)
Fixpoint int_of_group (s : string) (acc : Z) : Z :=
  match s with
  | EmptyString => acc
  | String c rest =>
      match digit_of c with
      | Some d => int_of_group rest (10 * acc + d)
      | None => int_of_group rest acc
      end
  end.

Definition is_leap (y : Z) : bool :=
  (y mod 4 =? 0)%Z && (negb (y mod 100 =? 0)%Z || (y mod 400 =? 0)%Z).

Definition days_in_month (y m : Z) : Z :=
  if (m =? 2)%Z then (if is_leap y then 29 else 28)
  else if (m =? 4)%Z || (m =? 6)%Z || (m =? 9)%Z || (m =? 11)%Z then 30
  else 31.

(** The checks of the [date] constructor. *)
Definition valid_date (y m d : Z) : bool :=
  (1 <=? y)%Z && (y <=? 9999)%Z && (1 <=? m)%Z && (m <=? 12)%Z &&
  (1 <=? d)%Z && (d <=? days_in_month y m)%Z.

Definition strptime_str (data_string : string) : result datetime :=
  match regex_match accident_time_format data_string [] with
  | Some ([M; H; Y; d; m], EmptyString) =>
      let dt := {| year := int_of_group Y 0; month := int_of_group m 0;
                   day := int_of_group d 0; hour := int_of_group H 0;
                   minute := int_of_group M 0 |} in
      if valid_date (year dt) (month dt) (day dt) then Return dt
      else Raise (mk_exn ValueError "day is out of range for month")
  | Some (_, String _ _) =>
      Raise (mk_exn ValueError "unconverted data remains")
  | _ => Raise (mk_exn ValueError "time data does not match format")
  end.

(** [datetime.strptime(v, "%m/%d/%Y %H:%M")] *)
Definition strptime (v : pyval) : result datetime :=
  match v with
  | VStr s => strptime_str s
  | _ => Raise (mk_exn TypeError "strptime() argument 1 must be str")
  end.

(** ** Context extraction *)

(** [try: r except k: h] on code that makes no call. *)
Definition rtry {A} (r : result A) (k : exn_class) (h : result A) : result A :=
  match r with
  | Return a => Return a
  | Raise e => if isinstance e k then h else Raise e
  end.

(** Lines 289-298. *)
Definition time_of_day (hour : Z) : string :=
  if (5 <=? hour)%Z && (hour <? 11)%Z then "morning"
  else if (11 <=? hour)%Z && (hour <? 13)%Z then "noon"
  else if (13 <=? hour)%Z && (hour <? 17)%Z then "afternoon"
  else if (17 <=? hour)%Z && (hour <? 19)%Z then "evening"
  else "night".

(** Lines 284-300. *)
Definition describe_time (accident_time_str : pyval) : result (option string) :=
  if truthy accident_time_str then
    rtry (accident_dt <- strptime accident_time_str ;;
          Return (Some (time_of_day (hour accident_dt))))%result
         ValueError
         (Return None)
  else Return None.

Section Context.

(** The builtin [str] on an object that is not itself a [str]. *)
Variable object_str : pyval -> string.

(** [f"{v}"] *)
Definition py_str (v : pyval) : string :=
  match v with
  | VStr s => s
  | _ => object_str v
  end.

(** Lines 302-310. *)
Definition environment_components
           (weather light road_surface : pyval)
           (time_descriptor : option string) : list string :=
  (if truthy weather then [("weather: " ++ py_str weather)%string] else []) ++
  (if truthy light then [("lighting: " ++ py_str light)%string] else []) ++
  (if truthy road_surface
   then [("road surface: " ++ py_str road_surface)%string] else []) ++
  (match time_descriptor with
   | Some d => if truthy_str time_descriptor
               then [("time of day: " ++ d)%string] else []
   | None => []
   end).

(** Lines 278-312, on the loaded report. *)
Definition context_of_report (report_data : pyval)
  : result (string * option string) :=
  (aw <- py_get report_data "accident_weather" (VDict []) ;;
   let accident_weather := if truthy aw then aw else VDict [] in
   weather <- py_get accident_weather "weather" VNone ;;
   light <- py_get accident_weather "light" VNone ;;
   road_surface <- py_get accident_weather "road_surface_condition" VNone ;;
   accident_time_str <- py_get report_data "accident_time" VNone ;;
   time_descriptor <- describe_time accident_time_str ;;
   Return (String.concat ", "
             (environment_components weather light road_surface
                                     time_descriptor),
           time_descriptor))%result.

(** [_load_environment_context].  The call [yaml_safe_load] stands for
    opening the report as UTF-8 text and [yaml.safe_load] on it. *)
Definition _load_environment_context (path_to_fcd : Path)
  : prog (string * option string) :=
  let report_path := joinpath (parent path_to_fcd) "report.yaml" in
  (found <~ path_exists report_path ;;
   if negb found then Ret ("", None)
   else
     loaded <- try_except
                 (data <~! yaml_safe_load report_path ;;
                  Ret (Some (if truthy data then data else VDict [])))
                 (fun e =>
                    if isinstance e OSError || isinstance e YAMLError
                    then Ret None else Throw e) ;;
     match loaded with
     | None => Ret ("", None)
     | Some report_data => lift (context_of_report report_data)
     end)%prog.

End Context.

(** ** The class [StreetViewRetrievalAndAnalysis] *)

(** The attributes [__init__] sets.  [gemini_api_key] is set on the Gemini
    branch only; [None] stands for the attribute not being there. *)
Record instance : Type :=
  { google_maps_api_key : option string;
    gemini_model_name : string;
    openrouter_model_name : option string;
    use_openrouter : bool;
    gemini_client : option GenerativeModel;
    openrouter_api_key : option string;
    openrouter_url : string;
    gemini_api_key : option string }.

(** [str(z)] for an [int]. *)
Definition str_of_Z (z : Z) : string := NilZero.string_of_int (Z.to_int z).

(** [f"{o}"] for a [str | None]. *)
Definition str_of_opt (o : option string) : string :=
  match o with
  | Some s => s
  | None => "None"
  end.

Definition param_of_opt (o : option string) : param :=
  match o with
  | Some s => PStr s
  | None => PNone
  end.

Definition pyval_of_opt (o : option string) : pyval :=
  match o with
  | Some s => VStr s
  | None => VNone
  end.

(** [__init__], lines 29-58. *)
Definition __init__ (google_model openrouter_model : option string)
  : prog instance :=
  (maps_key <~ os_getenv "GOOGLE_MAPS_API_KEY" ;;
   model_name <-
     (if truthy_str google_model then Ret (str_of_opt google_model)
      else
        v <~ os_getenv "GEMINI_MODEL_NAME" ;;
        Ret (match v with Some s => s | None => "gemini-2.5-pro" end)) ;;
   if negb (truthy_str maps_key) then
     Throw (mk_exn ValueError "Google Maps API key is required")
   else if truthy_str openrouter_model then
     router_key <~ os_getenv "OPENROUTER_API_KEY" ;;
     if negb (truthy_str router_key) then
       Throw (mk_exn ValueError
                "OpenRouter API key is required when openrouter_model is specified")
     else
       Ret {| google_maps_api_key := maps_key;
              gemini_model_name := model_name;
              openrouter_model_name := openrouter_model;
              use_openrouter := true;
              gemini_client := None;
              openrouter_api_key := router_key;
              openrouter_url := "https://openrouter.ai/api/v1/chat/completions";
              gemini_api_key := None |}
   else
     gemini_key <~ os_getenv "GEMINI_API_KEY" ;;
     if negb (truthy_str gemini_key) then
       Throw (mk_exn ValueError "Google Gemini API key is required")
     else
       try_except
         (_ <~! import_module "google.generativeai" ;; Ret tt)
         (fun exc =>
            if isinstance exc ModuleNotFoundError then
              Throw (mk_exn ImportError
                       "google-generativeai package is required for StreetViewRetrievalAndAnalysis")
            else Throw exc) ;;
       _ <~! genai_configure (str_of_opt gemini_key) ;;
       client <~! genai_GenerativeModel model_name ;;
       Ret {| google_maps_api_key := maps_key;
              gemini_model_name := model_name;
              openrouter_model_name := openrouter_model;
              use_openrouter := false;
              gemini_client := Some client;
              openrouter_api_key := None;
              openrouter_url := "https://openrouter.ai/api/v1/chat/completions";
              gemini_api_key := gemini_key |})%prog.

Section Analysis.

(** Builtins and library functions without effects: [float] on a [str],
    [str] on a [float], [str] on other objects, and [base64.b64encode]
    decoded as UTF-8. *)
Variable str_to_float : string -> option float.
Variable float_to_str : float -> string.
Variable object_str : pyval -> string.
Variable b64encode : bytes -> string.

(** [get_street_view_image] *)
Definition get_street_view_image
           (self : instance) (latitude longitude : float)
           (heading : param) (pitch fov : Z) : prog bytes :=
  let url := "https://maps.googleapis.com/maps/api/streetview" in
  let params :=
    [ ("size", PStr "600x400");
      ("location",
       PStr (float_to_str latitude ++ "," ++ float_to_str longitude)%string);
      ("heading", heading);
      ("pitch", PInt pitch);
      ("fov", PInt fov);
      ("key", param_of_opt (google_maps_api_key self)) ] in
  (response <~! requests_get url params ;;
   if (status_code response =? 200)%Z then Ret (content response)
   else
     Throw (mk_exn Exception
              ("Failed to get street view image: "
                 ++ str_of_Z (status_code response))%string))%prog.

(** [response.raise_for_status()] *)
Definition raise_for_status (r : response) : prog unit :=
  if (400 <=? status_code r)%Z && (status_code r <? 600)%Z
  then Throw (mk_exn HTTPError (str_of_Z (status_code r)))
  else Ret tt.

(** [_generate_with_openrouter] *)
Definition _generate_with_openrouter
           (self : instance) (prompt : string) (image_data : bytes)
  : prog pyval :=
  let image_b64 := b64encode image_data in
  let content :=
    VList
      [ VDict [ (VStr "type", VStr "text"); (VStr "text", VStr prompt) ];
        VDict [ (VStr "type", VStr "image_url");
                (VStr "image_url",
                 VDict [ (VStr "url",
                          VStr ("data:image/jpeg;base64," ++ image_b64)%string)
                       ]) ] ] in
  let payload :=
    VDict [ (VStr "model", pyval_of_opt (openrouter_model_name self));
            (VStr "messages",
             VList [ VDict [ (VStr "role", VStr "user");
                             (VStr "content", content) ] ]) ] in
  let headers :=
    [ ("Authorization",
       ("Bearer " ++ str_of_opt (openrouter_api_key self))%string);
      ("Content-Type", "application/json") ] in
  (response <~! requests_post (openrouter_url self) headers payload 60 ;;
   raise_for_status response ;;
   data <- lift (json response) ;;
   lift (choices <- subscript_str data "choices" ;;
         choice <- subscript_zero choices ;;
         message <- subscript_str choice "message" ;;
         subscript_str message "content")%result)%prog.

(** [analyze_image_with_llm] *)
Definition analyze_image_with_llm
           (self : instance) (image_data : bytes)
           (environment_description : string)
           (time_descriptor : option string) : prog pyval :=
  let prompt :=
    "Please describe the environment and setting of this street view image. Focus on static elements like buildings, roads, vegetation, weather conditions, and overall atmosphere. Ignore any moving objects or people. This description will be used as a prompt for video generation." in
  let prompt :=
    if negb (environment_description =? "") then
      (prompt
         ++ " You must strictly adhere to the provided scene conditions: "
         ++ environment_description
         ++ ". If the visual cues appear inconsistent, describe the scene as given here.")%string
    else prompt in
  let prompt :=
    if truthy_str time_descriptor then
      (prompt ++ " The scene occurs during the "
              ++ str_of_opt time_descriptor
              ++ ". Explicitly mention this time of day in the description.")%string
    else prompt in
  if use_openrouter self then _generate_with_openrouter self prompt image_data
  else
    match gemini_client self with
    | None => Throw (mk_exn RuntimeError "Gemini client is not initialized")
    | Some client =>
        (text <~! generate_content client prompt "image/jpeg" image_data ;;
         Ret (VStr text))%prog
    end.

(** Line 215. *)
Definition camera_angle_list : list (string * Z) :=
  [ ("front", 0); ("front_left", -66); ("front_right", 66);
    ("rear", 180); ("rear_left", -152); ("rear_right", 152) ]%Z.

(** Line 216. *)
Definition fov_list : list (string * Z) :=
  [ ("front", 120); ("front_left", 120); ("front_right", 120);
    ("rear", 30); ("rear_left", 70); ("rear_right", 70) ]%Z.

(** Lines 217-224. *)
Definition default_prompt_list : list (string * string) :=
  [ ("front", "The video is captured from a camera mounted on a car. The camera is facing forward. ");
    ("front_left", "The video is captured from a camera mounted on a car. The camera is facing to the left. ");
    ("front_right", "The video is captured from a camera mounted on a car. The camera is facing to the right. ");
    ("rear", "The video is captured from a camera mounted on a car. The camera is facing backwards. ");
    ("rear_left", "The video is captured from a camera mounted on a car. The camera is facing the rear left side. ");
    ("rear_right", "The video is captured from a camera mounted on a car. The camera is facing the rear right side. ") ].

(** [a + v] for a [str] [a]: only a [str] can be appended. *)
Definition str_add (a : string) (v : pyval) : result string :=
  match v with
  | VStr s => Return (a ++ s)%string
  | _ => Raise (mk_exn TypeError "can only concatenate str to str")
  end.

Definition newline : string := String "010" "".

(** The [try] block of the loop, lines 232-256; it hands back what it
    appends to [descriptions]. *)
Definition camera_attempt
           (self : instance) (path_to_output : Path) (lat lon angle : float)
           (environment_description : string)
           (time_descriptor : option string)
           (camera : string * Z) : prog string :=
  let (camera_name, camera_angle) := camera in
  (let heading := PyFloat.add angle (PyFloat.of_Z camera_angle) in
   fov <- lift (table_item fov_list camera_name) ;;
   image_data <- get_street_view_image self lat lon (PFloat heading) 0 fov ;;
   let image_filename :=
     ("streetview_image_" ++ camera_name ++ ".jpg")%string in
   _ <~! open_write (joinpath path_to_output image_filename)
                    (Binary image_data) ;;
   _ <~ print ("Street view image saved as "
                 ++ path_str (joinpath path_to_output image_filename))%string ;;
   description <- analyze_image_with_llm self image_data
                    environment_description time_descriptor ;;
   let time_prefix :=
     if truthy_str time_descriptor
     then ("The scene occurs during the "
             ++ str_of_opt time_descriptor ++ ". ")%string
     else "" in
   default_prompt <- lift (table_item default_prompt_list camera_name) ;;
   full_description <-
     lift (str_add (default_prompt ++ time_prefix)%string description) ;;
   let desc_filename := ("prompt_" ++ camera_name ++ ".txt")%string in
   _ <~! open_write (joinpath path_to_output desc_filename)
                    (Text full_description) ;;
   _ <~ print ("Environment description saved as "
                 ++ path_str (joinpath path_to_output desc_filename))%string ;;
   Ret (camera_name ++ ": " ++ full_description)%string)%prog.

(** Line 260: what stands in for a viewpoint that failed. *)
Definition failure_section (camera_name : string) : string :=
  (camera_name ++ ": Failed to retrieve street view")%string.

(** One turn of the loop, lines 230-260.  [except Exception] catches
    whatever the block raises: every [exn] is an instance of [Exception];
    the interrupts that are not ([KeyboardInterrupt], [SystemExit]) stop
    the process and are not part of the model. *)
Definition describe_camera
           (self : instance) (path_to_output : Path) (lat lon angle : float)
           (environment_description : string)
           (time_descriptor : option string)
           (camera : string * Z) : prog string :=
  try_except
    (camera_attempt self path_to_output lat lon angle
                    environment_description time_descriptor camera)
    (fun e =>
       (_ <~ print ("Error retrieving street view for " ++ fst camera
                      ++ ": " ++ exn_msg e)%string ;;
        Ret (failure_section (fst camera)))%prog).

(** Lines 195-227: all that precedes the loop.  [None] when the lookup
    found no pose; the caller then returns the text of line 205. *)
Definition prepare
           (path_to_fcd path_to_map : Path)
           (vehicle_id : option string) (target_time : float)
  : prog (option (float * float * float * string * option string)) :=
  (sumo_net <~! sumolib_readNet path_to_map ;;
   root <~! ET_parse path_to_fcd ;;
   vehicle_position <-
     lift (get_vehicle_position_at_time str_to_float root vehicle_id
                                        target_time) ;;
   match vehicle_position with
   | None => Ret None
   | Some (x, y, angle) =>
       lonlat <- lift (convertXY2LonLat sumo_net x y) ;;
       let (lon, lat) := lonlat : float * float in
       _ <~ print ("Processing location at lon: " ++ float_to_str lon
                     ++ ", lat: " ++ float_to_str lat
                     ++ ", angle: " ++ float_to_str angle)%string ;;
       context <- _load_environment_context object_str path_to_fcd ;;
       let (environment_description, time_descriptor) :=
         context : string * option string in
       Ret (Some (lon, lat, angle, environment_description, time_descriptor))
   end)%prog.

(** [get_streetview_image_and_description] *)
Definition get_streetview_image_and_description
           (self : instance) (path_to_output path_to_fcd path_to_map : Path)
           (vehicle_id : option string) (target_time : float) : prog string :=
  (prepared <- prepare path_to_fcd path_to_map vehicle_id target_time ;;
   match prepared with
   | None => Ret "Vehicle not found at the specified time"
   | Some (lon, lat, angle, environment_description, time_descriptor) =>
       descriptions <-
         for_each camera_angle_list
                  (describe_camera self path_to_output lat lon angle
                                   environment_description time_descriptor) ;;
       Ret (String.concat (newline ++ newline)%string descriptions)
   end)%prog.

End Analysis.

(** ** A scripted world for worked examples

    The world has no state; every call is answered from a table. *)

Record scenario : Type :=
  { environ : string -> option string;
    genai_installed : bool;
    net_file : Path -> result sumo_net;
    xml_file : Path -> result element;
    file_exists : Path -> bool;
    yaml_file : Path -> result pyval;
    http_get : string -> list (string * param) -> result response;
    http_post : string -> pyval -> result response;
    gemini_text : string -> bytes -> result string;
    writable : Path -> bool }.

Definition scripted (s : scenario) (c : call) (w : unit) : answer c * unit :=
  (match c return answer c with
   | os_getenv name => environ s name
   | import_module name =>
       if genai_installed s then Return tt
       else Raise (mk_exn ModuleNotFoundError name)
   | genai_configure _ => Return tt
   | genai_GenerativeModel name => Return {| model_name := name |}
   | generate_content _ prompt _ data => gemini_text s prompt data
   | requests_get url params => http_get s url params
   | requests_post url _ payload _ => http_post s url payload
   | open_write path _ =>
       if writable s path then Return tt
       else Raise (mk_exn FileNotFoundError (path_str path))
   | print _ => tt
   | sumolib_readNet path => net_file s path
   | ET_parse path => xml_file s path
   | path_exists path => file_exists s path
   | yaml_safe_load path => yaml_file s path
   end, w).

(** A machine with nothing configured and no network. *)
Definition offline : scenario :=
  {| environ := fun _ => None;
     genai_installed := false;
     net_file := fun p => Raise (mk_exn FileNotFoundError (path_str p));
     xml_file := fun p => Raise (mk_exn FileNotFoundError (path_str p));
     file_exists := fun _ => false;
     yaml_file := fun p => Raise (mk_exn FileNotFoundError (path_str p));
     http_get := fun _ _ => Raise (mk_exn OSError "network is unreachable");
     http_post := fun _ _ => Raise (mk_exn OSError "network is unreachable");
     gemini_text := fun _ _ => Raise (mk_exn OSError "network is unreachable");
     writable := fun _ => true |}.

(** ** Sample data for worked examples *)

(** The log of the end-to-end case: one timestep at 2.0 with one vehicle at
    (10, 20) heading 90. *)
Definition example_log : element :=
  Element "fcd-export" []
    [ Element "timestep" [("time", "2.0")]
        [ Element "vehicle"
            [("id", "v0"); ("x", "10"); ("y", "20"); ("angle", "90")] [] ] ].

(** Two timesteps equally far from 2, the later one first in the file. *)
Definition tie_log : element :=
  Element "fcd-export" []
    [ Element "timestep" [("time", "3")] [];
      Element "timestep" [("time", "1")] [] ].

(** The vehicle is recorded at time 0 and gone at time 10. *)
Definition departed_log : element :=
  Element "fcd-export" []
    [ Element "timestep" [("time", "0")]
        [ Element "vehicle"
            [("id", "v0"); ("x", "10"); ("y", "20"); ("angle", "90")] [] ];
      Element "timestep" [("time", "10")] [] ].

Definition sample_fcd : Path := ["run"; "final.fcd.xml"].
Definition sample_map : Path := ["run"; "map.net.xml"].
Definition sample_out : Path := ["run"; "out"].

(** A network whose projection leaves coordinates as they are. *)
Definition plain_net : sumo_net :=
  {| convertXY2LonLat := fun x y => Return (x, y) |}.

(** Stand-ins for [str] on floats and on other objects and for
    [b64encode]; the examples do not depend on what they print. *)
Definition sample_float_to_str (f : float) : string := "<float>".
Definition sample_object_str (v : pyval) : string := "<object>".
Definition sample_b64encode (b : bytes) : string := "".

Definition crash_report : list (pyval * pyval) :=
  [ (VStr "accident_weather",
     VDict [ (VStr "weather", VStr "Rain");
             (VStr "light", VStr "");
             (VStr "road_surface_condition", VStr "Wet") ]);
    (VStr "accident_time", VStr "03/15/2024 08:30") ].

(** The same report with a time that is not a time. *)
Definition garbled_report : list (pyval * pyval) :=
  [ (VStr "accident_weather", VDict [ (VStr "weather", VStr "Rain") ]);
    (VStr "accident_time", VStr "yesterday") ].

(** A machine that holds a log, a network and a report but has no network
    access: every image request fails. *)
Definition field_trip (log : element) (report : list (pyval * pyval))
  : scenario :=
  {| environ := fun name =>
                  if name =? "GOOGLE_MAPS_API_KEY" then Some "maps-key"
                  else if name =? "OPENROUTER_API_KEY" then Some "router-key"
                  else None;
     genai_installed := false;
     net_file := fun _ => Return plain_net;
     xml_file := fun _ => Return log;
     file_exists := fun _ => true;
     yaml_file := fun _ => Return (VDict report);
     http_get := fun _ _ => Raise (mk_exn OSError "network is unreachable");
     http_post := fun _ _ => Raise (mk_exn OSError "network is unreachable");
     gemini_text := fun _ _ => Raise (mk_exn OSError "network is unreachable");
     writable := fun _ => true |}.

(** The instance [__init__] builds there for a remote model. *)
Definition remote_instance : instance :=
  {| google_maps_api_key := Some "maps-key";
     gemini_model_name := "gemini-2.5-pro";
     openrouter_model_name := Some "google/gemini-2.5-pro";
     use_openrouter := true;
     gemini_client := None;
     openrouter_api_key := Some "router-key";
     openrouter_url := "https://openrouter.ai/api/v1/chat/completions";
     gemini_api_key := None |}.

(** * [video_extract.py]

    [extract_frames] talks to OpenCV and to the file system.  Its calls
    are answered by a world, as the calls of the class above are; every
    call may raise. *)

(** What [cap.read] hands out besides its flag: an image or [None]. *)
Definition frame : Type := option bytes.

Inductive cv_call : Type :=
| cv2_VideoCapture (video_path : string)
| cap_get_fps
| os_makedirs (output_dir : string)
| cap_read
| cap_set_pos_frames (value : Z)
| cv2_imwrite (output_path : string) (img : frame)
| cap_release.

Definition cv_answer (c : cv_call) : Type :=
  match c with
  | cv2_VideoCapture _ => unit
  | cap_get_fps => float
  | os_makedirs _ => unit
  | cap_read => bool * frame
  | cap_set_pos_frames _ => bool
  | cv2_imwrite _ _ => bool
  | cap_release => unit
  end.

(** [fps * interval] on two floats. *)
Definition float_mul : float -> float -> float :=
  SFmul PyFloat.prec PyFloat.emax.

(** [int(f)]: truncation towards zero; infinities and NaN raise. *)
Definition int_of_float (f : float) : result Z :=
  match f with
  | S754_zero _ => Return 0%Z
  | S754_finite s m e =>
      let magnitude := Z.shiftl (Z.pos m) e in
      Return (if s then (- magnitude)%Z else magnitude)
  | S754_infinity _ =>
      Raise (mk_exn (OtherError "OverflowError")
                    "cannot convert float infinity to integer")
  | S754_nan =>
      Raise (mk_exn ValueError "cannot convert float NaN to integer")
  end.

(** Line 7: [max(1, int(fps * interval))]. *)
Definition frame_interval (fps interval : float) : result Z :=
  (n <- int_of_float (float_mul fps interval) ;;
   Return (Z.max 1 n))%result.

Fixpoint zeros (n : nat) : string :=
  match n with
  | O => ""
  | S n' => String "0" (zeros n')
  end.

(** [f"{n:06d}"]: the sign, then the digits padded with zeros to six
    characters in all. *)
Definition format_06d (n : Z) : string :=
  let sign := if (n <? 0)%Z then "-" else "" in
  let digits := str_of_Z (Z.abs n) in
  sign ++ zeros (6 - String.length sign - String.length digits) ++ digits.

Fixpoint ends_with_slash (s : string) : bool :=
  match s with
  | EmptyString => false
  | String c EmptyString => Ascii.eqb c "/"
  | String _ rest => ends_with_slash rest
  end.

(** [os.path.join(a, b)] on a POSIX system. *)
Definition os_path_join (a b : string) : string :=
  if String.prefix "/" b then b
  else if (a =? "") || ends_with_slash a then a ++ b
  else a ++ "/" ++ b.

Section VideoExtract.

Context {world : Type}.
Variable cv_handler :
  forall c : cv_call, world -> result (cv_answer c) * world.

(** A computation on the world: its outcome, the world after it and the
    calls it made, in order. *)
Definition video (A : Type) : Type :=
  world -> result A * world * list cv_call.

Definition vret {A} (a : A) : video A := fun w => (Return a, w, []).

Definition vlift {A} (r : result A) : video A := fun w => (r, w, []).

Definition vbind {A B} (m : video A) (f : A -> video B) : video B :=
  fun w =>
    match m w with
    | (Return a, w1, c1) =>
        let '(r, w2, c2) := f a w1 in (r, w2, c1 ++ c2)
    | (Raise e, w1, c1) => (Raise e, w1, c1)
    end.

Definition vcall (c : cv_call) : video (cv_answer c) :=
  fun w => let (r, w1) := cv_handler c w in (r, w1, [c]).

Declare Scope video_scope.
Delimit Scope video_scope with video.
Notation "x <- m ;; k" := (vbind m (fun x => k))
  (at level 61, m at next level, right associativity) : video_scope.
Notation "m ;; k" := (vbind m (fun _ => k))
  (at level 61, right associativity) : video_scope.

(** The loop of lines 14-21, run for at most [fuel] tests of its
    condition; [None] when the condition still held after that many. *)
Fixpoint read_loop (fuel : nat) (output_dir : string)
         (frame_interval frame_count saved_count : Z)
  : video (option unit) :=
  match fuel with
  | O => vret None
  | S fuel' =>
      (test <- vcall cap_read ;;
       if fst test then
         saved_count <-
           (if (frame_count mod frame_interval =? 0)%Z then
              vcall (cap_set_pos_frames frame_count) ;;
              ret_frame <- vcall cap_read ;;
              let output_path :=
                os_path_join output_dir
                  ("frame_" ++ format_06d saved_count ++ ".png") in
              vcall (cv2_imwrite output_path (snd ret_frame)) ;;
              vret (saved_count + 1)%Z
            else vret saved_count) ;;
         read_loop fuel' output_dir frame_interval (frame_count + 1)%Z
                   saved_count
       else vret (Some tt))%video
  end.

(** [extract_frames], lines 4-23. *)
Definition extract_frames (fuel : nat) (video_path output_dir : string)
           (interval : float) : video (option unit) :=
  (vcall (cv2_VideoCapture video_path) ;;
   fps <- vcall cap_get_fps ;;
   frame_interval <- vlift (frame_interval fps interval) ;;
   vcall (os_makedirs output_dir) ;;
   ended <- read_loop fuel output_dir frame_interval 0 0 ;;
   match ended with
   | None => vret None
   | Some _ => vcall cap_release ;; vret (Some tt)
   end)%video.

End VideoExtract.

(** ** Further sample data *)

(** A log whose second timestep carries a time that is no number. *)
Definition broken_log : element :=
  Element "fcd-export" []
    [ Element "timestep" [("time", "1")] [];
      Element "timestep" [("time", "soon")] [] ].

(** [departed_log] with its timesteps in the other order. *)
Definition departed_log_reversed : element :=
  Element "fcd-export" []
    [ Element "timestep" [("time", "10")] [];
      Element "timestep" [("time", "0")]
        [ Element "vehicle"
            [("id", "v0"); ("x", "10"); ("y", "20"); ("angle", "90")] [] ] ].

Definition sample_image : bytes := [Byte.xff; Byte.xd8; Byte.xff; Byte.xd9].

(** An image served, a refusal, and a rate limit. *)
Definition image_response : response :=
  {| status_code := 200;
     content := sample_image;
     json := Raise (mk_exn ValueError "Expecting value") |}.

Definition forbidden_response : response :=
  {| status_code := 403;
     content := [];
     json := Raise (mk_exn ValueError "Expecting value") |}.

Definition rate_limited_response : response :=
  {| status_code := 429;
     content := [];
     json := Return (VDict [(VStr "choices", VList [])]) |}.

(** A chat completion with one choice, and a 200 that carries an error
    object instead. *)
Definition completion (text : pyval) : response :=
  {| status_code := 200;
     content := [];
     json :=
       Return
         (VDict
            [ (VStr "id", VStr "gen-1");
              (VStr "choices",
               VList
                 [ VDict
                     [ (VStr "index", VInt 0);
                       (VStr "message",
                        VDict [ (VStr "role", VStr "assistant");
                                (VStr "content", text) ]) ] ]) ]) |}.

Definition error_body_response : response :=
  {| status_code := 200;
     content := [];
     json :=
       Return
         (VDict [(VStr "error", VDict [(VStr "message", VStr "overloaded")])])
  |}.

(** A machine with every key set and the Gemini package installed; it
    holds a log and a network, no report, and answers image requests,
    chat requests and Gemini calls as told. *)
Definition city (log : element) (image reply : result response)
           (caption : result string) : scenario :=
  {| environ := fun name =>
                  if name =? "GOOGLE_MAPS_API_KEY" then Some "maps-key"
                  else if name =? "GEMINI_API_KEY" then Some "gemini-key"
                  else if name =? "OPENROUTER_API_KEY" then Some "router-key"
                  else None;
     genai_installed := true;
     net_file := fun _ => Return plain_net;
     xml_file := fun _ => Return log;
     file_exists := fun _ => false;
     yaml_file := fun p => Raise (mk_exn FileNotFoundError (path_str p));
     http_get := fun _ _ => image;
     http_post := fun _ _ => reply;
     gemini_text := fun _ _ => caption;
     writable := fun _ => true |}.

(** The same machine without the Gemini package. *)
Definition without_genai (s : scenario) : scenario :=
  {| environ := environ s;
     genai_installed := false;
     net_file := net_file s;
     xml_file := xml_file s;
     file_exists := file_exists s;
     yaml_file := yaml_file s;
     http_get := http_get s;
     http_post := http_post s;
     gemini_text := gemini_text s;
     writable := writable s |}.

(** The same machine with a report that loads as [report]. *)
Definition with_report (s : scenario) (report : result pyval) : scenario :=
  {| environ := environ s;
     genai_installed := genai_installed s;
     net_file := net_file s;
     xml_file := xml_file s;
     file_exists := fun _ => true;
     yaml_file := fun _ => report;
     http_get := http_get s;
     http_post := http_post s;
     gemini_text := gemini_text s;
     writable := writable s |}.

(** The instance [__init__] builds on [city] for the Gemini model
    "gemini-2.0-flash". *)
Definition local_instance : instance :=
  {| google_maps_api_key := Some "maps-key";
     gemini_model_name := "gemini-2.0-flash";
     openrouter_model_name := None;
     use_openrouter := false;
     gemini_client := Some {| model_name := "gemini-2.0-flash" |};
     openrouter_api_key := None;
     openrouter_url := "https://openrouter.ai/api/v1/chat/completions";
     gemini_api_key := Some "gemini-key" |}.

Definition unreachable : exn := mk_exn OSError "network is unreachable".

(** The default [interval], 0.1, and a clip of seven one-byte frames at
    30 frames per second. *)
Definition tenth : float :=
  SFdiv PyFloat.prec PyFloat.emax (PyFloat.of_Z 1) (PyFloat.of_Z 10).

Definition seven_frames : list bytes :=
  [ [Byte.x00]; [Byte.x01]; [Byte.x02]; [Byte.x03]; [Byte.x04]; [Byte.x05];
    [Byte.x06] ].

(** A capture that cannot decode its file: every read raises. *)
Definition corrupt_handler (c : cv_call) (w : unit)
  : result (cv_answer c) * unit :=
  (match c return result (cv_answer c) with
   | cv2_VideoCapture _ => Return tt
   | cap_get_fps => Return (PyFloat.of_Z 30)
   | os_makedirs _ => Return tt
   | cap_read => Raise (mk_exn (OtherError "cv2.error") "could not decode")
   | cap_set_pos_frames _ => Return true
   | cv2_imwrite _ _ => Return true
   | cap_release => Return tt
   end, w).

(** ** Vocabulary of the properties *)

(** *** The order of binary64 values *)

Module FloatRank.

Import PyFloat.

(** Every value but NaN is ranked by a triple that [SFcompare] orders
    lexicographically: sign class, then exponent, then mantissa. *)
Definition rank (x : float) : Z * Z * Z :=
  match x with
  | S754_nan => (0, 0, 0)
  | S754_zero _ => (0, 0, 0)
  | S754_infinity true => (-2, 0, 0)
  | S754_infinity false => (2, 0, 0)
  | S754_finite true m e => (-1, - e, Z.neg m)
  | S754_finite false m e => (1, e, Z.pos m)
  end%Z.

Definition lex (a b : Z * Z * Z) : comparison :=
  let '(a1, a2, a3) := a in
  let '(b1, b2, b3) := b in
  match (a1 ?= b1)%Z with
  | Eq => match (a2 ?= b2)%Z with Eq => (a3 ?= b3)%Z | c => c end
  | c => c
  end.

Definition lex_lt (a b : Z * Z * Z) : Prop :=
  let '(a1, a2, a3) := a in
  let '(b1, b2, b3) := b in
  (a1 < b1 \/ (a1 = b1 /\ (a2 < b2 \/ (a2 = b2 /\ a3 < b3))))%Z.

End FloatRank.

(** *** Pose lookup *)

Section PoseVocabulary.

Import PyFloat.

Variable str_to_float : string -> option float.

(** The number an attribute denotes, if it is there and [float] reads it. *)
Definition number (e : element) (key : string) : option float :=
  match get e key with
  | Some s => str_to_float s
  | None => None
  end.

Definition timestamp (u : element) : option float := number u "time".

(** A timestep whose [time] attribute is a number. *)
Definition numeric_time (u : element) : bool :=
  match timestamp u with
  | Some _ => true
  | None => false
  end.

(** A timestep whose [time] attribute is a finite number. *)
Definition finite_time (u : element) : bool :=
  match timestamp u with
  | Some t => is_finite t
  | None => false
  end.

Definition time_of (u : element) : float :=
  match timestamp u with
  | Some t => t
  | None => S754_nan
  end.

(** Distance of a timestep from the target, as line 158 computes it. *)
Definition distance (target_time : float) (u : element) : float :=
  abs (sub (time_of u) target_time).

Definition key_le (a b : float * element) : Prop := leb (fst a) (fst b) = true.
Definition key_ok (a : float * element) : Prop := is_nan (fst a) = false.

Definition time_le (a b : element) : Prop := leb (time_of a) (time_of b) = true.

(** The vehicle records the lookup compares the id with. *)
Definition has_id (vehicle_id : option string) (v : element) : bool :=
  opt_str_eqb (get v "id") vehicle_id.

(** The triple a vehicle record carries, when all three are numbers. *)
Definition coordinates (v : element) : option pose :=
  match number v "x", number v "y", number v "angle" with
  | Some x, Some y, Some angle => Some (x, y, angle)
  | _, _, _ => None
  end.

End PoseVocabulary.

(** *** Programs *)

(** A program that never makes a call of the kind [P]. *)
Fixpoint avoids {A} (P : call -> bool) (p : prog A) : Prop :=
  match p with
  | Ret _ | Throw _ => True
  | Call c k => P c = false /\ forall x, avoids P (k x)
  end.


(** *** Accident times *)

Module AccidentTime.

(** The text ["MM/DD/YYYY HH:MM"] of five numbers, as
    [f"{mo:02d}/{d:02d}/{y:04d} {h:02d}:{mi:02d}"] prints them. *)
Definition digit_char (n : nat) : ascii := ascii_of_nat (48 + n).

Definition two_digits (n : nat) : string :=
  String (digit_char (n / 10)) (String (digit_char (n mod 10)) "").

Definition four_digits (n : nat) : string :=
  String (digit_char (n / 1000))
    (String (digit_char (n / 100 mod 10)) (two_digits (n mod 100))).

Definition format (mo d y h mi : nat) : string :=
  (two_digits mo ++ "/" ++ two_digits d ++ "/" ++ four_digits y ++ " "
     ++ two_digits h ++ ":" ++ two_digits mi)%string.

(** What a literal of the format does with the text in front of it. *)
Definition then_literal {R} (sep : ascii) (k : string -> string -> option R)
           (m r : string) : option R :=
  match r with
  | String c r' => if Ascii.eqb sep c then k m r' else None
  | EmptyString => None
  end.

End AccidentTime.

(** *** Context extraction *)

Section ContextVocabulary.

Context {world : Type} (handler : forall c : call, world -> answer c * world).
Variable object_str : pyval -> string.

Definition report_path (path_to_fcd : Path) : Path :=
  joinpath (parent path_to_fcd) "report.yaml".

(** How the report presents itself to [_load_environment_context] in world
    [w]: [None] when the file is not there, else what loading it yields. *)
Definition report_read (w : world) (path_to_fcd : Path)
  : option (result pyval) :=
  let (found, w1) := handler (path_exists (report_path path_to_fcd)) w in
  if found
  then Some (fst (handler (yaml_safe_load (report_path path_to_fcd)) w1))
  else None.

(** [report_data] of line 274 when the load went through. *)
Definition loaded_report (w : world) (path_to_fcd : Path) : option pyval :=
  match report_read w path_to_fcd with
  | Some (Return data) => Some (if truthy data then data else VDict [])
  | _ => None
  end.

(** The [accident_weather] section is a mapping, or missing or empty. *)
Definition weather_section_ok (items : list (pyval * pyval)) : bool :=
  match dict_lookup "accident_weather" items with
  | Some (VDict _) => true
  | Some v => negb (truthy v)
  | None => true
  end.

Definition weather_items (items : list (pyval * pyval))
  : list (pyval * pyval) :=
  match dict_lookup "accident_weather" items with
  | Some (VDict d) => d
  | _ => []
  end.

(** What [.get(key)] yields on a mapping. *)
Definition item (key : string) (items : list (pyval * pyval)) : pyval :=
  match dict_lookup key items with
  | Some v => v
  | None => VNone
  end.

(** The summary the specification words: the fields that are present, in
    the order weather, lighting, road surface, time of day, each as
    "label: value", joined by ", ". *)
Definition spec_summary
           (weather lighting road_surface time_of_day : option string)
  : string :=
  String.concat ", "
    (flat_map
       (fun field : string * option string =>
          match snd field with
          | Some value => [(fst field ++ ": " ++ value)%string]
          | None => []
          end)
       [ ("weather", weather); ("lighting", lighting);
         ("road surface", road_surface); ("time of day", time_of_day) ]).

(** A field of the weather section is present when its value is truthy;
    it is shown as [str] prints it. *)
Definition field (key : string) (items : list (pyval * pyval))
  : option string :=
  let v := item key (weather_items items) in
  if truthy v then Some (py_str object_str v) else None.

End ContextVocabulary.

(** *** Construction *)

Section InitVocabulary.

Context {world : Type} (handler : forall c : call, world -> answer c * world).

(** The process environment is a fixed table, and reading it changes
    nothing. *)
Definition reads_environ (environ : string -> option string) : Prop :=
  forall name w, handler (os_getenv name) w = (environ name, w).

Definition is_getenv (c : call) : bool :=
  match c with
  | os_getenv _ => true
  | _ => false
  end.

(** The calls up to the check of line 33. *)
Definition first_reads (google_model : option string) : list call :=
  os_getenv "GOOGLE_MAPS_API_KEY"
    :: (if truthy_str google_model then []
        else [os_getenv "GEMINI_MODEL_NAME"]).

(** [self.gemini_model_name] *)
Definition chosen_model (environ : string -> option string)
           (google_model : option string) : string :=
  if truthy_str google_model then str_of_opt google_model
  else match environ "GEMINI_MODEL_NAME" with
       | Some s => s
       | None => "gemini-2.5-pro"
       end.

(** Lines 50-58, once the Gemini key is known to be there. *)
Definition connect_gemini (maps_key : option string) (model : string)
           (openrouter_model gemini_key : option string) : prog instance :=
  (try_except
     (_ <~! import_module "google.generativeai" ;; Ret tt)
     (fun exc =>
        if isinstance exc ModuleNotFoundError then
          Throw (mk_exn ImportError
                   "google-generativeai package is required for StreetViewRetrievalAndAnalysis")
        else Throw exc) ;;
   _ <~! genai_configure (str_of_opt gemini_key) ;;
   client <~! genai_GenerativeModel model ;;
   Ret {| google_maps_api_key := maps_key;
          gemini_model_name := model;
          openrouter_model_name := openrouter_model;
          use_openrouter := false;
          gemini_client := Some client;
          openrouter_api_key := None;
          openrouter_url := "https://openrouter.ai/api/v1/chat/completions";
          gemini_api_key := gemini_key |})%prog.

End InitVocabulary.

(** *** The camera loop *)

Section LoopVocabulary.

Context {world : Type} (handler : forall c : call, world -> answer c * world).
Variable float_to_str : float -> string.
Variable b64encode : bytes -> string.

Definition is_requests_get (c : call) : bool :=
  match c with
  | requests_get _ _ => true
  | _ => false
  end.

(** The request of line 84 for one viewpoint. *)
Definition street_view_request (self : instance) (lat lon heading : float)
           (fov : Z) : call :=
  requests_get "https://maps.googleapis.com/maps/api/streetview"
    [ ("size", PStr "600x400");
      ("location", PStr (float_to_str lat ++ "," ++ float_to_str lon)%string);
      ("heading", PFloat heading);
      ("pitch", PInt 0);
      ("fov", PInt fov);
      ("key", param_of_opt (google_maps_api_key self)) ].

(** The six viewpoints: name, heading offset, field of view. *)
Definition viewpoints : list (string * Z * Z) :=
  [ ("front", 0, 120); ("front_left", -66, 120); ("front_right", 66, 120);
    ("rear", 180, 30); ("rear_left", -152, 70); ("rear_right", 152, 70) ]%Z.

Definition camera_names : list string := map (fun v => fst (fst v)) viewpoints.

(** Line 249. *)
Definition time_prefix (time_descriptor : option string) : string :=
  if truthy_str time_descriptor
  then ("The scene occurs during the "
          ++ str_of_opt time_descriptor ++ ". ")%string
  else "".

(** Line 263 on the six texts that follow the camera names. *)
Definition join_sections (bodies : list string) : string :=
  String.concat (newline ++ newline)%string
    (map (fun nb : string * string => (fst nb ++ ": " ++ snd nb)%string)
         (combine camera_names bodies)).

(** A result of six sections, one per camera name. *)
Definition six_sections (text : string) : Prop :=
  exists bodies, List.length bodies = 6%nat /\ text = join_sections bodies.

(** What the loop tells about one viewpoint and the text after its name. *)
Definition section_body self out lat lon angle ed td
           (camera : string * Z) (body : string) : Prop :=
  exists w0,
    match outcome handler
            (camera_attempt float_to_str b64encode self out lat lon angle
                            ed td camera) w0
    with
    | Raise _ => body = "Failed to retrieve street view"
    | Return _ =>
        exists prompt caption,
          table_item default_prompt_list (fst camera) = Return prompt /\
          body = ((prompt ++ time_prefix td) ++ caption)%string
    end.

End LoopVocabulary.

(** *** Further vocabulary *)

(** A program all of whose calls are of the kind [P]. *)
Fixpoint only {A} (P : call -> Prop) (p : prog A) : Prop :=
  match p with
  | Ret _ | Throw _ => True
  | Call c k => P c /\ forall x, only P (k x)
  end.

Section PoseVocabularyExtra.

Variable str_to_float : string -> option float.

(** No two timesteps of the list carry the same time: their times have
    pairwise different ranks. *)
Definition distinct_times (l : list element) : Prop :=
  NoDup (map (fun u => FloatRank.rank (time_of str_to_float u)) l).

(** What [float] raises on a [time] attribute that is no number. *)
Definition time_error (u : element) : exn :=
  match get u "time" with
  | None =>
      mk_exn TypeError "float() argument must be a string or a real number"
  | Some _ => mk_exn ValueError "could not convert string to float"
  end.

End PoseVocabularyExtra.

Section CaptionVocabulary.

Variable float_to_str : float -> string.
Variable b64encode : bytes -> string.

(** The request [get_street_view_image] sends. *)
Definition image_request (self : instance) (latitude longitude : float)
           (heading : param) (pitch fov : Z) : call :=
  requests_get "https://maps.googleapis.com/maps/api/streetview"
    [ ("size", PStr "600x400");
      ("location",
       PStr (float_to_str latitude ++ "," ++ float_to_str longitude)%string);
      ("heading", heading);
      ("pitch", PInt pitch);
      ("fov", PInt fov);
      ("key", param_of_opt (google_maps_api_key self)) ].

(** The captioning prompt in closed form: the instruction, then the clause
    on scene conditions when there are any, then the clause on the time of
    day when there is one. *)
Definition caption_prompt (environment_description : string)
           (time_descriptor : option string) : string :=
  ("Please describe the environment and setting of this street view image. Focus on static elements like buildings, roads, vegetation, weather conditions, and overall atmosphere. Ignore any moving objects or people. This description will be used as a prompt for video generation."
   ++ (if environment_description =? "" then ""
       else " You must strictly adhere to the provided scene conditions: "
              ++ environment_description
              ++ ". If the visual cues appear inconsistent, describe the scene as given here.")
   ++ (if truthy_str time_descriptor
       then " The scene occurs during the "
              ++ str_of_opt time_descriptor
              ++ ". Explicitly mention this time of day in the description."
       else ""))%string.

(** The JSON body [_generate_with_openrouter] posts. *)
Definition openrouter_payload (self : instance) (prompt : string)
           (image_data : bytes) : pyval :=
  VDict
    [ (VStr "model", pyval_of_opt (openrouter_model_name self));
      (VStr "messages",
       VList
         [ VDict
             [ (VStr "role", VStr "user");
               (VStr "content",
                VList
                  [ VDict [ (VStr "type", VStr "text");
                            (VStr "text", VStr prompt) ];
                    VDict [ (VStr "type", VStr "image_url");
                            (VStr "image_url",
                             VDict
                               [ (VStr "url",
                                  VStr ("data:image/jpeg;base64,"
                                          ++ b64encode image_data)%string) ])
                          ] ]) ] ]) ].

(** The one request of [_generate_with_openrouter]. *)
Definition openrouter_request (self : instance) (prompt : string)
           (image_data : bytes) : call :=
  requests_post (openrouter_url self)
    [ ("Authorization",
       ("Bearer " ++ str_of_opt (openrouter_api_key self))%string);
      ("Content-Type", "application/json") ]
    (openrouter_payload self prompt image_data) 60.

(** [v[1]] on a list. *)
Definition second_item (v : pyval) : result pyval :=
  match v with
  | VList l =>
      match nth_item l 1 with
      | Some x => Return x
      | None => Raise (mk_exn (OtherError "IndexError") "list index out of range")
      end
  | _ => Raise (mk_exn TypeError "object is not subscriptable")
  end.

Definition is_requests_post (c : call) : Prop :=
  match c with
  | requests_post _ _ _ _ => True
  | _ => False
  end.

Definition is_generate_content (c : call) : Prop :=
  match c with
  | generate_content _ _ _ _ => True
  | _ => False
  end.

End CaptionVocabulary.

(** *** Files of a run *)

Definition is_open_write (c : call) : bool :=
  match c with
  | open_write _ _ => true
  | _ => false
  end.

Definition image_file (path_to_output : Path) (camera_name : string) : Path :=
  joinpath path_to_output ("streetview_image_" ++ camera_name ++ ".jpg").

Definition prompt_file (path_to_output : Path) (camera_name : string) : Path :=
  joinpath path_to_output ("prompt_" ++ camera_name ++ ".txt").

(** A call that, when it writes a file, writes the image or the prompt of
    one of the six cameras in the output directory. *)
Definition writes_within (path_to_output : Path) (c : call) : Prop :=
  match c with
  | open_write path _ =>
      exists camera_name,
        In camera_name camera_names /\
        (path = image_file path_to_output camera_name \/
         path = prompt_file path_to_output camera_name)
  | _ => True
  end.

(** Line 259. *)
Definition error_line (camera_name message : string) : string :=
  ("Error retrieving street view for " ++ camera_name ++ ": " ++ message).

(** Lines 240 and 254. *)
Definition image_saved_line (path_to_output : Path) (camera_name : string)
  : string :=
  ("Street view image saved as "
     ++ path_str (image_file path_to_output camera_name)).

Definition prompt_saved_line (path_to_output : Path) (camera_name : string)
  : string :=
  ("Environment description saved as "
     ++ path_str (prompt_file path_to_output camera_name)).

(** *** Frame extraction *)

(** The files a run wrote, in order: each [cv2.imwrite] with its path and
    image. *)
Definition imwrites (calls : list cv_call) : list (string * frame) :=
  flat_map (fun c => match c with
                     | cv2_imwrite output_path img => [(output_path, img)]
                     | _ => []
                     end)
           calls.

(** The path of the [k]-th saved frame. *)
Definition frame_path (output_dir : string) (k : Z) : string :=
  os_path_join output_dir ("frame_" ++ format_06d k ++ ".png").

(** The items of a list with their indices, counted from [start]. *)
Definition indexed_from {A} (start : nat) (l : list A) : list (Z * A) :=
  combine (map Z.of_nat (seq start (List.length l))) l.

(** The items whose index, counted from [start], is a multiple of [i]. *)
Definition multiples_from {A} (i : Z) (start : nat) (l : list A) : list A :=
  map snd (filter (fun p => (fst p mod i =? 0)%Z) (indexed_from start l)).

(** A video file that decodes to a known sequence of frames and seeks
    exactly, and a disk that takes every write: [cap.read] hands out the
    frame at the position and moves on by one, or [(False, None)] past the
    end; [cap.set] moves the position. *)
Record clip_world : Type :=
  { clip : list bytes;
    clip_fps : float;
    position : Z;
    disk : list (string * frame) }.

Definition clip_handler (c : cv_call) (w : clip_world)
  : result (cv_answer c) * clip_world :=
  match c return result (cv_answer c) * clip_world with
  | cv2_VideoCapture _ => (Return tt, w)
  | cap_get_fps => (Return (clip_fps w), w)
  | os_makedirs _ => (Return tt, w)
  | cap_read =>
      match (if (position w <? 0)%Z then None
             else nth_error (clip w) (Z.to_nat (position w))) with
      | Some image =>
          (Return (true, Some image),
           {| clip := clip w; clip_fps := clip_fps w;
              position := (position w + 1)%Z; disk := disk w |})
      | None => (Return (false, None), w)
      end
  | cap_set_pos_frames value =>
      (Return true,
       {| clip := clip w; clip_fps := clip_fps w;
          position := value; disk := disk w |})
  | cv2_imwrite output_path img =>
      (Return true,
       {| clip := clip w; clip_fps := clip_fps w;
          position := position w; disk := disk w ++ [(output_path, img)] |})
  | cap_release => (Return tt, w)
  end.

(** The world before a run: the clip at its start, nothing written. *)
Definition fresh_clip (frames : list bytes) (fps : float) : clip_world :=
  {| clip := frames; clip_fps := fps; position := 0; disk := [] |}.

(** * Properties *)

(** ** The order of binary64 values *)

Module FloatOrder.

Import PyFloat.
Import FloatRank.

Lemma SFcompare_rank x y :
  is_nan x = false -> is_nan y = false ->
  SFcompare x y = Some (lex (rank x) (rank y)).
Proof.
  destruct x as [sx|sx| |sx mx ex], y as [sy|sy| |sy my ey]; simpl;
    try discriminate; intros _ _; f_equal;
    repeat match goal with b : bool |- _ => destruct b end;
    simpl; try reflexivity.
  rewrite Z.compare_opp, (Z.compare_antisym ex ey).
  destruct (ex ?= ey)%Z; reflexivity.
Qed.

Lemma SFcompare_nan x y :
  SFcompare x y <> None -> is_nan x = false /\ is_nan y = false.
Proof.
  destruct x, y; simpl; intros H; split; try reflexivity;
    exfalso; apply H; reflexivity.
Qed.

Lemma lex_Lt a b : lex a b = Lt <-> lex_lt a b.
Proof.
  destruct a as [[a1 a2] a3], b as [[b1 b2] b3]; simpl.
  destruct (Z.compare_spec a1 b1);
    [ | split; [intros _; lia | reflexivity] | split; [discriminate | lia] ].
  destruct (Z.compare_spec a2 b2);
    [ | split; [intros _; lia | reflexivity] | split; [discriminate | lia] ].
  rewrite Z.compare_lt_iff. lia.
Qed.

Lemma lex_Gt a b : lex a b = Gt <-> lex_lt b a.
Proof.
  destruct a as [[a1 a2] a3], b as [[b1 b2] b3]; simpl.
  destruct (Z.compare_spec a1 b1);
    [ | split; [discriminate | lia] | split; [intros _; lia | reflexivity] ].
  destruct (Z.compare_spec a2 b2);
    [ | split; [discriminate | lia] | split; [intros _; lia | reflexivity] ].
  rewrite Z.compare_gt_iff. lia.
Qed.

Lemma ltb_spec x y :
  ltb x y = true <->
  is_nan x = false /\ is_nan y = false /\ lex_lt (rank x) (rank y).
Proof.
  unfold ltb, SFltb. split.
  - intros H.
    assert (N : SFcompare x y <> None)
      by (destruct (SFcompare x y); discriminate).
    destruct (SFcompare_nan _ _ N) as [Nx Ny].
    rewrite (SFcompare_rank _ _ Nx Ny) in H.
    repeat split; trivial. apply lex_Lt.
    destruct (lex (rank x) (rank y)); trivial; discriminate.
  - intros (Nx & Ny & L). rewrite (SFcompare_rank _ _ Nx Ny).
    apply lex_Lt in L. rewrite L. reflexivity.
Qed.

Lemma leb_spec x y :
  leb x y = true <->
  is_nan x = false /\ is_nan y = false /\ ~ lex_lt (rank y) (rank x).
Proof.
  unfold leb, SFleb. split.
  - intros H.
    assert (N : SFcompare x y <> None)
      by (destruct (SFcompare x y); discriminate).
    destruct (SFcompare_nan _ _ N) as [Nx Ny].
    rewrite (SFcompare_rank _ _ Nx Ny) in H.
    repeat split; trivial. rewrite <- lex_Gt.
    destruct (lex (rank x) (rank y)); discriminate.
  - intros (Nx & Ny & L). rewrite (SFcompare_rank _ _ Nx Ny).
    rewrite <- lex_Gt in L.
    destruct (lex (rank x) (rank y)); trivial. contradiction.
Qed.

Lemma eqb_spec x y :
  eqb x y = true <->
  is_nan x = false /\ is_nan y = false /\ rank x = rank y.
Proof.
  unfold eqb, SFeqb. split.
  - intros H.
    assert (N : SFcompare x y <> None)
      by (destruct (SFcompare x y); discriminate).
    destruct (SFcompare_nan _ _ N) as [Nx Ny].
    rewrite (SFcompare_rank _ _ Nx Ny) in H.
    repeat split; trivial.
    destruct (rank x) as [[a1 a2] a3], (rank y) as [[b1 b2] b3].
    simpl in H.
    destruct (Z.compare_spec a1 b1); try discriminate.
    destruct (Z.compare_spec a2 b2); try discriminate.
    destruct (Z.compare_spec a3 b3); try discriminate.
    congruence.
  - intros (Nx & Ny & E). rewrite (SFcompare_rank _ _ Nx Ny), E.
    destruct (rank y) as [[b1 b2] b3]. simpl.
    rewrite !Z.compare_refl. reflexivity.
Qed.

Ltac by_rank :=
  repeat match goal with
         | H : ltb _ _ = true |- _ => apply ltb_spec in H
         | H : leb _ _ = true |- _ => apply leb_spec in H
         | H : eqb _ _ = true |- _ => apply eqb_spec in H
         | H : ltb _ _ = false |- _ =>
             apply not_true_iff_false in H; rewrite ltb_spec in H
         | H : _ /\ _ |- _ => destruct H
         | |- ltb _ _ = true => apply ltb_spec
         | |- leb _ _ = true => apply leb_spec
         | |- ltb _ _ = false =>
             apply not_true_iff_false; rewrite ltb_spec
         end;
  repeat match goal with
         | |- context [rank ?t] =>
             let a := fresh "a" in let b := fresh "b" in let c := fresh "c" in
             destruct (rank t) as [[a b] c]
         | H : context [rank ?t] |- _ =>
             let a := fresh "a" in let b := fresh "b" in let c := fresh "c" in
             destruct (rank t) as [[a b] c]
         end;
  repeat match goal with
         | H : (_, _, _) = (_, _, _) |- _ => injection H as ? ? ?
         end;
  unfold lex_lt in *; intuition (try congruence; try lia).

Lemma ltb_leb x y : ltb x y = true -> leb x y = true.
Proof. intros. by_rank. Qed.

Lemma not_ltb_leb x y :
  is_nan x = false -> is_nan y = false ->
  ltb x y = false -> leb y x = true.
Proof. intros. by_rank. Qed.

Lemma leb_refl x : is_nan x = false -> leb x x = true.
Proof. intros. by_rank. Qed.

Lemma leb_trans x y z : leb x y = true -> leb y z = true -> leb x z = true.
Proof. intros. by_rank. Qed.

Lemma ltb_trans x y z : ltb x y = true -> ltb y z = true -> ltb x z = true.
Proof. intros. by_rank. Qed.

Lemma ltb_leb_trans x y z :
  ltb x y = true -> leb y z = true -> ltb x z = true.
Proof. intros. by_rank. Qed.

Lemma ltb_not_eqb x y : ltb x y = true -> eqb x y = false.
Proof.
  intros H. apply not_true_iff_false. intros E. by_rank.
Qed.

Lemma leb_not_nan x y :
  leb x y = true -> is_nan x = false /\ is_nan y = false.
Proof. intros. by_rank. Qed.

(** *** Subtraction of finite values never yields NaN *)

Lemma shr_1_nonneg mrs : (0 <= shr_m mrs)%Z -> (0 <= shr_m (shr_1 mrs))%Z.
Proof.
  destruct mrs as [m r s]; simpl.
  destruct m as [|p|p]; [| destruct p | lia]; simpl; lia.
Qed.

Lemma iter_pos_inv {A} (P : A -> Prop) (f : A -> A) :
  (forall a, P a -> P (f a)) -> forall n a, P a -> P (iter_pos f n a).
Proof.
  intros Hf. induction n as [n IH|n IH|]; simpl; intros a Pa; auto.
Qed.

Lemma shr_fexp_nonneg m e l :
  (0 <= m)%Z -> (0 <= shr_m (fst (shr_fexp prec emax m e l)))%Z.
Proof.
  intros Hm. unfold shr_fexp, shr.
  assert (H0 : (0 <= shr_m (shr_record_of_loc m l))%Z)
    by (destruct l as [|[]]; simpl; exact Hm).
  destruct (fexp prec emax (Zdigits2 m + e) - e)%Z; simpl; trivial.
  apply (iter_pos_inv (fun r => (0 <= shr_m r)%Z)); trivial.
  apply shr_1_nonneg.
Qed.

Lemma round_nearest_even_nonneg m l :
  (0 <= m)%Z -> (0 <= round_nearest_even m l)%Z.
Proof.
  intros Hm. destruct l as [|[]]; simpl; try lia.
  destruct (Z.even m); lia.
Qed.

Lemma binary_round_aux_not_nan sx mx ex lx :
  (0 <= mx)%Z -> is_nan (binary_round_aux prec emax sx mx ex lx) = false.
Proof.
  intros Hm. unfold binary_round_aux.
  pose proof (shr_fexp_nonneg mx ex lx Hm) as H1.
  destruct (shr_fexp prec emax mx ex lx) as [mrs' e']. simpl in H1.
  pose proof (shr_fexp_nonneg _ e' loc_Exact
                (round_nearest_even_nonneg _ (loc_of_shr_record mrs') H1)) as H2.
  destruct (shr_fexp prec emax _ e' loc_Exact) as [mrs'' e'']. simpl in H2.
  destruct (shr_m mrs'') as [|p|p]; [reflexivity | | lia].
  destruct (e'' <=? emax - prec)%Z; reflexivity.
Qed.

Lemma binary_normalize_not_nan m e szero :
  is_nan (binary_normalize prec emax m e szero) = false.
Proof.
  unfold binary_normalize, binary_round.
  destruct m as [|p|p]; [reflexivity | |];
    destruct (shl_align p e _) as [mz ez];
    apply binary_round_aux_not_nan; lia.
Qed.

Lemma sub_finite_not_nan x y :
  is_finite x = true -> is_finite y = true -> is_nan (sub x y) = false.
Proof.
  destruct x as [sx|sx| |sx mx ex], y as [sy|sy| |sy my ey];
    try discriminate; intros _ _; unfold sub; simpl;
    try (destruct sx, sy; reflexivity); try reflexivity.
  apply binary_normalize_not_nan.
Qed.

Lemma add_finite_not_nan x y :
  is_finite x = true -> is_finite y = true -> is_nan (add x y) = false.
Proof.
  destruct x as [sx|sx| |sx mx ex], y as [sy|sy| |sy my ey];
    try discriminate; intros _ _; unfold add; simpl;
    try (destruct sx, sy; reflexivity); try reflexivity.
  apply binary_normalize_not_nan.
Qed.

Lemma abs_nan x : is_nan (abs x) = is_nan x.
Proof. destruct x; reflexivity. Qed.

End FloatOrder.

(** ** Pose lookup *)

Section PoseFacts.

Import PyFloat.

Variable str_to_float : string -> option float.

Local Abbreviation time_key := (time_key str_to_float).
Local Abbreviation time_diff := (time_diff str_to_float).
Local Abbreviation closest_scan := (closest_scan str_to_float).
Local Abbreviation closest_timestep := (closest_timestep str_to_float).
Local Abbreviation sort_by_time := (sort_by_time str_to_float).
Local Abbreviation decorate := (decorate str_to_float).
Local Abbreviation find_vehicle := (find_vehicle str_to_float).
Local Abbreviation number := (number str_to_float).
Local Abbreviation timestamp := (timestamp str_to_float).
Local Abbreviation numeric_time := (numeric_time str_to_float).
Local Abbreviation finite_time := (finite_time str_to_float).
Local Abbreviation time_of := (time_of str_to_float).
Local Abbreviation distance := (distance str_to_float).
Local Abbreviation time_le := (time_le str_to_float).
Local Abbreviation coordinates := (coordinates str_to_float).

Lemma py_float_number e key :
  py_float str_to_float (get e key) =
  match number e key with
  | Some f => Return f
  | None =>
      Raise (match get e key with
             | None => mk_exn TypeError "float() argument must be a string or a real number"
             | Some _ => mk_exn ValueError "could not convert string to float"
             end)
  end.
Proof.
  unfold py_float, number. destruct (get e key) as [s|]; [|reflexivity].
  destruct (str_to_float s); reflexivity.
Qed.

Lemma time_key_numeric u :
  numeric_time u = true -> time_key u = Return (time_of u).
Proof.
  unfold numeric_time, time_of, timestamp, time_key.
  rewrite py_float_number. destruct (number u "time"); [reflexivity | discriminate].
Qed.

Lemma finite_numeric u : finite_time u = true -> numeric_time u = true.
Proof.
  unfold finite_time, numeric_time. destruct (timestamp u); auto.
Qed.

Lemma time_key_finite u :
  finite_time u = true -> time_key u = Return (time_of u).
Proof. intros H. apply time_key_numeric, finite_numeric, H. Qed.

Lemma time_of_finite u : finite_time u = true -> is_finite (time_of u) = true.
Proof.
  unfold finite_time, time_of. destruct (timestamp u); auto.
Qed.

Lemma time_of_not_nan u : finite_time u = true -> is_nan (time_of u) = false.
Proof.
  intros H. apply time_of_finite in H. destruct (time_of u); auto.
Qed.

Lemma time_diff_numeric target u :
  numeric_time u = true -> time_diff target u = Return (distance target u).
Proof.
  intros H. unfold time_diff.
  change (py_float str_to_float (get u "time")) with (time_key u).
  rewrite (time_key_numeric _ H). reflexivity.
Qed.

Lemma time_diff_finite target u :
  finite_time u = true -> time_diff target u = Return (distance target u).
Proof. intros H. apply time_diff_numeric, finite_numeric, H. Qed.

Lemma distance_not_nan target u :
  is_finite target = true -> finite_time u = true ->
  is_nan (distance target u) = false.
Proof.
  intros Ht Hu. unfold distance. rewrite FloatOrder.abs_nan.
  apply FloatOrder.sub_finite_not_nan; auto using time_of_finite.
Qed.

(** *** The sort *)

Lemma decorate_numeric l :
  Forall (fun u => numeric_time u = true) l ->
  decorate l = Return (map (fun u => (time_of u, u)) l).
Proof.
  induction 1 as [|u l Hu _ IH]; simpl; [reflexivity|].
  rewrite (time_key_numeric _ Hu). simpl. rewrite IH. reflexivity.
Qed.

Lemma decorate_finite l :
  Forall (fun u => finite_time u = true) l ->
  decorate l = Return (map (fun u => (time_of u, u)) l).
Proof.
  intros H. apply decorate_numeric. eapply Forall_impl; [|exact H].
  apply finite_numeric.
Qed.


Lemma insert_by_key_perm x l : Permutation (insert_by_key x l) (x :: l).
Proof.
  induction l as [|y l IH]; simpl; [reflexivity|].
  destruct (ltb (fst x) (fst y)); [reflexivity|].
  rewrite IH. apply perm_swap.
Qed.

Lemma sort_decorated_perm l : Permutation (sort_decorated l) l.
Proof.
  unfold sort_decorated.
  assert (G : forall acc,
             Permutation (fold_left (fun a x => insert_by_key x a) l acc)
                         (acc ++ l)).
  { induction l as [|x l IH]; intros acc; simpl.
    - rewrite app_nil_r. reflexivity.
    - rewrite IH, insert_by_key_perm.
      change (x :: acc) with ([x] ++ acc).
      rewrite (Permutation_app_comm [x] acc), <- app_assoc. reflexivity. }
  apply (G []).
Qed.

Lemma sort_by_time_numeric l :
  Forall (fun u => numeric_time u = true) l ->
  exists sorted, sort_by_time l = Return sorted /\ Permutation sorted l.
Proof.
  intros Hl. unfold sort_by_time. rewrite (decorate_numeric _ Hl).
  simpl. eexists; split; [reflexivity|].
  rewrite sort_decorated_perm, map_map. simpl. rewrite map_id. reflexivity.
Qed.

Lemma insert_by_key_sorted x l :
  key_ok x -> Forall key_ok l ->
  StronglySorted key_le l -> StronglySorted key_le (insert_by_key x l).
Proof.
  intros Hx Hl Hs. induction Hs as [|y l Hs IH Hy]; simpl.
  - repeat constructor.
  - inversion Hl as [|? ? Ky Kl]; subst.
    destruct (ltb (fst x) (fst y)) eqn:E.
    + constructor; [constructor; assumption|].
      constructor; [apply FloatOrder.ltb_leb; exact E|].
      eapply Forall_impl; [|exact Hy]. intros z Hz. unfold key_le in *.
      eapply FloatOrder.leb_trans; [|exact Hz].
      apply FloatOrder.ltb_leb; exact E.
    + constructor; [apply IH; assumption|].
      eapply Permutation_Forall;
        [symmetry; apply insert_by_key_perm|].
      constructor; [|assumption].
      apply FloatOrder.not_ltb_leb; assumption.
Qed.

Lemma sort_decorated_sorted l :
  Forall key_ok l -> StronglySorted key_le (sort_decorated l).
Proof.
  unfold sort_decorated.
  assert (G : forall acc,
             Forall key_ok l -> Forall key_ok acc ->
             StronglySorted key_le acc ->
             StronglySorted key_le
               (fold_left (fun a x => insert_by_key x a) l acc)).
  { induction l as [|x l IH]; intros acc Hl Ha Hs; simpl; [assumption|].
    inversion Hl; subst. apply IH; trivial.
    - eapply Permutation_Forall; [symmetry; apply insert_by_key_perm|].
      constructor; assumption.
    - apply insert_by_key_sorted; assumption. }
  intros Hl. apply G; trivial; constructor.
Qed.

(** On timesteps with finite timestamps the sort returns a permutation in
    ascending order of time. *)
Lemma sort_by_time_sorted l :
  Forall (fun u => finite_time u = true) l ->
  exists sorted,
    sort_by_time l = Return sorted /\
    Permutation sorted l /\ StronglySorted time_le sorted.
Proof.
  intros Hl. unfold sort_by_time. rewrite (decorate_finite _ Hl).
  simpl. eexists; split; [reflexivity|].
  set (d := map (fun u => (time_of u, u)) l).
  assert (Hd : Forall (fun p => fst p = time_of (snd p) /\ key_ok p) d).
  { unfold d. apply Forall_map. eapply Forall_impl; [|exact Hl].
    intros u Hu. split; [reflexivity|]. apply time_of_not_nan; exact Hu. }
  assert (Hk : Forall key_ok d)
    by (eapply Forall_impl; [|exact Hd]; intros p [_ H]; exact H).
  split.
  - rewrite (sort_decorated_perm d). unfold d. rewrite map_map. simpl.
    rewrite map_id. reflexivity.
  - pose proof (sort_decorated_sorted d Hk) as Hs.
    assert (Hd' : Forall (fun p => fst p = time_of (snd p)) (sort_decorated d)).
    { eapply Permutation_Forall; [symmetry; apply sort_decorated_perm|].
      eapply Forall_impl; [|exact Hd]. intros p [H _]; exact H. }
    induction Hs as [|p s Hs IH Hp]; simpl; [constructor|].
    inversion Hd' as [|? ? Ep Es]; subst.
    constructor; [apply IH; assumption|].
    apply Forall_map. rewrite Forall_forall in *.
    intros q Hq. unfold time_le. rewrite <- Ep, <- (Es q Hq).
    apply (Hp q Hq).
Qed.

(** *** The scan *)

(** Either the scan keeps what it started with, and then nothing in the list
    is strictly closer than the starting bound; or it settles on the first
    item [s] that is strictly closer than the bound, than every item before
    it, and at least as close as every item after it. *)
Lemma closest_scan_spec target :
  is_finite target = true ->
  forall l min_diff cur,
    Forall (fun u => finite_time u = true) l ->
    is_nan min_diff = false ->
    (closest_scan target l min_diff cur = Return cur /\
     Forall (fun u => leb min_diff (distance target u) = true) l)
    \/
    (exists pre s post,
        l = pre ++ s :: post /\
        closest_scan target l min_diff cur = Return (Some s) /\
        ltb (distance target s) min_diff = true /\
        Forall (fun u => ltb (distance target s) (distance target u) = true) pre /\
        Forall (fun u => leb (distance target s) (distance target u) = true) post).
Proof.
  intros Ht. induction l as [|u l IH]; intros m cur Hl Hm.
  - left. split; [reflexivity | constructor].
  - inversion Hl as [|? ? Hu Hl']; subst. simpl.
    rewrite (time_diff_finite target _ Hu). simpl.
    pose proof (distance_not_nan target u Ht Hu) as Hd.
    destruct (ltb (distance target u) m) eqn:E.
    + destruct (IH (distance target u) (Some u) Hl' Hd)
        as [[R F] | (pre & s & post & -> & R & L & Fpre & Fpost)].
      * right. exists [], u, l. repeat split; trivial; constructor.
      * right. exists (u :: pre), s, post. repeat split; trivial.
        -- eapply FloatOrder.ltb_trans; eassumption.
        -- constructor; assumption.
    + destruct (IH m cur Hl' Hm)
        as [[R F] | (pre & s & post & -> & R & L & Fpre & Fpost)].
      * left. split; trivial. constructor; trivial.
        apply FloatOrder.not_ltb_leb; assumption.
      * right. exists (u :: pre), s, post. repeat split; trivial.
        constructor; trivial.
        eapply FloatOrder.ltb_leb_trans; [exact L|].
        apply FloatOrder.not_ltb_leb; assumption.
Qed.

Lemma sorted_after (R : element -> element -> Prop) pre s post :
  StronglySorted R (pre ++ s :: post) -> Forall (R s) post.
Proof.
  induction pre as [|p pre IH]; simpl; intros H; inversion H; subst; auto.
Qed.

(** C1.  On a trajectory log whose timesteps carry finite timestamps, and
    for a finite target time, the lookup settles on a timestep of the log
    whose distance to the target is less than or equal to that of every
    timestep of the log; among equally close timesteps it is the one with
    the earliest timestamp, being the first in ascending order that is
    strictly closer than all before it.  It settles on none only when no
    timestep is closer than infinity. *)
Theorem closest_timestep_nearest root target :
  is_finite target = true ->
  forallb finite_time (findall root "timestep") = true ->
  exists sorted sel,
    sort_by_time (findall root "timestep") = Return sorted /\
    StronglySorted time_le sorted /\
    closest_timestep root target = Return sel /\
    match sel with
    | Some s =>
        In s (findall root "timestep") /\
        (forall u, In u (findall root "timestep") ->
                   leb (distance target s) (distance target u) = true) /\
        (forall u, In u (findall root "timestep") ->
                   eqb (distance target u) (distance target s) = true ->
                   leb (time_of s) (time_of u) = true) /\
        (exists pre post,
            sorted = pre ++ s :: post /\
            Forall (fun u => ltb (distance target s) (distance target u) = true)
                   pre)
    | None =>
        forall u, In u (findall root "timestep") ->
                  ltb (distance target u) inf = false
    end.
Proof.
  intros Ht Hall. rewrite forallb_forall in Hall.
  assert (Hl : Forall (fun u => finite_time u = true) (findall root "timestep"))
    by (apply Forall_forall; exact Hall).
  destruct (sort_by_time_sorted _ Hl) as (sorted & Es & Perm & Sorted).
  assert (Hs : Forall (fun u => finite_time u = true) sorted)
    by (eapply Permutation_Forall; [symmetry; exact Perm | exact Hl]).
  unfold closest_timestep. rewrite Es. simpl.
  exists sorted.
  destruct (closest_scan_spec target Ht sorted inf None Hs eq_refl)
    as [[R F] | (pre & s & post & E & R & L & Fpre & Fpost)].
  - exists None. repeat split; trivial.
    intros u Hu. rewrite Forall_forall in F.
    assert (Hin : In u sorted)
      by (eapply Permutation_in; [symmetry; exact Perm | exact Hu]).
    specialize (F u Hin). destruct (ltb (distance target u) inf) eqn:C; trivial.
    exfalso. clear - F C. FloatOrder.by_rank.
  - exists (Some s). repeat split; trivial.
    + eapply Permutation_in; [exact Perm|]. rewrite E.
      apply in_or_app; right; left; reflexivity.
    + intros u Hu.
      assert (Hin : In u sorted)
        by (eapply Permutation_in; [symmetry; exact Perm | exact Hu]).
      rewrite E in Hin. apply in_app_or in Hin.
      rewrite Forall_forall in Fpre, Fpost.
      destruct Hin as [Hin | [<- | Hin]].
      * apply FloatOrder.ltb_leb; auto.
      * apply FloatOrder.leb_refl. apply distance_not_nan; trivial.
        rewrite Forall_forall in Hs. apply Hs. rewrite E.
        apply in_or_app; right; left; reflexivity.
      * auto.
    + intros u Hu Heq.
      assert (Hin : In u sorted)
        by (eapply Permutation_in; [symmetry; exact Perm | exact Hu]).
      rewrite E in Hin, Sorted. apply in_app_or in Hin.
      rewrite Forall_forall in Fpre.
      destruct Hin as [Hin | [<- | Hin]].
      * specialize (Fpre u Hin). exfalso. clear - Fpre Heq.
        FloatOrder.by_rank.
      * apply FloatOrder.leb_refl, time_of_not_nan. auto.
      * apply sorted_after in Sorted. rewrite Forall_forall in Sorted.
        apply Sorted; exact Hin.
    + exists pre, post. split; trivial.
Qed.


(** *** Finding the vehicle *)

Lemma closest_scan_returns target l :
  Forall (fun u => numeric_time u = true) l ->
  forall m cur, exists r, closest_scan target l m cur = Return r.
Proof.
  induction 1 as [|u l Hu _ IH]; intros m cur; simpl; [eauto|].
  rewrite (time_diff_numeric target _ Hu). simpl.
  destruct (ltb (distance target u) m); apply IH.
Qed.

Lemma closest_timestep_returns root target :
  forallb numeric_time (findall root "timestep") = true ->
  exists sel, closest_timestep root target = Return sel.
Proof.
  intros H. rewrite forallb_forall, <- Forall_forall in H.
  destruct (sort_by_time_numeric _ H) as (sorted & E & P).
  unfold closest_timestep. rewrite E. simpl.
  apply closest_scan_returns.
  eapply Permutation_Forall; [symmetry; exact P | exact H].
Qed.

Lemma find_vehicle_find vehicles vehicle_id :
  find_vehicle vehicles vehicle_id =
  match find (has_id vehicle_id) vehicles with
  | None => Return None
  | Some v =>
      match coordinates v with
      | Some p => Return (Some p)
      | None => find_vehicle [v] vehicle_id
      end
  end.
Proof.
  induction vehicles as [|v l IH]; simpl; [reflexivity|].
  unfold has_id at 1. destruct (opt_str_eqb (get v "id") vehicle_id) eqn:E.
  - unfold coordinates. simpl. rewrite E, !py_float_number.
    destruct (number v "x"), (number v "y"), (number v "angle");
      reflexivity.
  - exact IH.
Qed.

Lemma find_vehicle_raises v vehicle_id :
  has_id vehicle_id v = true -> coordinates v = None ->
  exists e, find_vehicle [v] vehicle_id = Raise e.
Proof.
  unfold has_id, coordinates. simpl. intros -> H.
  rewrite !py_float_number.
  destruct (number v "x"); [|eexists; reflexivity].
  destruct (number v "y"); [|eexists; reflexivity].
  destruct (number v "angle"); [discriminate | eexists; reflexivity].
Qed.

Lemma find_none_iff {A} (f : A -> bool) l :
  find f l = None <-> forall a, In a l -> f a = false.
Proof.
  split; [apply find_none|].
  induction l as [|a l IH]; simpl; intros H; [reflexivity|].
  rewrite (H a (or_introl eq_refl)). apply IH. intros b Hb. apply H. now right.
Qed.


End PoseFacts.

(** ** Running programs *)

Section RunFacts.

Context {world : Type} (handler : forall c : call, world -> answer c * world).

Lemma run_bind {A B} (p : prog A) (f : A -> prog B) w :
  run handler (bind p f) w =
  match run handler p w with
  | (Return a, w1, c1) =>
      let '(r, w2, c2) := run handler (f a) w1 in (r, w2, c1 ++ c2)
  | (Raise e, w1, c1) => (Raise e, w1, c1)
  end.
Proof.
  revert w. induction p as [a|e|c k IH]; intros w; simpl.
  - destruct (run handler (f a) w) as [[r w2] c2]. reflexivity.
  - reflexivity.
  - destruct (handler c w) as [x w1]. rewrite IH.
    destruct (run handler (k x) w1) as [[[a|e] w2] c2]; [|reflexivity].
    destruct (run handler (f a) w2) as [[r w3] c3]. reflexivity.
Qed.

Lemma run_try_except {A} (p : prog A) (h : exn -> prog A) w :
  run handler (try_except p h) w =
  match run handler p w with
  | (Return a, w1, c1) => (Return a, w1, c1)
  | (Raise e, w1, c1) =>
      let '(r, w2, c2) := run handler (h e) w1 in (r, w2, c1 ++ c2)
  end.
Proof.
  revert w. induction p as [a|e|c k IH]; intros w; simpl.
  - reflexivity.
  - destruct (run handler (h e) w) as [[r w2] c2]. reflexivity.
  - destruct (handler c w) as [x w1]. rewrite IH.
    destruct (run handler (k x) w1) as [[[a|e] w2] c2]; [reflexivity|].
    destruct (run handler (h e) w2) as [[r w3] c3]. reflexivity.
Qed.

Lemma run_lift {A} (r : result A) w : run handler (lift r) w = (r, w, []).
Proof. destruct r; reflexivity. Qed.

Lemma run_call {A} c (k : answer c -> prog A) w :
  run handler (Call c k) w =
  let '(r, w2, calls) := run handler (k (fst (handler c w))) (snd (handler c w))
  in (r, w2, c :: calls).
Proof. simpl. destruct (handler c w). reflexivity. Qed.


Lemma outcome_bind_inv {A B} (p : prog A) (f : A -> prog B) w b :
  outcome handler (bind p f) w = Return b ->
  exists a w1,
    outcome handler p w = Return a /\ outcome handler (f a) w1 = Return b.
Proof.
  unfold outcome. rewrite run_bind.
  destruct (run handler p w) as [[[a|e] w1] c1]; [|discriminate].
  destruct (run handler (f a) w1) as [[r w2] c2] eqn:E. cbn. intros ->.
  exists a, w1. rewrite E. split; reflexivity.
Qed.

Lemma outcome_call_inv {A} c (k : answer c -> prog A) w a :
  outcome handler (Call c k) w = Return a ->
  exists x w1, outcome handler (k x) w1 = Return a.
Proof.
  unfold outcome. rewrite run_call.
  destruct (run handler (k (fst (handler c w))) (snd (handler c w)))
    as [[r w2] calls] eqn:E.
  cbn. intros ->. eexists _, _. rewrite E. reflexivity.
Qed.

Lemma outcome_lift {A} (r : result A) w : outcome handler (lift r) w = r.
Proof. unfold outcome. rewrite run_lift. reflexivity. Qed.

(** *** Programs that never make a call of some kind *)

Lemma avoids_bind {A B} P (p : prog A) (f : A -> prog B) :
  avoids P p -> (forall a, avoids P (f a)) -> avoids P (bind p f).
Proof.
  intros Hp Hf. induction p as [a|e|c k IH]; cbn; auto.
  destruct Hp as [Hc Hk]. split; auto.
Qed.

Lemma avoids_try_except {A} P (p : prog A) (h : exn -> prog A) :
  avoids P p -> (forall e, avoids P (h e)) -> avoids P (try_except p h).
Proof.
  intros Hp Hh. induction p as [a|e|c k IH]; cbn; auto.
  destruct Hp as [Hc Hk]. split; auto.
Qed.

Lemma avoids_lift {A} P (r : result A) : avoids P (lift r).
Proof. destruct r; exact I. Qed.

Lemma avoids_calls {A} P (p : prog A) w :
  avoids P p -> filter P (calls_made handler p w) = [].
Proof.
  unfold calls_made. revert w.
  induction p as [a|e|c k IH]; intros w Hp; cbn; auto.
  destruct Hp as [Hc Hk]. destruct (handler c w) as [x w1].
  specialize (IH x w1 (Hk x)).
  destruct (run handler (k x) w1) as [[r w2] calls]. cbn in *.
  rewrite Hc. exact IH.
Qed.

(** *** Loops whose body always returns *)

Lemma for_each_run {A B} (body : A -> prog B) (P : call -> bool)
      (g : A -> list call) (Q : A -> B -> Prop) l :
  (forall a w,
      In a l ->
      exists b w1 calls,
        run handler (body a) w = (Return b, w1, calls) /\
        filter P calls = g a /\ Q a b) ->
  forall w,
  exists bs w1 calls,
    run handler (for_each l body) w = (Return bs, w1, calls) /\
    filter P calls = flat_map g l /\ Forall2 Q l bs.
Proof.
  induction l as [|a l IH]; intros Hbody w; cbn.
  - exists [], w, []. repeat split. constructor.
  - rewrite run_bind.
    destruct (Hbody a w (or_introl eq_refl)) as (b & w1 & c1 & R & F & HQ).
    rewrite R. rewrite run_bind.
    destruct (IH (fun a0 w0 H => Hbody a0 w0 (or_intror H)) w1)
      as (bs & w2 & c2 & R2 & F2 & HQ2).
    rewrite R2. cbn. exists (b :: bs), w2, (c1 ++ c2 ++ []).
    repeat split.
    + rewrite app_nil_r, filter_app, F, F2. reflexivity.
    + constructor; assumption.
Qed.

End RunFacts.

(** ** Reading accident times *)

Module AccidentTimeFacts.

Import AccidentTime.

(** One goal for each value of [n] below the bound. *)
Ltac enumerate n bound :=
  lazymatch bound with
  | O => exfalso; lia
  | S ?b => destruct n as [|n]; [ try (exfalso; lia); cbn | enumerate n b ]
  end.

Lemma digit_char_digit n :
  (n < 10)%nat ->
  re_digit (digit_char n) = true /\
  digit_of (digit_char n) = Some (Z.of_nat n) /\
  re_space (digit_char n) = false.
Proof. intros H. enumerate n 10%nat; repeat split. Qed.

Ltac settle k := vm_compute; destruct (k _ _); reflexivity.

Lemma month_then_slash {R} (k : string -> string -> option R) mo s :
  (1 <= mo <= 12)%nat ->
  first_alt re_m (two_digits mo ++ String "/" s) (then_literal "/" k)
  = k (two_digits mo) s.
Proof. intros H. enumerate mo 13%nat; settle k. Qed.

Lemma day_then_slash {R} (k : string -> string -> option R) d s :
  (1 <= d <= 31)%nat ->
  first_alt re_d (two_digits d ++ String "/" s) (then_literal "/" k)
  = k (two_digits d) s.
Proof. intros H. enumerate d 32%nat; settle k. Qed.

Lemma hour_then_colon {R} (k : string -> string -> option R) h s :
  (h < 24)%nat ->
  first_alt re_H (two_digits h ++ String ":" s) (then_literal ":" k)
  = k (two_digits h) s.
Proof. intros H. enumerate h 24%nat; settle k. Qed.

Lemma minute_at_end groups mi :
  (mi < 60)%nat ->
  regex_match [Directive re_M] (two_digits mi) groups
  = Some (two_digits mi :: groups, "").
Proof. intros H. enumerate mi 60%nat; reflexivity. Qed.

Lemma int_of_two_digits n :
  (n < 100)%nat -> int_of_group (two_digits n) 0 = Z.of_nat n.
Proof. intros H. enumerate n 100%nat; reflexivity. Qed.

Lemma year_then {R} (k : string -> string -> option R) y s :
  (Z.of_nat y < 10000)%Z ->
  first_alt re_Y (four_digits y ++ s) k = k (four_digits y) s.
Proof.
  intros H. unfold four_digits, two_digits, re_Y.
  assert (Ha : (y / 1000 < 10)%nat) by (apply Nat.Div0.div_lt_upper_bound; lia).
  assert (Hb : (y / 100 mod 10 < 10)%nat) by (apply Nat.mod_upper_bound; lia).
  assert (Hc : (y mod 100 / 10 < 10)%nat).
  { apply Nat.Div0.div_lt_upper_bound.
    pose proof (Nat.mod_upper_bound y 100). lia. }
  assert (Hd : ((y mod 100) mod 10 < 10)%nat) by (apply Nat.mod_upper_bound; lia).
  destruct (digit_char_digit _ Ha) as (A & _).
  destruct (digit_char_digit _ Hb) as (B & _).
  destruct (digit_char_digit _ Hc) as (C & _).
  destruct (digit_char_digit _ Hd) as (D & _).
  cbn [first_alt match_alt append]. rewrite A, B, C, D.
  destruct (k _ _); reflexivity.
Qed.

Lemma int_of_four_digits y :
  (Z.of_nat y < 10000)%Z -> int_of_group (four_digits y) 0 = Z.of_nat y.
Proof.
  intros H. unfold four_digits, two_digits.
  assert (Ha : (y / 1000 < 10)%nat) by (apply Nat.Div0.div_lt_upper_bound; lia).
  assert (Hb : (y / 100 mod 10 < 10)%nat) by (apply Nat.mod_upper_bound; lia).
  assert (Hc : (y mod 100 / 10 < 10)%nat).
  { apply Nat.Div0.div_lt_upper_bound.
    pose proof (Nat.mod_upper_bound y 100). lia. }
  assert (Hd : ((y mod 100) mod 10 < 10)%nat) by (apply Nat.mod_upper_bound; lia).
  destruct (digit_char_digit _ Ha) as (_ & A & _).
  destruct (digit_char_digit _ Hb) as (_ & B & _).
  destruct (digit_char_digit _ Hc) as (_ & C & _).
  destruct (digit_char_digit _ Hd) as (_ & D & _).
  cbn [int_of_group]. rewrite A, B, C, D.
  pose proof (Nat.div_mod_eq y 1000).
  pose proof (Nat.div_mod_eq (y / 100) 10).
  pose proof (Nat.div_mod_eq y 100).
  pose proof (Nat.div_mod_eq (y mod 100) 10).
  pose proof (Nat.div_mod_eq (y / 100) 10).
  assert (E : (y / 1000 = y / 100 / 10)%nat)
    by (rewrite Nat.Div0.div_div; reflexivity).
  lia.
Qed.

Lemma blank_then {R} (k : string -> option R) n s :
  (n < 10)%nat ->
  spaces_then (String " " (String (digit_char n) s)) k
  = k (String (digit_char n) s).
Proof.
  intros H. destruct (digit_char_digit _ H) as (_ & _ & S).
  cbn [spaces_then]. rewrite S.
  change (re_space " ") with true. cbn iota. reflexivity.
Qed.

(** [strptime] reads back the five numbers of a well-formed text. *)
Lemma strptime_format mo d y h mi :
  valid_date (Z.of_nat y) (Z.of_nat mo) (Z.of_nat d) = true ->
  (h < 24)%nat -> (mi < 60)%nat ->
  strptime (VStr (format mo d y h mi)) =
  Return {| year := Z.of_nat y; month := Z.of_nat mo; day := Z.of_nat d;
            hour := Z.of_nat h; minute := Z.of_nat mi |}.
Proof.
  intros V Hh Hmi.
  assert (B : (Z.of_nat y < 10000)%Z /\ (1 <= mo <= 12 /\ 1 <= d <= 31)%nat).
  { unfold valid_date in V. rewrite !andb_true_iff in V.
    destruct V as (((((V1 & V2) & V3) & V4) & V5) & V6).
    apply Z.leb_le in V1, V2, V3, V4, V5, V6.
    assert (days_in_month (Z.of_nat y) (Z.of_nat mo) <= 31)%Z.
    { unfold days_in_month.
      repeat match goal with |- context [if ?b then _ else _] => destruct b end;
        lia. }
    lia. }
  destruct B as (Hy & Hmo & Hd).
  unfold strptime, strptime_str, format, accident_time_format.
  assert (M : regex_match
                [Directive re_m; Literal "/"; Directive re_d; Literal "/";
                 Directive re_Y; Whitespace; Directive re_H; Literal ":";
                 Directive re_M]
                (two_digits mo ++ "/" ++ two_digits d ++ "/" ++ four_digits y
                   ++ " " ++ two_digits h ++ ":" ++ two_digits mi)%string []
              = Some ([two_digits mi; two_digits h; four_digits y;
                       two_digits d; two_digits mo], "")).
  { change (regex_match (Directive re_m :: Literal "/" :: ?f) ?s ?g)
      with (first_alt re_m s
              (then_literal "/" (fun m r => regex_match f r (m :: g)))).
    change (two_digits mo ++ "/" ++ ?t)%string
      with (two_digits mo ++ String "/" t)%string.
    rewrite month_then_slash by exact Hmo.
    change (regex_match (Directive re_d :: Literal "/" :: ?f) ?s ?g)
      with (first_alt re_d s
              (then_literal "/" (fun m r => regex_match f r (m :: g)))).
    change (two_digits d ++ "/" ++ ?t)%string
      with (two_digits d ++ String "/" t)%string.
    rewrite day_then_slash by exact Hd.
    change (regex_match (Directive re_Y :: ?f) ?s ?g)
      with (first_alt re_Y s (fun m r => regex_match f r (m :: g))).
    rewrite year_then by lia.
    change (regex_match (Whitespace :: ?f) ?s ?g)
      with (spaces_then s (fun r => regex_match f r g)).
    change (" " ++ two_digits h ++ ?t)%string
      with (String " " (String (digit_char (h / 10))
                          (String (digit_char (h mod 10)) t))).
    rewrite blank_then by (apply Nat.Div0.div_lt_upper_bound; lia).
    change (String (digit_char (h / 10)) (String (digit_char (h mod 10)) ?t))
      with (two_digits h ++ t)%string.
    change (regex_match (Directive re_H :: Literal ":" :: ?f) ?s ?g)
      with (first_alt re_H s
              (then_literal ":" (fun m r => regex_match f r (m :: g)))).
    change (two_digits h ++ ":" ++ ?t)%string
      with (two_digits h ++ String ":" t)%string.
    rewrite hour_then_colon by exact Hh.
    apply minute_at_end; exact Hmi. }
  rewrite M. cbn [year month day hour minute].
  rewrite !int_of_two_digits by lia. rewrite int_of_four_digits by lia.
  rewrite V. reflexivity.
Qed.

End AccidentTimeFacts.

(** ** Context extraction *)

Section ContextFacts.

Context {world : Type} (handler : forall c : call, world -> answer c * world).
Variable object_str : pyval -> string.

Local Abbreviation report_read := (report_read handler).
Local Abbreviation loaded_report := (loaded_report handler).
Local Abbreviation field := (field object_str).

Lemma load_environment_context_outcome w path_to_fcd :
  outcome handler (_load_environment_context object_str path_to_fcd) w =
  match report_read w path_to_fcd with
  | None => Return ("", None)
  | Some (Raise e) =>
      if isinstance e OSError || isinstance e YAMLError
      then Return ("", None) else Raise e
  | Some (Return data) =>
      context_of_report object_str (if truthy data then data else VDict [])
  end.
Proof.
  unfold outcome, _load_environment_context, report_read.
  fold (report_path path_to_fcd). rewrite run_call.
  destruct (handler (path_exists (report_path path_to_fcd)) w) as [found w1].
  cbn [fst snd]. destruct found; cbn [negb]; [|reflexivity].
  rewrite run_bind, run_try_except, run_call.
  destruct (handler (yaml_safe_load (report_path path_to_fcd)) w1)
    as [[data|e] w2]; cbn -[isinstance context_of_report truthy].
  - destruct (context_of_report object_str _); reflexivity.
  - destruct (isinstance e OSError || isinstance e YAMLError); reflexivity.
Qed.

Lemma context_of_report_dict items :
  weather_section_ok items = true ->
  context_of_report object_str (VDict items) =
  (time_descriptor <- describe_time (item "accident_time" items) ;;
   Return (String.concat ", "
             (environment_components object_str
                (item "weather" (weather_items items))
                (item "light" (weather_items items))
                (item "road_surface_condition" (weather_items items))
                time_descriptor),
           time_descriptor))%result.
Proof.
  unfold weather_section_ok, weather_items, context_of_report, item.
  cbn [py_get rbind].
  destruct (dict_lookup "accident_weather" items) as [v|]; [|reflexivity].
  destruct v as [|b|z|f|s|b|l|d|n t]; cbn -[String.eqb Z.eqb]; intros H;
    try (apply negb_true_iff in H; rewrite H); try reflexivity.
  all: try discriminate.
  destruct d; reflexivity.
Qed.

Lemma time_of_day_cases h :
  In (time_of_day h) ["morning"; "noon"; "afternoon"; "evening"; "night"].
Proof.
  unfold time_of_day.
  repeat match goal with |- context [if ?b then _ else _] => destruct b end;
    simpl; auto 6.
Qed.

Lemma describe_time_label v d :
  describe_time v = Return (Some d) -> truthy_str (Some d) = true.
Proof.
  unfold describe_time, rtry. destruct (truthy v); [|discriminate].
  destruct (strptime v) as [dt|e]; cbn -[time_of_day isinstance truthy_str].
  - intros [= <-].
    pose proof (time_of_day_cases (hour dt)) as H. simpl in H.
    destruct H as [<-|[<-|[<-|[<-|[<-|[]]]]]]; reflexivity.
  - destruct (isinstance e ValueError); discriminate.
Qed.


Lemma outcome_loaded w path_to_fcd report_data :
  loaded_report w path_to_fcd = Some report_data ->
  outcome handler (_load_environment_context object_str path_to_fcd) w
  = context_of_report object_str report_data.
Proof.
  unfold loaded_report. rewrite load_environment_context_outcome.
  destruct (report_read w path_to_fcd) as [[data|e]|]; try discriminate.
  intros [= <-]. reflexivity.
Qed.

(** C4.  When the report loads as a mapping that holds a well-formed
    accident time "MM/DD/YYYY HH:MM" of hour [h], context extraction returns
    the label of the bucket that [h] falls in: morning for 5 to 10, noon for
    11 and 12, afternoon for 13 to 16, evening for 17 and 18, night for
    every other hour. *)
Theorem time_descriptor_buckets w path_to_fcd items mo d y h mi :
  loaded_report w path_to_fcd = Some (VDict items) ->
  weather_section_ok items = true ->
  dict_lookup "accident_time" items
  = Some (VStr (AccidentTime.format mo d y h mi)) ->
  valid_date (Z.of_nat y) (Z.of_nat mo) (Z.of_nat d) = true ->
  (h < 24)%nat -> (mi < 60)%nat ->
  exists summary label,
    outcome handler (_load_environment_context object_str path_to_fcd) w
    = Return (summary, Some label) /\
    ((5 <= h < 11)%nat -> label = "morning") /\
    ((11 <= h < 13)%nat -> label = "noon") /\
    ((13 <= h < 17)%nat -> label = "afternoon") /\
    ((17 <= h < 19)%nat -> label = "evening") /\
    ((h < 5 \/ 19 <= h)%nat -> label = "night").
Proof.
  intros L W T V Hh Hmi.
  rewrite (outcome_loaded _ _ _ L), (context_of_report_dict _ W).
  unfold item. rewrite T. unfold describe_time.
  change (truthy (VStr (AccidentTime.format mo d y h mi))) with true.
  cbn iota. rewrite (AccidentTimeFacts.strptime_format _ _ _ _ _ V Hh Hmi).
  cbn [rbind rtry hour]. eexists _, _. split; [reflexivity|].
  unfold time_of_day.
  repeat split; intros B;
    repeat match goal with
           | |- context [(?a <=? ?b)%Z] =>
               destruct (Z.leb_spec a b); cbn [andb]
           | |- context [(?a <? ?b)%Z] =>
               destruct (Z.ltb_spec a b); cbn [andb]
           end; try reflexivity; lia.
Qed.

(** The code's list of components, joined, is the summary as the
    specification words it. *)
Lemma components_spec_summary items time_descriptor :
  (forall d, time_descriptor = Some d -> truthy_str (Some d) = true) ->
  String.concat ", "
    (environment_components object_str
       (item "weather" (weather_items items))
       (item "light" (weather_items items))
       (item "road_surface_condition" (weather_items items))
       time_descriptor)
  = spec_summary (field "weather" items) (field "light" items)
                 (field "road_surface_condition" items) time_descriptor.
Proof.
  intros T. f_equal.
  unfold spec_summary, environment_components, field. cbn [flat_map fst snd].
  assert (E : match time_descriptor with
              | Some d0 =>
                  if truthy_str time_descriptor
                  then [("time of day: " ++ d0)%string] else []
              | None => []
              end
              = match time_descriptor with
                | Some value => [("time of day" ++ ": " ++ value)%string]
                | None => []
                end ++ []).
  { destruct time_descriptor as [d0|]; [|reflexivity].
    rewrite (T d0 eq_refl). reflexivity. }
  rewrite E.
  destruct (truthy (item "weather" (weather_items items)));
    destruct (truthy (item "light" (weather_items items)));
    destruct (truthy (item "road_surface_condition" (weather_items items)));
    reflexivity.
Qed.

(** What context extraction returns on a report that loaded as a
    mapping. *)
Lemma loaded_context w path_to_fcd items time_descriptor :
  loaded_report w path_to_fcd = Some (VDict items) ->
  weather_section_ok items = true ->
  describe_time (item "accident_time" items) = Return time_descriptor ->
  outcome handler (_load_environment_context object_str path_to_fcd) w
  = Return (String.concat ", "
              (environment_components object_str
                 (item "weather" (weather_items items))
                 (item "light" (weather_items items))
                 (item "road_surface_condition" (weather_items items))
                 time_descriptor),
            time_descriptor).
Proof.
  intros L W T.
  rewrite (outcome_loaded _ _ _ L), (context_of_report_dict _ W), T.
  reflexivity.
Qed.

(** C8.  When the report loads as a mapping whose time field is absent or a
    string, the summary is the comma-joined list, in the order weather,
    lighting, road surface, time of day, of exactly the fields that are
    present, and it comes with the time-of-day label alone. *)
Theorem summary_lists_present_fields w path_to_fcd items time_descriptor :
  loaded_report w path_to_fcd = Some (VDict items) ->
  weather_section_ok items = true ->
  describe_time (item "accident_time" items) = Return time_descriptor ->
  outcome handler (_load_environment_context object_str path_to_fcd) w
  = Return (spec_summary (field "weather" items) (field "light" items)
                         (field "road_surface_condition" items)
                         time_descriptor,
            time_descriptor).
Proof.
  intros L W T. rewrite (loaded_context _ _ _ _ L W T).
  rewrite components_spec_summary; [reflexivity|].
  intros d ->. exact (describe_time_label _ _ T).
Qed.

Lemma time_component_iff weather light road_surface time_descriptor :
  (forall d, time_descriptor = Some d -> truthy_str (Some d) = true) ->
  forall D,
    In ("time of day: " ++ D)%string
       (environment_components object_str weather light road_surface
                               time_descriptor)
    <-> time_descriptor = Some D.
Proof.
  intros Ht D. unfold environment_components.
  rewrite !in_app_iff. split.
  - intros [H | [H | [H | H]]].
    + destruct (truthy weather); [|contradiction].
      destruct H as [H|[]]. discriminate H.
    + destruct (truthy light); [|contradiction].
      destruct H as [H|[]]. discriminate H.
    + destruct (truthy road_surface); [|contradiction].
      destruct H as [H|[]]. discriminate H.
    + destruct time_descriptor as [d0|]; [|contradiction].
      destruct (truthy_str (Some d0)); [|contradiction].
      destruct H as [H|[]]. cbn in H. injection H as ->. reflexivity.
  - intros ->. right; right; right.
    rewrite (Ht D eq_refl). left. reflexivity.
Qed.


Lemma strptime_str_ValueError s e :
  strptime_str s = Raise e -> exn_type e = ValueError.
Proof.
  unfold strptime_str.
  destruct (regex_match accident_time_format s []) as [[groups rest]|].
  - destruct groups as [|M [|H [|Y [|d0 [|m [|]]]]]], rest;
      try (intros [= <-]; reflexivity).
    destruct (valid_date _ _ _); [discriminate | intros [= <-]; reflexivity].
  - intros [= <-]; reflexivity.
Qed.


End ContextFacts.

(** ** Construction *)

Section InitFacts.

Context {world : Type} (handler : forall c : call, world -> answer c * world).

Local Abbreviation reads_environ := (reads_environ handler).

Lemma run_getenv {A} environ name (k : option string -> prog A) w :
  reads_environ environ ->
  run handler (Call (os_getenv name) k) w =
  let '(r, w2, calls) := run handler (k (environ name)) w in
  (r, w2, os_getenv name :: calls).
Proof. intros H. rewrite run_call, H. reflexivity. Qed.

(** The run of [__init__], branch by branch. *)
Lemma run_init environ google_model openrouter_model w :
  reads_environ environ ->
  run handler (__init__ google_model openrouter_model) w =
  let maps_key := environ "GOOGLE_MAPS_API_KEY" in
  let model := chosen_model environ google_model in
  let pre := first_reads google_model in
  if negb (truthy_str maps_key) then
    (Raise (mk_exn ValueError "Google Maps API key is required"), w, pre)
  else if truthy_str openrouter_model then
    if negb (truthy_str (environ "OPENROUTER_API_KEY")) then
      (Raise (mk_exn ValueError
                "OpenRouter API key is required when openrouter_model is specified"),
       w, pre ++ [os_getenv "OPENROUTER_API_KEY"])
    else
      (Return {| google_maps_api_key := maps_key;
                 gemini_model_name := model;
                 openrouter_model_name := openrouter_model;
                 use_openrouter := true;
                 gemini_client := None;
                 openrouter_api_key := environ "OPENROUTER_API_KEY";
                 openrouter_url := "https://openrouter.ai/api/v1/chat/completions";
                 gemini_api_key := None |},
       w, pre ++ [os_getenv "OPENROUTER_API_KEY"])
  else if negb (truthy_str (environ "GEMINI_API_KEY")) then
    (Raise (mk_exn ValueError "Google Gemini API key is required"),
     w, pre ++ [os_getenv "GEMINI_API_KEY"])
  else
    let '(r, w2, calls) :=
      run handler (connect_gemini maps_key model openrouter_model
                                  (environ "GEMINI_API_KEY")) w in
    (r, w2, pre ++ os_getenv "GEMINI_API_KEY" :: calls).
Proof.
  intros E. unfold __init__, first_reads, chosen_model.
  rewrite (run_getenv environ) by exact E. rewrite run_bind.
  destruct (truthy_str google_model).
  - cbn [run app].
    destruct (negb (truthy_str (environ "GOOGLE_MAPS_API_KEY"))); [reflexivity|].
    destruct (truthy_str openrouter_model).
    + rewrite (run_getenv environ) by exact E.
      destruct (negb (truthy_str (environ "OPENROUTER_API_KEY"))); reflexivity.
    + rewrite (run_getenv environ) by exact E.
      destruct (negb (truthy_str (environ "GEMINI_API_KEY"))); [reflexivity|].
      fold (connect_gemini (environ "GOOGLE_MAPS_API_KEY")
              (str_of_opt google_model) openrouter_model
              (environ "GEMINI_API_KEY")).
      destruct (run handler (connect_gemini _ _ _ _) w) as [[r w2] calls].
      reflexivity.
  - rewrite (run_getenv environ) by exact E. cbn [run app].
    destruct (negb (truthy_str (environ "GOOGLE_MAPS_API_KEY"))); [reflexivity|].
    destruct (truthy_str openrouter_model).
    + rewrite (run_getenv environ) by exact E.
      destruct (negb (truthy_str (environ "OPENROUTER_API_KEY"))); reflexivity.
    + rewrite (run_getenv environ) by exact E.
      destruct (negb (truthy_str (environ "GEMINI_API_KEY"))); [reflexivity|].
      fold (connect_gemini (environ "GOOGLE_MAPS_API_KEY")
              (match environ "GEMINI_MODEL_NAME" with
               | Some s => s | None => "gemini-2.5-pro" end)
              openrouter_model (environ "GEMINI_API_KEY")).
      destruct (run handler (connect_gemini _ _ _ _) w) as [[r w2] calls].
      reflexivity.
Qed.


Lemma first_reads_only google_model :
  Forall (fun c => c = os_getenv "GOOGLE_MAPS_API_KEY" \/
                   c = os_getenv "GEMINI_MODEL_NAME")
         (first_reads google_model).
Proof.
  unfold first_reads. destruct (truthy_str google_model).
  - constructor; [left; reflexivity | constructor].
  - constructor; [left; reflexivity|].
    constructor; [right; reflexivity | constructor].
Qed.

(** What [connect_gemini] returns, and that it reads no environment. *)
Lemma connect_gemini_run maps_key model openrouter_model gemini_key w :
  Forall (fun c => is_getenv c = false)
         (calls_made handler
            (connect_gemini maps_key model openrouter_model gemini_key) w) /\
  forall self,
    outcome handler
      (connect_gemini maps_key model openrouter_model gemini_key) w
    = Return self ->
    google_maps_api_key self = maps_key /\
    use_openrouter self = false /\
    openrouter_api_key self = None /\
    gemini_api_key self = gemini_key /\
    exists client, gemini_client self = Some client.
Proof.
  unfold calls_made, outcome, connect_gemini.
  rewrite run_bind, run_try_except, run_call.
  destruct (handler (import_module "google.generativeai") w) as [[[]|e] w1];
    cbn -[isinstance].
  - destruct (handler (genai_configure (str_of_opt gemini_key)) w1)
      as [[[]|e] w2]; cbn.
    + destruct (handler (genai_GenerativeModel model) w2) as [[client|e] w3];
        cbn.
      * split; [repeat constructor|]. intros self [= <-]. cbn. eauto 10.
      * split; [repeat constructor | discriminate].
    + split; [repeat constructor | discriminate].
  - destruct (isinstance e ModuleNotFoundError); cbn;
      (split; [repeat constructor | discriminate]).
Qed.

(** C9.  Construction reads GOOGLE_MAPS_API_KEY first.  When it is absent
    or empty, construction raises the [ValueError] of line 34 after reading
    at most the Gemini model name besides: no backend credential has been
    looked at.  Every instance that construction returns holds the key the
    environment gave. *)
Theorem init_requires_maps_key environ google_model openrouter_model w :
  reads_environ environ ->
  (truthy_str (environ "GOOGLE_MAPS_API_KEY") = false ->
   outcome handler (__init__ google_model openrouter_model) w
   = Raise (mk_exn ValueError "Google Maps API key is required") /\
   Forall (fun c => c = os_getenv "GOOGLE_MAPS_API_KEY" \/
                    c = os_getenv "GEMINI_MODEL_NAME")
          (calls_made handler (__init__ google_model openrouter_model) w)) /\
  (forall self,
      outcome handler (__init__ google_model openrouter_model) w = Return self ->
      truthy_str (environ "GOOGLE_MAPS_API_KEY") = true /\
      google_maps_api_key self = environ "GOOGLE_MAPS_API_KEY").
Proof.
  intros E. unfold outcome, calls_made.
  rewrite (run_init environ) by exact E. cbv zeta.
  destruct (truthy_str (environ "GOOGLE_MAPS_API_KEY")); cbn [negb].
  - split; [discriminate|]. intros self.
    destruct (truthy_str openrouter_model).
    + destruct (negb (truthy_str (environ "OPENROUTER_API_KEY")));
        cbn [fst snd negb]; [discriminate|]. intros [= <-]. auto.
    + destruct (negb (truthy_str (environ "GEMINI_API_KEY")));
        cbn [fst snd negb]; [discriminate|].
      pose proof (connect_gemini_run (environ "GOOGLE_MAPS_API_KEY")
                    (chosen_model environ google_model) openrouter_model
                    (environ "GEMINI_API_KEY") w) as [_ R].
      unfold outcome in R.
      destruct (run handler (connect_gemini _ _ _ _) w) as [[r w2] calls].
      cbn [fst snd negb] in *. intros ->. destruct (R self eq_refl) as (K & _). auto.
  - split; [|discriminate]. intros _. cbn [fst snd negb]. split; [reflexivity|].
    apply first_reads_only.
Qed.


End InitFacts.

(** ** The camera loop *)

Section OrchestratorFacts.

Context {world : Type} (handler : forall c : call, world -> answer c * world).

Variable str_to_float : string -> option float.
Variable float_to_str : float -> string.
Variable object_str : pyval -> string.
Variable b64encode : bytes -> string.

Local Abbreviation camera_attempt :=
  (camera_attempt float_to_str b64encode).
Local Abbreviation describe_camera :=
  (describe_camera float_to_str b64encode).
Local Abbreviation prepare := (prepare str_to_float float_to_str object_str).
Local Abbreviation street_view_request :=
  (street_view_request float_to_str).
Local Abbreviation section_body :=
  (section_body handler float_to_str b64encode).
Local Abbreviation get_streetview_image_and_description :=
  (get_streetview_image_and_description str_to_float float_to_str object_str
                                        b64encode).

Ltac avoid :=
  repeat first
    [ exact I
    | apply avoids_lift
    | apply avoids_bind
    | apply avoids_try_except
    | progress intros
    | match goal with
      | |- avoids _ (Call _ _) => split; [reflexivity|]
      | |- avoids _ (if ?b then _ else _) => destruct b
      | |- avoids _ (match ?x with _ => _ end) => destruct x
      end
    | progress unfold analyze_image_with_llm, _generate_with_openrouter,
        raise_for_status, get_street_view_image, _load_environment_context
    | progress cbn [avoids bind lift try_except] ].

Lemma analyze_avoids_get self image_data environment_description td :
  avoids is_requests_get
         (analyze_image_with_llm b64encode self image_data
                                 environment_description td).
Proof. avoid. Qed.

Lemma prepare_avoids_get path_to_fcd path_to_map vehicle_id target_time :
  avoids is_requests_get
         (prepare path_to_fcd path_to_map vehicle_id target_time).
Proof. unfold prepare. avoid. Qed.

Lemma viewpoint_tables name offset fov :
  In (name, offset, fov) viewpoints ->
  In (name, offset) camera_angle_list /\
  table_item fov_list name = Return fov /\
  exists prompt, table_item default_prompt_list name = Return prompt.
Proof.
  intros H. cbn in H.
  repeat (destruct H as [[= <- <- <-] | H];
          [split; [cbn; auto 10 | split; [reflexivity | eexists; reflexivity]]|]).
  destruct H.
Qed.

(** The block of one viewpoint starts with the image request, its heading
    the vehicle's plus the offset, and makes no further image request. *)
Lemma camera_attempt_request self out lat lon angle ed td name offset fov :
  In (name, offset, fov) viewpoints ->
  exists k,
    camera_attempt self out lat lon angle ed td (name, offset)
    = Call (street_view_request self lat lon
              (PyFloat.add angle (PyFloat.of_Z offset)) fov) k /\
    forall x, avoids is_requests_get (k x).
Proof.
  intros H. destruct (viewpoint_tables _ _ _ H) as (_ & F & _).
  unfold camera_attempt. rewrite F. cbn [lift bind].
  unfold get_street_view_image, street_view_request. cbn [bind].
  eexists. split; [reflexivity|]. intros x. cbn beta.
  pose proof analyze_avoids_get. avoid.
Qed.


Ltac peel H :=
  repeat match type of H with
         | outcome _ (bind _ _) _ = Return _ =>
             let a := fresh "a" in
             let w := fresh "w" in
             let Ha := fresh "Ha" in
             apply outcome_bind_inv in H; destruct H as (a & w & Ha & H)
         | outcome _ (Call _ _) _ = Return _ =>
             let x := fresh "x" in
             let w := fresh "w" in
             apply outcome_call_inv in H; destruct H as (x & w & H)
         end.

(** What the block of one viewpoint returns when it goes through. *)
Lemma camera_attempt_return self out lat lon angle ed td name offset w s :
  outcome handler
    (camera_attempt self out lat lon angle ed td (name, offset)) w
  = Return s ->
  exists prompt caption,
    table_item default_prompt_list name = Return prompt /\
    s = (name ++ ": " ++ (prompt ++ time_prefix td) ++ caption)%string.
Proof.
  intros H. unfold camera_attempt in H. peel H.
  repeat match goal with
         | Hx : outcome _ (lift _) _ = Return _ |- _ =>
             rewrite outcome_lift in Hx
         end.
  match goal with
  | Hp : table_item default_prompt_list name = Return ?p,
    Hs : str_add _ ?d = Return _ |- _ =>
      unfold str_add in Hs; destruct d; try discriminate Hs;
      injection Hs as <-; cbn in H; injection H as <-;
      exists p; eexists; split; [exact Hp | reflexivity]
  end.
Qed.

(** One turn of the loop always returns a section: the one the block
    built, or the placeholder when the block raised.  It makes the one
    image request of its viewpoint. *)
Lemma describe_camera_run self out lat lon angle ed td name offset fov w :
  In (name, offset, fov) viewpoints ->
  exists section w1 calls,
    run handler (describe_camera self out lat lon angle ed td (name, offset)) w
    = (Return section, w1, calls) /\
    filter is_requests_get calls
    = [street_view_request self lat lon
         (PyFloat.add angle (PyFloat.of_Z offset)) fov] /\
    exists body,
      section = (name ++ ": " ++ body)%string /\
      exists w0,
        match outcome handler
                (camera_attempt self out lat lon angle ed td (name, offset)) w0
        with
        | Raise _ => body = "Failed to retrieve street view"
        | Return _ =>
            exists prompt caption,
              table_item default_prompt_list name = Return prompt /\
              body = ((prompt ++ time_prefix td) ++ caption)%string
        end.
Proof.
  intros V.
  destruct (camera_attempt_request self out lat lon angle ed td _ _ _ V)
    as (k & Ek & Av).
  unfold describe_camera. rewrite run_try_except.
  pose proof (camera_attempt_return self out lat lon angle ed td name offset w)
    as Ret.
  assert (Calls : filter is_requests_get
                    (calls_made handler
                       (camera_attempt self out lat lon angle ed td
                                       (name, offset)) w)
                  = [street_view_request self lat lon
                       (PyFloat.add angle (PyFloat.of_Z offset)) fov]).
  { rewrite Ek. unfold calls_made. rewrite run_call.
    pose proof (avoids_calls handler is_requests_get _
                  (snd (handler (street_view_request self lat lon
                                   (PyFloat.add angle (PyFloat.of_Z offset)) fov)
                                w))
                  (Av (fst (handler (street_view_request self lat lon
                                       (PyFloat.add angle (PyFloat.of_Z offset))
                                       fov) w)))) as F.
    unfold calls_made in F.
    destruct (run handler (k _) _) as [[r w2] calls]. cbn in *.
    rewrite F. reflexivity. }
  unfold outcome, calls_made in *.
  destruct (run handler
              (camera_attempt self out lat lon angle ed td (name, offset)) w)
    as [[[s|e] w1] c1] eqn:R; cbn [fst snd] in *.
  - destruct (Ret s eq_refl) as (prompt & caption & P & ->).
    eexists _, w1, c1. split; [reflexivity|]. split; [exact Calls|].
    eexists. split; [reflexivity|]. exists w. rewrite R. cbn. eauto.
  - cbn [run fst]. destruct (handler (print _) w1) as [[] w2].
    eexists _, w2, _. split; [reflexivity|]. split.
    + rewrite filter_app, Calls. reflexivity.
    + eexists. split; [reflexivity|]. exists w. rewrite R. reflexivity.
Qed.


Lemma camera_loop_run self out lat lon angle ed td w :
  exists sections w1 calls,
    run handler
        (for_each camera_angle_list
                  (describe_camera self out lat lon angle ed td)) w
    = (Return sections, w1, calls) /\
    filter is_requests_get calls
    = map (fun v : string * Z * Z =>
             street_view_request self lat lon
               (PyFloat.add angle (PyFloat.of_Z (snd (fst v)))) (snd v))
          viewpoints /\
    Forall2 (fun camera section =>
               exists body,
                 section = (fst camera ++ ": " ++ body)%string /\
                 section_body self out lat lon angle ed td camera body)
            camera_angle_list sections.
Proof.
  pose (g := fun camera : string * Z =>
               match table_item fov_list (fst camera) with
               | Return fov =>
                   [street_view_request self lat lon
                      (PyFloat.add angle (PyFloat.of_Z (snd camera))) fov]
               | Raise _ => []
               end).
  destruct (for_each_run handler
              (describe_camera self out lat lon angle ed td)
              is_requests_get g
              (fun camera section =>
                 exists body,
                   section = (fst camera ++ ": " ++ body)%string /\
                   section_body self out lat lon angle ed td camera body)
              camera_angle_list) with (w := w)
    as (sections & w1 & calls & R & F & Q).
  - intros [name offset] w0 Hin.
    assert (V : exists fov, In (name, offset, fov) viewpoints).
    { cbn in Hin.
      repeat (destruct Hin as [[= <- <-] | Hin];
              [eexists; cbn; auto 10 |]).
      destruct Hin. }
    destruct V as [fov V].
    destruct (describe_camera_run self out lat lon angle ed td _ _ _ w0 V)
      as (section & w2 & calls & R & F & B).
    exists section, w2, calls. split; [exact R|]. split; [|exact B].
    rewrite F. unfold g. cbn [fst snd].
    destruct (viewpoint_tables _ _ _ V) as (_ & -> & _). reflexivity.
  - exists sections, w1, calls. repeat split; trivial.
Qed.

Lemma run_orchestrator self out fcd net vid target w lon lat angle ed td :
  outcome handler (prepare fcd net vid target) w
  = Return (Some (lon, lat, angle, ed, td)) ->
  exists sections,
    outcome handler
      (get_streetview_image_and_description self out fcd net vid target) w
    = Return (String.concat (newline ++ newline)%string sections) /\
    filter is_requests_get
      (calls_made handler
         (get_streetview_image_and_description self out fcd net vid target) w)
    = map (fun v : string * Z * Z =>
             street_view_request self lat lon
               (PyFloat.add angle (PyFloat.of_Z (snd (fst v)))) (snd v))
          viewpoints /\
    Forall2 (fun camera section =>
               exists body,
                 section = (fst camera ++ ": " ++ body)%string /\
                 section_body self out lat lon angle ed td camera body)
            camera_angle_list sections.
Proof.
  intros P.
  pose proof (avoids_calls handler is_requests_get _ w
                (prepare_avoids_get fcd net vid target)) as NoGet.
  unfold outcome, calls_made, get_streetview_image_and_description
    in *.
  rewrite run_bind.
  destruct (run handler (prepare fcd net vid target) w) as [[r w1] c1].
  cbn [fst snd] in P, NoGet. subst r. rewrite run_bind.
  destruct (camera_loop_run self out lat lon angle ed td w1)
    as (sections & w2 & c2 & R & F & Q).
  rewrite R. cbn [run fst snd]. exists sections. repeat split; trivial.
  rewrite !filter_app, NoGet, F. reflexivity.
Qed.

(** C2 as amended.  When the steps before the loop go through and the
    lookup finds the pose, the orchestrator returns six sections, one per
    camera name in the fixed order, each the name, a colon and a text, the
    sections two newlines apart.  The text of a viewpoint whose block raised
    is the placeholder of line 260; otherwise it is the camera's fixed
    prompt, the time-of-day sentence and the caption.  No turn of the loop
    raises, and when every block raises the result is six placeholders. *)
Theorem six_sections_once_located
        self out fcd net vid target w lon lat angle ed td :
  outcome handler (prepare fcd net vid target) w
  = Return (Some (lon, lat, angle, ed, td)) ->
  (exists bodies,
      List.length bodies = 6%nat /\
      outcome handler
        (get_streetview_image_and_description self out fcd net vid target) w
      = Return (join_sections bodies) /\
      Forall2 (section_body self out lat lon angle ed td)
              camera_angle_list bodies) /\
  (forall camera w0,
      In camera camera_angle_list ->
      exists section,
        outcome handler (describe_camera self out lat lon angle ed td camera) w0
        = Return section) /\
  ((forall camera w0,
       exists e,
         outcome handler
           (camera_attempt self out lat lon angle ed td camera) w0
         = Raise e) ->
   outcome handler
     (get_streetview_image_and_description self out fcd net vid target) w
   = Return (join_sections (repeat "Failed to retrieve street view" 6))).
Proof.
  intros P.
  destruct (run_orchestrator self out fcd net vid target w _ _ _ _ _ P)
    as (sections & R & _ & Q).
  assert (B : exists bodies,
             List.length bodies = 6%nat /\
             sections
             = map (fun nb : string * string =>
                      (fst nb ++ ": " ++ snd nb)%string)
                   (combine camera_names bodies) /\
             Forall2 (section_body self out lat lon angle ed td)
                     camera_angle_list bodies).
  { unfold camera_angle_list in Q.
    repeat match goal with
           | H : Forall2 _ (_ :: _) _ |- _ =>
               let b := fresh "b" in
               let Hb := fresh "Hb" in
               inversion H as [|? ? ? ? (b & -> & Hb) ?]; subst; clear H
           | H : Forall2 _ [] _ |- _ => inversion H; subst; clear H
           end.
    eexists [_; _; _; _; _; _]. split; [reflexivity|].
    split; [reflexivity|]. repeat (constructor; [eassumption|]). constructor. }
  destruct B as (bodies & L & -> & F).
  split; [|split].
  - exists bodies. repeat split; trivial.
  - intros [name offset] w0 Hin.
    assert (V : exists fov, In (name, offset, fov) viewpoints).
    { cbn in Hin.
      repeat (destruct Hin as [[= <- <-] | Hin];
              [eexists; cbn; auto 10 |]).
      destruct Hin. }
    destruct V as [fov V].
    destruct (describe_camera_run self out lat lon angle ed td _ _ _ w0 V)
      as (section & w2 & calls & R2 & _).
    exists section. unfold outcome. rewrite R2. reflexivity.
  - intros Fail. rewrite R. do 2 f_equal.
    assert (E : bodies = repeat "Failed to retrieve street view" 6).
    { clear - F L Fail. unfold camera_angle_list in F.
      repeat match goal with
             | H : Forall2 _ (_ :: _) _ |- _ =>
                 let Hb := fresh "Hb" in
                 inversion H as [|? ? ? ? Hb ?]; subst; clear H
             | H : Forall2 _ [] _ |- _ => inversion H; subst; clear H
             end.
      repeat match goal with
             | H : section_body _ _ _ _ _ _ _ ?c _ |- _ =>
                 let w0 := fresh "w0" in
                 let e := fresh "e" in
                 let E := fresh "E" in
                 destruct H as [w0 H]; destruct (Fail c w0) as [e E];
                 rewrite E in H; subst
             end.
      reflexivity. }
    rewrite E. reflexivity.
Qed.

(** C7.  The loop runs over exactly six viewpoints: front, front_left,
    front_right, rear, rear_left, rear_right, with heading offsets 0, -66,
    66, 180, -152, 152 and fields of view 120, 120, 120, 30, 70, 70.  Once
    the pose is found, the image requests of a run are the six of these
    viewpoints in that order, each with the heading the vehicle's angle plus
    the offset and with the viewpoint's field of view. *)
Theorem viewpoint_requests self out fcd net vid target w lon lat angle ed td :
  outcome handler (prepare fcd net vid target) w
  = Return (Some (lon, lat, angle, ed, td)) ->
  camera_angle_list
  = [ ("front", 0); ("front_left", -66); ("front_right", 66);
      ("rear", 180); ("rear_left", -152); ("rear_right", 152) ]%Z /\
  fov_list
  = [ ("front", 120); ("front_left", 120); ("front_right", 120);
      ("rear", 30); ("rear_left", 70); ("rear_right", 70) ]%Z /\
  filter is_requests_get
    (calls_made handler
       (get_streetview_image_and_description self out fcd net vid target) w)
  = [ street_view_request self lat lon
        (PyFloat.add angle (PyFloat.of_Z 0)) 120;
      street_view_request self lat lon
        (PyFloat.add angle (PyFloat.of_Z (-66))) 120;
      street_view_request self lat lon
        (PyFloat.add angle (PyFloat.of_Z 66)) 120;
      street_view_request self lat lon
        (PyFloat.add angle (PyFloat.of_Z 180)) 30;
      street_view_request self lat lon
        (PyFloat.add angle (PyFloat.of_Z (-152))) 70;
      street_view_request self lat lon
        (PyFloat.add angle (PyFloat.of_Z 152)) 70 ].
Proof.
  intros P. split; [reflexivity|]. split; [reflexivity|].
  destruct (run_orchestrator self out fcd net vid target w _ _ _ _ _ P)
    as (sections & _ & F & _).
  rewrite F. reflexivity.
Qed.

End OrchestratorFacts.

(** ** Worked examples *)

(** The tie of [tie_log] goes to the timestep with the earlier time, though
    it is the later one in the file. *)
Example tie_goes_to_earliest :
  closest_timestep decimal_str_to_float tie_log (PyFloat.of_Z 2)
  = Return (Some (Element "timestep" [("time", "1")] [])).
Proof. reflexivity. Qed.

Lemma closest_timestep_nearest_witness :
  PyFloat.is_finite (PyFloat.of_Z 2) = true /\
  forallb (finite_time decimal_str_to_float) (findall tie_log "timestep")
  = true /\
  exists sorted sel,
    sort_by_time decimal_str_to_float (findall tie_log "timestep")
    = Return sorted /\
    StronglySorted (time_le decimal_str_to_float) sorted /\
    closest_timestep decimal_str_to_float tie_log (PyFloat.of_Z 2)
    = Return sel /\
    match sel with
    | Some s =>
        In s (findall tie_log "timestep") /\
        (forall u, In u (findall tie_log "timestep") ->
                   PyFloat.leb
                     (distance decimal_str_to_float (PyFloat.of_Z 2) s)
                     (distance decimal_str_to_float (PyFloat.of_Z 2) u)
                   = true) /\
        (forall u, In u (findall tie_log "timestep") ->
                   PyFloat.eqb
                     (distance decimal_str_to_float (PyFloat.of_Z 2) u)
                     (distance decimal_str_to_float (PyFloat.of_Z 2) s)
                   = true ->
                   PyFloat.leb (time_of decimal_str_to_float s)
                               (time_of decimal_str_to_float u) = true) /\
        (exists pre post,
            sorted = pre ++ s :: post /\
            Forall (fun u =>
                      PyFloat.ltb
                        (distance decimal_str_to_float (PyFloat.of_Z 2) s)
                        (distance decimal_str_to_float (PyFloat.of_Z 2) u)
                      = true)
                   pre)
    | None =>
        forall u, In u (findall tie_log "timestep") ->
                  PyFloat.ltb
                    (distance decimal_str_to_float (PyFloat.of_Z 2) u)
                    PyFloat.inf
                  = false
    end.
Proof.
  split; [reflexivity|]. split; [reflexivity|].
  apply (closest_timestep_nearest decimal_str_to_float tie_log
                                  (PyFloat.of_Z 2)); reflexivity.
Defined.

(** The end-to-end log yields the pose (10, 20, 90). *)
Example example_pose :
  get_vehicle_position_at_time decimal_str_to_float example_log (Some "v0")
                               (PyFloat.of_Z 2)
  = Return (Some (PyFloat.of_Z 10, PyFloat.of_Z 20, PyFloat.of_Z 90)).
Proof. reflexivity. Qed.

Example empty_log_not_found :
  get_vehicle_position_at_time decimal_str_to_float
                               (Element "fcd-export" [] []) (Some "v0")
                               (PyFloat.of_Z 2)
  = Return None.
Proof. reflexivity. Qed.

Example absent_vehicle_not_found :
  get_vehicle_position_at_time decimal_str_to_float example_log (Some "v1")
                               (PyFloat.of_Z 2)
  = Return None.
Proof. reflexivity. Qed.


(** The three accident times of the specification. *)
Example morning_at_0830 :
  describe_time (VStr "03/15/2024 08:30") = Return (Some "morning").
Proof. reflexivity. Qed.

Example night_at_2300 :
  describe_time (VStr "03/15/2024 23:00") = Return (Some "night").
Proof. reflexivity. Qed.

Example noon_at_1200 :
  describe_time (VStr "03/15/2024 12:00") = Return (Some "noon").
Proof. reflexivity. Qed.

Lemma time_descriptor_buckets_witness :
  loaded_report (scripted (field_trip example_log crash_report)) tt sample_fcd
  = Some (VDict crash_report) /\
  weather_section_ok crash_report = true /\
  dict_lookup "accident_time" crash_report
  = Some (VStr (AccidentTime.format 3 15 2024 8 30)) /\
  valid_date (Z.of_nat 2024) (Z.of_nat 3) (Z.of_nat 15) = true /\
  (8 < 24)%nat /\ (30 < 60)%nat /\
  exists summary label,
    outcome (scripted (field_trip example_log crash_report))
            (_load_environment_context sample_object_str sample_fcd) tt
    = Return (summary, Some label) /\
    ((5 <= 8 < 11)%nat -> label = "morning") /\
    ((11 <= 8 < 13)%nat -> label = "noon") /\
    ((13 <= 8 < 17)%nat -> label = "afternoon") /\
    ((17 <= 8 < 19)%nat -> label = "evening") /\
    ((8 < 5 \/ 19 <= 8)%nat -> label = "night").
Proof.
  repeat (split; [first [reflexivity | lia]|]).
  apply (time_descriptor_buckets
           (scripted (field_trip example_log crash_report)) sample_object_str tt
           sample_fcd crash_report 3 15 2024 8 30);
    first [reflexivity | lia].
Defined.

Lemma summary_lists_present_fields_witness :
  loaded_report (scripted (field_trip example_log crash_report)) tt sample_fcd
  = Some (VDict crash_report) /\
  weather_section_ok crash_report = true /\
  describe_time (item "accident_time" crash_report) = Return (Some "morning") /\
  outcome (scripted (field_trip example_log crash_report))
          (_load_environment_context sample_object_str sample_fcd) tt
  = Return (spec_summary (field sample_object_str "weather" crash_report)
                         (field sample_object_str "light" crash_report)
                         (field sample_object_str "road_surface_condition"
                                crash_report)
                         (Some "morning"),
            Some "morning").
Proof.
  repeat (split; [reflexivity|]).
  apply (summary_lists_present_fields
           (scripted (field_trip example_log crash_report)) sample_object_str tt
           sample_fcd crash_report (Some "morning")); reflexivity.
Defined.

(** The empty lighting field is left out of the summary. *)
Example crash_report_summary :
  outcome (scripted (field_trip example_log crash_report))
          (_load_environment_context sample_object_str sample_fcd) tt
  = Return ("weather: Rain, road surface: Wet, time of day: morning",
            Some "morning").
Proof. reflexivity. Qed.




(** A missing report gives the empty context. *)
Example missing_report :
  outcome (scripted offline)
          (_load_environment_context sample_object_str sample_fcd) tt
  = Return ("", None).
Proof. reflexivity. Qed.

(** A report that is a YAML list, and an accident time that YAML reads as a
    timestamp, are not caught: [AttributeError] and [TypeError] leave the
    function. *)
Example list_report_raises :
  context_of_report sample_object_str (VList [VStr "weather"])
  = Raise (mk_exn AttributeError "object has no attribute 'get'").
Proof. reflexivity. Qed.

Example timestamp_time_raises :
  context_of_report sample_object_str
    (VDict [(VStr "accident_time", VOther "datetime" true)])
  = Raise (mk_exn TypeError "strptime() argument 1 must be str").
Proof. reflexivity. Qed.

Lemma init_requires_maps_key_witness :
  reads_environ (scripted offline) (environ offline) /\
  truthy_str (environ offline "GOOGLE_MAPS_API_KEY") = false /\
  outcome (scripted offline) (__init__ None (Some "google/gemini-2.5-pro")) tt
  = Raise (mk_exn ValueError "Google Maps API key is required") /\
  Forall (fun c => c = os_getenv "GOOGLE_MAPS_API_KEY" \/
                   c = os_getenv "GEMINI_MODEL_NAME")
         (calls_made (scripted offline)
                     (__init__ None (Some "google/gemini-2.5-pro")) tt).
Proof.
  assert (E : reads_environ (scripted offline) (environ offline))
    by (intros name []; reflexivity).
  split; [exact E|]. split; [reflexivity|].
  destruct (init_requires_maps_key (scripted offline) (environ offline) None
              (Some "google/gemini-2.5-pro") tt E) as [H _].
  apply H. reflexivity.
Defined.


(** What [__init__] builds on the sample machine. *)
Example remote_instance_built :
  outcome (scripted (field_trip example_log crash_report))
          (__init__ None (Some "google/gemini-2.5-pro")) tt
  = Return remote_instance.
Proof. reflexivity. Qed.

(** Neither backend configured: construction fails on the Gemini key. *)
Example no_backend_configured :
  run (scripted (field_trip example_log crash_report)) (__init__ None None) tt
  = (Raise (mk_exn ValueError "Google Gemini API key is required"), tt,
     [ os_getenv "GOOGLE_MAPS_API_KEY"; os_getenv "GEMINI_MODEL_NAME";
       os_getenv "GEMINI_API_KEY" ]).
Proof. reflexivity. Qed.

(** The end-to-end case with no network: six placeholders. *)
Example all_viewpoints_fail :
  outcome (scripted (field_trip example_log crash_report))
          (get_streetview_image_and_description
             decimal_str_to_float sample_float_to_str sample_object_str
             sample_b64encode remote_instance sample_out sample_fcd
             sample_map (Some "v0") (PyFloat.of_Z 2)) tt
  = Return ("front: Failed to retrieve street view" ++ newline ++ newline
            ++ "front_left: Failed to retrieve street view"
            ++ newline ++ newline
            ++ "front_right: Failed to retrieve street view"
            ++ newline ++ newline
            ++ "rear: Failed to retrieve street view" ++ newline ++ newline
            ++ "rear_left: Failed to retrieve street view"
            ++ newline ++ newline
            ++ "rear_right: Failed to retrieve street view")%string.
Proof. reflexivity. Qed.

(** C2 as stated fails: the log records the vehicle, at time 0, but the
    timestep nearest to the target 10 does not hold it, and the result is
    the text of line 205, which is not six sections. *)
Lemma vehicle_recorded_elsewhere :
  (exists ts v,
      In ts (findall departed_log "timestep") /\
      In v (findall ts "vehicle") /\ get v "id" = Some "v0") /\
  outcome (scripted (field_trip departed_log crash_report))
          (get_streetview_image_and_description
             decimal_str_to_float sample_float_to_str sample_object_str
             sample_b64encode remote_instance sample_out sample_fcd
             sample_map (Some "v0") (PyFloat.of_Z 10)) tt
  = Return "Vehicle not found at the specified time" /\
  ~ six_sections "Vehicle not found at the specified time".
Proof.
  split.
  { eexists _, _. split; [left; reflexivity|].
    split; [left; reflexivity | reflexivity]. }
  split; [reflexivity|].
  intros (bodies & L & E).
  destruct bodies as [|b1 [|b2 [|b3 [|b4 [|b5 [|b6 [|]]]]]]];
    try discriminate L.
  cbn in E. discriminate E.
Qed.

Lemma six_sections_once_located_witness :
  outcome (scripted (field_trip example_log crash_report))
          (prepare decimal_str_to_float sample_float_to_str sample_object_str
                   sample_fcd sample_map (Some "v0") (PyFloat.of_Z 2)) tt
  = Return (Some (PyFloat.of_Z 10, PyFloat.of_Z 20, PyFloat.of_Z 90,
                  "weather: Rain, road surface: Wet, time of day: morning",
                  Some "morning")) /\
  exists bodies,
    List.length bodies = 6%nat /\
    outcome (scripted (field_trip example_log crash_report))
            (get_streetview_image_and_description
               decimal_str_to_float sample_float_to_str sample_object_str
               sample_b64encode remote_instance sample_out sample_fcd
               sample_map (Some "v0") (PyFloat.of_Z 2)) tt
    = Return (join_sections bodies) /\
    Forall2 (section_body (scripted (field_trip example_log crash_report))
                          sample_float_to_str sample_b64encode
                          remote_instance sample_out
                          (PyFloat.of_Z 20) (PyFloat.of_Z 10)
                          (PyFloat.of_Z 90)
                          "weather: Rain, road surface: Wet, time of day: morning"
                          (Some "morning"))
            camera_angle_list bodies.
Proof.
  split; [reflexivity|].
  destruct (six_sections_once_located
              (scripted (field_trip example_log crash_report))
              decimal_str_to_float sample_float_to_str sample_object_str
              sample_b64encode remote_instance sample_out sample_fcd
              sample_map (Some "v0") (PyFloat.of_Z 2) tt
              (PyFloat.of_Z 10) (PyFloat.of_Z 20) (PyFloat.of_Z 90)
              "weather: Rain, road surface: Wet, time of day: morning"
              (Some "morning") eq_refl) as [H _].
  exact H.
Defined.

Lemma viewpoint_requests_witness :
  outcome (scripted (field_trip example_log crash_report))
          (prepare decimal_str_to_float sample_float_to_str sample_object_str
                   sample_fcd sample_map (Some "v0") (PyFloat.of_Z 2)) tt
  = Return (Some (PyFloat.of_Z 10, PyFloat.of_Z 20, PyFloat.of_Z 90,
                  "weather: Rain, road surface: Wet, time of day: morning",
                  Some "morning")) /\
  filter is_requests_get
    (calls_made (scripted (field_trip example_log crash_report))
       (get_streetview_image_and_description
          decimal_str_to_float sample_float_to_str sample_object_str
          sample_b64encode remote_instance sample_out sample_fcd
          sample_map (Some "v0") (PyFloat.of_Z 2)) tt)
  = [ street_view_request sample_float_to_str remote_instance
        (PyFloat.of_Z 20) (PyFloat.of_Z 10)
        (PyFloat.add (PyFloat.of_Z 90) (PyFloat.of_Z 0)) 120;
      street_view_request sample_float_to_str remote_instance
        (PyFloat.of_Z 20) (PyFloat.of_Z 10)
        (PyFloat.add (PyFloat.of_Z 90) (PyFloat.of_Z (-66))) 120;
      street_view_request sample_float_to_str remote_instance
        (PyFloat.of_Z 20) (PyFloat.of_Z 10)
        (PyFloat.add (PyFloat.of_Z 90) (PyFloat.of_Z 66)) 120;
      street_view_request sample_float_to_str remote_instance
        (PyFloat.of_Z 20) (PyFloat.of_Z 10)
        (PyFloat.add (PyFloat.of_Z 90) (PyFloat.of_Z 180)) 30;
      street_view_request sample_float_to_str remote_instance
        (PyFloat.of_Z 20) (PyFloat.of_Z 10)
        (PyFloat.add (PyFloat.of_Z 90) (PyFloat.of_Z (-152))) 70;
      street_view_request sample_float_to_str remote_instance
        (PyFloat.of_Z 20) (PyFloat.of_Z 10)
        (PyFloat.add (PyFloat.of_Z 90) (PyFloat.of_Z 152)) 70 ].
Proof.
  split; [reflexivity|].
  destruct (viewpoint_requests
              (scripted (field_trip example_log crash_report))
              decimal_str_to_float sample_float_to_str sample_object_str
              sample_b64encode remote_instance sample_out sample_fcd
              sample_map (Some "v0") (PyFloat.of_Z 2) tt
              (PyFloat.of_Z 10) (PyFloat.of_Z 20) (PyFloat.of_Z 90)
              "weather: Rain, road surface: Wet, time of day: morning"
              (Some "morning") eq_refl) as (_ & _ & H).
  exact H.
Defined.

(** The headings of the six requests for a vehicle heading 90: 90, 24, 156,
    270, -62 and 242 degrees. *)
Example headings_at_90 :
  map (fun camera : string * Z =>
         PyFloat.add (PyFloat.of_Z 90) (PyFloat.of_Z (snd camera)))
      camera_angle_list
  = map PyFloat.of_Z [90; 24; 156; 270; -62; 242]%Z.
Proof. reflexivity. Qed.

(** * Further properties *)

(** ** Pose lookup *)

Section PoseMore.

Import PyFloat.

Variable str_to_float : string -> option float.

Local Abbreviation time_key := (time_key str_to_float).
Local Abbreviation closest_scan := (closest_scan str_to_float).
Local Abbreviation closest_timestep := (closest_timestep str_to_float).
Local Abbreviation sort_by_time := (sort_by_time str_to_float).
Local Abbreviation decorate := (decorate str_to_float).
Local Abbreviation numeric_time := (numeric_time str_to_float).
Local Abbreviation finite_time := (finite_time str_to_float).
Local Abbreviation time_of := (time_of str_to_float).
Local Abbreviation distance := (distance str_to_float).
Local Abbreviation time_le := (time_le str_to_float).
Local Abbreviation distinct_times := (distinct_times str_to_float).
Local Abbreviation get_vehicle_position_at_time :=
  (get_vehicle_position_at_time str_to_float).

Lemma time_key_error u :
  numeric_time u = false -> time_key u = Raise (time_error u).
Proof.
  unfold numeric_time, timestamp, time_key, time_error.
  rewrite py_float_number.
  destruct (number str_to_float u "time"); [discriminate | reflexivity].
Qed.

Lemma decorate_raises l u :
  find (fun x => negb (numeric_time x)) l = Some u ->
  decorate l = Raise (time_error u).
Proof.
  induction l as [|x l IH]; simpl; [discriminate|].
  destruct (numeric_time x) eqn:N; cbn [negb].
  - intros F. rewrite (time_key_numeric _ _ N). cbn [rbind].
    rewrite (IH F). reflexivity.
  - intros [= <-]. rewrite (time_key_error _ N). reflexivity.
Qed.

(** X1.  One timestep whose [time] attribute is missing or not a number
    makes the whole lookup raise, wherever it stands in the log and whatever
    the target: [TypeError] when the first such timestep lacks the
    attribute, [ValueError] when [float] rejects its text. *)
Theorem malformed_timestep_raises root vehicle_id target u :
  find (fun x => negb (numeric_time x)) (findall root "timestep") = Some u ->
  get_vehicle_position_at_time root vehicle_id target
  = Raise (time_error u) /\
  exn_type (time_error u)
  = match get u "time" with None => TypeError | Some _ => ValueError end.
Proof.
  intros F. split.
  - unfold get_vehicle_position_at_time, closest_timestep, sort_by_time.
    rewrite (decorate_raises _ _ F). reflexivity.
  - unfold time_error. destruct (get u "time"); reflexivity.
Qed.

Lemma sub_self x : is_finite x = true -> sub x x = S754_zero false.
Proof.
  destruct x as [s|s| |s m e]; try discriminate; intros _; unfold sub; cbn.
  - destruct s; reflexivity.
  - rewrite Z.sub_diag. reflexivity.
Qed.

Lemma abs_le_zero x :
  leb (abs x) (S754_zero false) = true -> abs x = S754_zero false.
Proof.
  destruct x as [s|s| |s m e]; cbn; try reflexivity; try discriminate.
Qed.

Lemma abs_lt_zero x : ltb (abs x) (S754_zero false) = false.
Proof. destruct x as [s|s| |s m e]; reflexivity. Qed.

(** X2.  When the target is the time of a timestep of the log, the lookup
    settles on a timestep at distance zero: never on none, never on one
    farther away. *)
Theorem exact_time_selected root target u :
  is_finite target = true ->
  forallb finite_time (findall root "timestep") = true ->
  In u (findall root "timestep") ->
  time_of u = target ->
  exists s,
    closest_timestep root target = Return (Some s) /\
    In s (findall root "timestep") /\
    distance target s = S754_zero false.
Proof.
  intros Ht Hall Hu Eu. rewrite forallb_forall in Hall.
  assert (Hl : Forall (fun x => finite_time x = true) (findall root "timestep"))
    by (apply Forall_forall; exact Hall).
  destruct (sort_by_time_sorted str_to_float _ Hl) as (sorted & Es & Perm & _).
  assert (Hs : Forall (fun x => finite_time x = true) sorted)
    by (eapply Permutation_Forall; [symmetry; exact Perm | exact Hl]).
  assert (Du : distance target u = S754_zero false).
  { unfold distance. rewrite Eu, (sub_self _ Ht). reflexivity. }
  unfold closest_timestep. rewrite Es. cbn [rbind].
  assert (Hin : In u sorted)
    by (eapply Permutation_in; [symmetry; exact Perm | exact Hu]).
  destruct (closest_scan_spec str_to_float target Ht sorted inf None Hs eq_refl)
    as [[R F] | (pre & s & post & E & R & L & Fpre & Fpost)].
  - rewrite Forall_forall in F. specialize (F u Hin). rewrite Du in F.
    discriminate F.
  - exists s. split; [exact R|]. split.
    + eapply Permutation_in; [exact Perm|]. rewrite E.
      apply in_or_app; right; left; reflexivity.
    + rewrite E in Hin. apply in_app_or in Hin.
      rewrite Forall_forall in Fpre, Fpost.
      destruct Hin as [Hin | [<- | Hin]].
      * specialize (Fpre u Hin). rewrite Du in Fpre.
        unfold distance in Fpre. rewrite abs_lt_zero in Fpre. discriminate.
      * exact Du.
      * specialize (Fpost u Hin). rewrite Du in Fpost.
        unfold distance in *. apply abs_le_zero. exact Fpost.
Qed.

Lemma lex_lt_antisym a b :
  ~ FloatRank.lex_lt a b -> ~ FloatRank.lex_lt b a -> a = b.
Proof.
  destruct a as [[a1 a2] a3], b as [[b1 b2] b3]. unfold FloatRank.lex_lt.
  intros H1 H2.
  assert (a1 = b1 /\ a2 = b2 /\ a3 = b3)%Z as (-> & -> & ->) by lia.
  reflexivity.
Qed.

Lemma time_le_antisym a b :
  time_le a b -> time_le b a ->
  FloatRank.rank (time_of a) = FloatRank.rank (time_of b).
Proof.
  unfold time_le. intros H1 H2.
  apply FloatOrder.leb_spec in H1, H2.
  destruct H1 as (_ & _ & H1), H2 as (_ & _ & H2).
  apply lex_lt_antisym; assumption.
Qed.

(** Two sorted arrangements of timesteps with pairwise different times are
    the same list. *)
Lemma sorted_unique l1 :
  forall l2,
    StronglySorted time_le l1 -> StronglySorted time_le l2 ->
    Permutation l1 l2 -> distinct_times l1 -> l1 = l2.
Proof.
  induction l1 as [|a t1 IH]; intros l2 S1 S2 P D.
  - apply Permutation_nil in P. congruence.
  - destruct l2 as [|b t2].
    + symmetry in P. apply Permutation_nil in P. discriminate.
    + inversion S1 as [|? ? S1' F1]; subst.
      inversion S2 as [|? ? S2' F2]; subst.
      unfold distinct_times in D. cbn [map] in D.
      inversion D as [|? ? Nin D']; subst.
      rewrite Forall_forall in F1, F2.
      assert (E : a = b).
      { assert (Ia : In a (b :: t2))
          by (eapply Permutation_in; [exact P | left; reflexivity]).
        assert (Ib : In b (a :: t1))
          by (eapply Permutation_in; [symmetry; exact P | left; reflexivity]).
        destruct Ia as [-> | Ia]; [reflexivity|].
        destruct Ib as [-> | Ib]; [reflexivity|].
        exfalso. apply Nin.
        rewrite (time_le_antisym a b (F1 _ Ib) (F2 _ Ia)).
        apply in_map with (f := fun u => FloatRank.rank (time_of u)).
        exact Ib. }
      subst b. f_equal. apply IH; trivial.
      eapply Permutation_cons_inv; exact P.
Qed.

(** X3.  The order of the timesteps in the file does not matter: two logs
    whose timesteps are the same up to order, with finite and pairwise
    different times, give the same lookup result for every vehicle and
    target. *)
Theorem lookup_ignores_file_order root root' vehicle_id target :
  Permutation (findall root "timestep") (findall root' "timestep") ->
  forallb finite_time (findall root "timestep") = true ->
  distinct_times (findall root "timestep") ->
  get_vehicle_position_at_time root vehicle_id target
  = get_vehicle_position_at_time root' vehicle_id target.
Proof.
  intros P Hall D. rewrite forallb_forall in Hall.
  assert (Hl : Forall (fun x => finite_time x = true) (findall root "timestep"))
    by (apply Forall_forall; exact Hall).
  assert (Hl' : Forall (fun x => finite_time x = true)
                       (findall root' "timestep"))
    by (eapply Permutation_Forall; [exact P | exact Hl]).
  destruct (sort_by_time_sorted str_to_float _ Hl) as (s1 & E1 & P1 & S1).
  destruct (sort_by_time_sorted str_to_float _ Hl') as (s2 & E2 & P2 & S2).
  assert (E : s1 = s2).
  { apply sorted_unique; trivial.
    - rewrite P1, P, <- P2. reflexivity.
    - unfold distinct_times in *.
      eapply Permutation_NoDup; [|exact D].
      apply Permutation_map. symmetry. exact P1. }
  unfold get_vehicle_position_at_time, closest_timestep.
  rewrite E1, E2, E. reflexivity.
Qed.

Lemma far_from_non_finite target t :
  is_finite target = false -> ltb (abs (sub t target)) inf = false.
Proof.
  destruct target as [| [] | |]; try discriminate; intros _;
    destruct t as [[] | [] | | [] ? ?]; reflexivity.
Qed.

Lemma closest_scan_non_finite target l :
  is_finite target = false ->
  Forall (fun u => numeric_time u = true) l ->
  closest_scan target l inf None = Return None.
Proof.
  intros T. induction 1 as [|u l Hu _ IH]; simpl; [reflexivity|].
  rewrite (time_diff_numeric str_to_float target _ Hu). simpl.
  unfold distance.
  rewrite (far_from_non_finite _ _ T). exact IH.
Qed.

(** X4.  A target time that is no finite number, infinite or not a number,
    is close to no timestep: on a log with numeric timestamps the lookup
    returns [None] for every vehicle. *)
Theorem non_finite_target_finds_nothing root vehicle_id target :
  is_finite target = false ->
  forallb numeric_time (findall root "timestep") = true ->
  get_vehicle_position_at_time root vehicle_id target = Return None.
Proof.
  intros T H. rewrite forallb_forall, <- Forall_forall in H.
  destruct (sort_by_time_numeric str_to_float _ H) as (sorted & E & P).
  unfold get_vehicle_position_at_time, closest_timestep.
  rewrite E. cbn [rbind].
  rewrite (closest_scan_non_finite target sorted T); [reflexivity|].
  eapply Permutation_Forall; [symmetry; exact P | exact H].
Qed.

(** What the scan settles on is what it started with or an item of the
    list. *)
Lemma closest_scan_member target l :
  forall min_diff cur s,
    closest_scan target l min_diff cur = Return (Some s) ->
    cur = Some s \/ In s l.
Proof.
  induction l as [|u l IH]; intros m cur s; simpl.
  - intros [= ->]. left; reflexivity.
  - destruct (time_diff str_to_float target u) as [d|e]; simpl;
      [|discriminate].
    destruct (ltb d m); intros R; destruct (IH _ _ _ R) as [E | I]; auto.
    injection E as ->. auto.
Qed.

(** X5.  Without a vehicle id, the default of the orchestrator, the lookup
    matches only a record that has no [id] attribute: on a log with numeric
    timestamps where every record carries one it returns [None]. *)
Theorem no_vehicle_id_matches_no_record root target :
  forallb numeric_time (findall root "timestep") = true ->
  (forall ts v,
      In ts (findall root "timestep") ->
      In v (findall ts "vehicle") ->
      get v "id" <> None) ->
  get_vehicle_position_at_time root None target = Return None.
Proof.
  intros H Ids.
  destruct (closest_timestep_returns str_to_float root target H) as [sel E].
  unfold get_vehicle_position_at_time. rewrite E. cbn [rbind].
  destruct sel as [ts|]; [|reflexivity].
  assert (I : In ts (findall root "timestep")).
  { rewrite forallb_forall, <- Forall_forall in H.
    destruct (sort_by_time_numeric str_to_float _ H) as (sorted & Es & P).
    unfold closest_timestep in E. rewrite Es in E. cbn [rbind] in E.
    eapply Permutation_in; [exact P|].
    destruct (closest_scan_member _ _ _ _ _ E) as [D | D];
      [discriminate | exact D]. }
  specialize (Ids ts). 
  induction (findall ts "vehicle") as [|v l IH]; simpl; [reflexivity|].
  destruct (get v "id") as [i|] eqn:G.
  - simpl. apply IH. intros v' I' Hv. apply (Ids v' I); [right; exact Hv].
  - destruct (Ids v I (or_introl eq_refl)). exact G.
Qed.

End PoseMore.

(** ** Programs whose calls are all of one kind *)

Section OnlyFacts.

Context {world : Type} (handler : forall c : call, world -> answer c * world).

Lemma only_bind {A B} P (p : prog A) (f : A -> prog B) :
  only P p -> (forall a, only P (f a)) -> only P (bind p f).
Proof.
  intros Hp Hf. induction p as [a|e|c k IH]; cbn; auto.
  destruct Hp as [Hc Hk]. split; auto.
Qed.

Lemma only_try_except {A} P (p : prog A) (h : exn -> prog A) :
  only P p -> (forall e, only P (h e)) -> only P (try_except p h).
Proof.
  intros Hp Hh. induction p as [a|e|c k IH]; cbn; auto.
  destruct Hp as [Hc Hk]. split; auto.
Qed.

Lemma only_lift {A} P (r : result A) : only P (lift r).
Proof. destruct r; exact I. Qed.

Lemma only_for_each {A B} P (l : list A) (body : A -> prog B) :
  (forall a, In a l -> only P (body a)) -> only P (for_each l body).
Proof.
  induction l as [|a l IH]; intros H; cbn [for_each]; [exact I|].
  apply only_bind; [apply H; left; reflexivity|]. intros b.
  apply only_bind; [apply IH; intros; apply H; right; assumption|].
  intros bs. exact I.
Qed.

Lemma only_weaken {A} (P Q : call -> Prop) (p : prog A) :
  (forall c, P c -> Q c) -> only P p -> only Q p.
Proof.
  intros PQ. induction p as [a|e|c k IH]; cbn; auto.
  intros [Hc Hk]. split; auto.
Qed.

Lemma only_calls {A} P (p : prog A) w :
  only P p -> Forall P (calls_made handler p w).
Proof.
  unfold calls_made. revert w.
  induction p as [a|e|c k IH]; intros w Hp; cbn; auto.
  destruct Hp as [Hc Hk]. destruct (handler c w) as [x w1].
  specialize (IH x w1 (Hk x)).
  destruct (run handler (k x) w1) as [[r w2] calls]. cbn in *.
  constructor; assumption.
Qed.

End OnlyFacts.

Lemma str_append_assoc (a b c : string) :
  ((a ++ b) ++ c = a ++ (b ++ c))%string.
Proof. induction a as [|x a IH]; cbn; [reflexivity | rewrite IH; reflexivity]. Qed.

Lemma str_append_empty (a : string) : (a ++ "" = a)%string.
Proof. induction a as [|x a IH]; cbn; [reflexivity | rewrite IH; reflexivity]. Qed.

(** ** Image requests and captioning *)

Section CaptionFacts.

Context {world : Type} (handler : forall c : call, world -> answer c * world).
Variable float_to_str : float -> string.
Variable b64encode : bytes -> string.

Local Abbreviation get_street_view_image :=
  (get_street_view_image float_to_str).
Local Abbreviation image_request := (image_request float_to_str).
Local Abbreviation _generate_with_openrouter :=
  (_generate_with_openrouter b64encode).
Local Abbreviation openrouter_payload := (openrouter_payload b64encode).
Local Abbreviation openrouter_request := (openrouter_request b64encode).
Local Abbreviation analyze_image_with_llm :=
  (analyze_image_with_llm b64encode).

(** X6.  [get_street_view_image] sends one request and no more. It returns
    the body exactly when the answer has status 200; any other status, also
    another 2xx or a redirect, raises [Exception] with the status in its
    message; what the request raises passes through. *)
Theorem street_view_image_only_on_200
        self latitude longitude heading pitch fov w :
  calls_made handler
    (get_street_view_image self latitude longitude heading pitch fov) w
  = [image_request self latitude longitude heading pitch fov] /\
  (forall body,
      outcome handler
        (get_street_view_image self latitude longitude heading pitch fov) w
      = Return body <->
      exists r,
        fst (handler (image_request self latitude longitude heading pitch fov)
                     w) = Return r /\
        status_code r = 200%Z /\ content r = body) /\
  (forall r,
      fst (handler (image_request self latitude longitude heading pitch fov) w)
      = Return r ->
      status_code r <> 200%Z ->
      outcome handler
        (get_street_view_image self latitude longitude heading pitch fov) w
      = Raise (mk_exn Exception
                 ("Failed to get street view image: "
                    ++ str_of_Z (status_code r))%string)) /\
  (forall e,
      fst (handler (image_request self latitude longitude heading pitch fov) w)
      = Raise e ->
      outcome handler
        (get_street_view_image self latitude longitude heading pitch fov) w
      = Raise e).
Proof.
  unfold calls_made, outcome, get_street_view_image, image_request.
  rewrite run_call.
  destruct (handler _ w) as [[r|e] w1]; cbn [fst snd lift bind].
  - destruct (Z.eqb_spec (status_code r) 200) as [S|S]; cbn.
    + repeat split.
      * intros [= <-]. eauto.
      * intros (r' & [= <-] & _ & <-). reflexivity.
      * intros r' [= <-] N. contradiction.
      * discriminate.
    + repeat split.
      * discriminate.
      * intros (r' & [= <-] & S' & _). contradiction.
      * intros r' [= <-] _. reflexivity.
      * discriminate.
  - cbn. repeat split; try discriminate.
    + intros (r' & H & _). discriminate.
    + intros e' [= <-]. reflexivity.
Qed.

(** X7.  [_generate_with_openrouter] makes one call: a POST to the
    instance's endpoint with a 60 second timeout and the bearer token. Read
    back with the subscripts a receiver would use, its body carries the
    model name, one user message, the prompt as the text part and the image
    as a base64 data URI. *)
Theorem openrouter_request_shape self prompt image_data w :
  calls_made handler (_generate_with_openrouter self prompt image_data) w
  = [ requests_post (openrouter_url self)
        [ ("Authorization",
           ("Bearer " ++ str_of_opt (openrouter_api_key self))%string);
          ("Content-Type", "application/json") ]
        (openrouter_payload self prompt image_data) 60 ] /\
  subscript_str (openrouter_payload self prompt image_data) "model"
  = Return (pyval_of_opt (openrouter_model_name self)) /\
  (messages <- subscript_str (openrouter_payload self prompt image_data)
                             "messages" ;;
   message <- subscript_zero messages ;;
   subscript_str message "role")%result
  = Return (VStr "user") /\
  (messages <- subscript_str (openrouter_payload self prompt image_data)
                             "messages" ;;
   message <- subscript_zero messages ;;
   content <- subscript_str message "content" ;;
   part <- subscript_zero content ;;
   subscript_str part "text")%result
  = Return (VStr prompt) /\
  (messages <- subscript_str (openrouter_payload self prompt image_data)
                             "messages" ;;
   message <- subscript_zero messages ;;
   content <- subscript_str message "content" ;;
   part <- second_item content ;;
   image_url <- subscript_str part "image_url" ;;
   subscript_str image_url "url")%result
  = Return (VStr ("data:image/jpeg;base64," ++ b64encode image_data)%string).
Proof.
  split; [|repeat split].
  unfold calls_made, _generate_with_openrouter. rewrite run_call.
  fold (openrouter_payload self prompt image_data).
  destruct (handler _ w) as [[r|e] w1]; cbn [fst snd lift bind];
    [|reflexivity].
  unfold raise_for_status.
  destruct ((400 <=? status_code r)%Z && (status_code r <? 600)%Z);
    cbn [bind run snd]; [reflexivity|].
  rewrite run_bind, run_lift. destruct (json r) as [data|e]; [|reflexivity].
  rewrite run_lift. reflexivity.
Qed.

(** X8.  A status from 400 to 599 makes [_generate_with_openrouter] raise
    [HTTPError], whatever the body holds. *)
Theorem openrouter_http_error self prompt image_data w r :
  fst (handler (openrouter_request self prompt image_data) w) = Return r ->
  (400 <= status_code r < 600)%Z ->
  outcome handler (_generate_with_openrouter self prompt image_data) w
  = Raise (mk_exn HTTPError (str_of_Z (status_code r))).
Proof.
  intros A S. unfold outcome, _generate_with_openrouter. rewrite run_call.
  fold (openrouter_payload self prompt image_data).
  fold (openrouter_request self prompt image_data). rewrite A.
  cbn [lift bind]. unfold raise_for_status.
  replace ((400 <=? status_code r)%Z && (status_code r <? 600)%Z) with true
    by (symmetry; apply andb_true_iff; split;
        [apply Z.leb_le | apply Z.ltb_lt]; lia).
  destruct (run handler _ _) as [[x w2] c] eqn:R. cbn in R.
  injection R as <- _ _. reflexivity.
Qed.

(** X9.  On any other status [_generate_with_openrouter] returns the content
    of the first choice as the body gives it, a string or not; further
    choices and further keys are ignored. *)
Theorem openrouter_returns_first_choice
        self prompt image_data w r items choice others message c :
  fst (handler (openrouter_request self prompt image_data) w) = Return r ->
  (status_code r < 400 \/ 600 <= status_code r)%Z ->
  json r = Return (VDict items) ->
  dict_lookup "choices" items = Some (VList (VDict choice :: others)) ->
  dict_lookup "message" choice = Some (VDict message) ->
  dict_lookup "content" message = Some c ->
  outcome handler (_generate_with_openrouter self prompt image_data) w
  = Return c.
Proof.
  intros A S J C M K. unfold outcome, _generate_with_openrouter.
  rewrite run_call.
  fold (openrouter_payload self prompt image_data).
  fold (openrouter_request self prompt image_data). rewrite A.
  cbn [lift bind]. unfold raise_for_status.
  replace ((400 <=? status_code r)%Z && (status_code r <? 600)%Z) with false
    by (symmetry; apply andb_false_iff;
        destruct S; [left; apply Z.leb_gt | right; apply Z.ltb_ge]; lia).
  cbn [bind]. rewrite J. cbn [lift bind subscript_str rbind].
  rewrite C. cbn [rbind subscript_zero nth_item subscript_str].
  rewrite M. cbn [rbind subscript_str]. rewrite K.
  destruct (run handler _ _) as [[x w2] calls] eqn:R. cbn in R.
  injection R as <- _ _. reflexivity.
Qed.

(** X10.  A body that is not JSON, a body without "choices", and an empty
    list of choices each make [_generate_with_openrouter] raise: what
    [.json()] raised, [KeyError], [IndexError]. *)
Theorem openrouter_malformed_body self prompt image_data w r :
  fst (handler (openrouter_request self prompt image_data) w) = Return r ->
  (status_code r < 400 \/ 600 <= status_code r)%Z ->
  (forall e,
      json r = Raise e ->
      outcome handler (_generate_with_openrouter self prompt image_data) w
      = Raise e) /\
  (forall items,
      json r = Return (VDict items) ->
      dict_lookup "choices" items = None ->
      outcome handler (_generate_with_openrouter self prompt image_data) w
      = Raise (mk_exn (OtherError "KeyError") "choices")) /\
  (forall items,
      json r = Return (VDict items) ->
      dict_lookup "choices" items = Some (VList []) ->
      outcome handler (_generate_with_openrouter self prompt image_data) w
      = Raise (mk_exn (OtherError "IndexError") "list index out of range")).
Proof.
  intros A S. unfold outcome, _generate_with_openrouter.
  rewrite run_call.
  fold (openrouter_payload self prompt image_data).
  fold (openrouter_request self prompt image_data). rewrite A.
  cbn [lift bind]. unfold raise_for_status.
  replace ((400 <=? status_code r)%Z && (status_code r <? 600)%Z) with false
    by (symmetry; apply andb_false_iff;
        destruct S; [left; apply Z.leb_gt | right; apply Z.ltb_ge]; lia).
  cbn [bind]. repeat split.
  - intros e J. rewrite J. cbn [lift bind].
    destruct (run handler _ _) as [[x w2] calls] eqn:R. cbn in R.
    injection R as <- _ _. reflexivity.
  - intros items J C. rewrite J. cbn [lift bind subscript_str rbind].
    rewrite C. cbn [rbind lift].
    destruct (run handler _ _) as [[x w2] calls] eqn:R. cbn in R.
    injection R as <- _ _. reflexivity.
  - intros items J C. rewrite J. cbn [lift bind subscript_str rbind].
    rewrite C. cbn [rbind lift subscript_zero nth_item].
    destruct (run handler _ _) as [[x w2] calls] eqn:R. cbn in R.
    injection R as <- _ _. reflexivity.
Qed.

Lemma analyze_prompt self image_data environment_description time_descriptor :
  analyze_image_with_llm self image_data environment_description
                         time_descriptor
  = if use_openrouter self
    then _generate_with_openrouter
           self (caption_prompt environment_description time_descriptor)
           image_data
    else
      match gemini_client self with
      | None => Throw (mk_exn RuntimeError "Gemini client is not initialized")
      | Some client =>
          Call (generate_content
                  client
                  (caption_prompt environment_description time_descriptor)
                  "image/jpeg" image_data)
               (fun r => bind (lift r) (fun text => Ret (VStr text)))
      end.
Proof.
  unfold analyze_image_with_llm, caption_prompt. cbv zeta.
  destruct (environment_description =? "")%string,
    (truthy_str time_descriptor); cbn [negb];
    rewrite ?str_append_assoc, ?str_append_empty; reflexivity.
Qed.

(** X11.  With the Gemini client, captioning is one [generate_content] call
    on the prompt in closed form and the image as JPEG; the text that comes
    back is the caption, and what the call raises is raised. *)
Theorem gemini_caption
        self client image_data environment_description time_descriptor w :
  use_openrouter self = false ->
  gemini_client self = Some client ->
  let request :=
    generate_content client
      (caption_prompt environment_description time_descriptor)
      "image/jpeg" image_data in
  calls_made handler
    (analyze_image_with_llm self image_data environment_description
                            time_descriptor) w
  = [request] /\
  outcome handler
    (analyze_image_with_llm self image_data environment_description
                            time_descriptor) w
  = match fst (handler request w) with
    | Return text => Return (VStr text)
    | Raise e => Raise e
    end.
Proof.
  intros U C request. subst request. rewrite analyze_prompt, U, C.
  unfold calls_made, outcome. rewrite run_call.
  destruct (handler _ w) as [[text|e] w1]; split; reflexivity.
Qed.

(** X12.  Captioning talks to one backend only, decided by the instance:
    with [use_openrouter] its one call is the POST that carries the prompt
    in closed form; without, it makes no call but [generate_content]; and
    when there is no client either it raises [RuntimeError] without any
    call. *)
Theorem caption_backend_exclusive
        self image_data environment_description time_descriptor w :
  (use_openrouter self = true ->
   calls_made handler
     (analyze_image_with_llm self image_data environment_description
                             time_descriptor) w
   = [openrouter_request
        self (caption_prompt environment_description time_descriptor)
        image_data]) /\
  (use_openrouter self = false ->
   only is_generate_content
     (analyze_image_with_llm self image_data environment_description
                             time_descriptor)) /\
  (use_openrouter self = false ->
   gemini_client self = None ->
   run handler
     (analyze_image_with_llm self image_data environment_description
                             time_descriptor) w
   = (Raise (mk_exn RuntimeError "Gemini client is not initialized"), w, [])).
Proof.
  rewrite analyze_prompt. repeat split.
  - intros ->.
    unfold calls_made, _generate_with_openrouter, openrouter_request.
    rewrite run_call.
    fold (openrouter_payload
            self (caption_prompt environment_description time_descriptor)
            image_data).
    destruct (handler _ w) as [[r|e] w1]; cbn [fst snd lift bind];
      [|reflexivity].
    unfold raise_for_status.
    destruct ((400 <=? status_code r)%Z && (status_code r <? 600)%Z);
      cbn [bind run snd]; [reflexivity|].
    rewrite run_bind, run_lift. destruct (json r) as [data|e]; [|reflexivity].
    rewrite run_lift. reflexivity.
  - intros ->. destruct (gemini_client self); [|exact I].
    split; [exact I|]. intros [text|e]; exact I.
  - intros -> ->. reflexivity.
Qed.

End CaptionFacts.

(** ** More on construction *)

Section InitMore.

Context {world : Type} (handler : forall c : call, world -> answer c * world).

Local Abbreviation reads_environ := (reads_environ handler).

(** The attributes that [connect_gemini] copies into the instance. *)
Lemma connect_gemini_fields maps_key model openrouter_model gemini_key w self :
  outcome handler
    (connect_gemini maps_key model openrouter_model gemini_key) w
  = Return self ->
  gemini_model_name self = model /\
  openrouter_model_name self = openrouter_model /\
  openrouter_url self = "https://openrouter.ai/api/v1/chat/completions".
Proof.
  unfold outcome, connect_gemini.
  rewrite run_bind, run_try_except, run_call.
  destruct (handler (import_module "google.generativeai") w) as [[[]|e] w1];
    cbn -[isinstance].
  - destruct (handler (genai_configure (str_of_opt gemini_key)) w1)
      as [[[]|e] w2]; cbn; [|discriminate].
    destruct (handler (genai_GenerativeModel model) w2) as [[client|e] w3];
      cbn; [|discriminate].
    intros [= <-]. cbn. auto.
  - destruct (isinstance e ModuleNotFoundError); cbn; discriminate.
Qed.

(** X13.  The Gemini model name of an instance is the argument when that is
    a non-empty string; otherwise the value of GEMINI_MODEL_NAME when the
    variable is set, be it to the empty string; otherwise "gemini-2.5-pro".
    The remote model name is stored as given, and the endpoint is fixed. *)
Theorem init_model_names environ google_model openrouter_model w self :
  reads_environ environ ->
  outcome handler (__init__ google_model openrouter_model) w = Return self ->
  (forall name,
      google_model = Some name -> name <> "" ->
      gemini_model_name self = name) /\
  (google_model = None \/ google_model = Some "" ->
   forall name,
     environ "GEMINI_MODEL_NAME" = Some name ->
     gemini_model_name self = name) /\
  (google_model = None \/ google_model = Some "" ->
   environ "GEMINI_MODEL_NAME" = None ->
   gemini_model_name self = "gemini-2.5-pro") /\
  openrouter_model_name self = openrouter_model /\
  openrouter_url self = "https://openrouter.ai/api/v1/chat/completions".
Proof.
  intros E. unfold outcome. rewrite (run_init handler environ) by exact E.
  cbv zeta. intros R.
  assert (F : gemini_model_name self = chosen_model environ google_model /\
              openrouter_model_name self = openrouter_model /\
              openrouter_url self
              = "https://openrouter.ai/api/v1/chat/completions").
  { destruct (negb (truthy_str (environ "GOOGLE_MAPS_API_KEY")));
      [discriminate|].
    destruct (truthy_str openrouter_model).
    - destruct (negb (truthy_str (environ "OPENROUTER_API_KEY")));
        [discriminate|].
      cbn [fst] in R. injection R as <-. cbn. auto.
    - destruct (negb (truthy_str (environ "GEMINI_API_KEY")));
        [discriminate|].
      pose proof (connect_gemini_fields
                    (environ "GOOGLE_MAPS_API_KEY")
                    (chosen_model environ google_model) openrouter_model
                    (environ "GEMINI_API_KEY") w self) as C.
      unfold outcome in C.
      destruct (run handler (connect_gemini _ _ _ _) w) as [[r w2] calls].
      cbn [fst] in *. exact (C R). }
  destruct F as (M & O & U). rewrite M. unfold chosen_model.
  repeat split; trivial.
  - intros name -> N. cbn.
    destruct (String.eqb_spec name ""); [contradiction | reflexivity].
  - intros [-> | ->] name ->; reflexivity.
  - intros [-> | ->] ->; reflexivity.
Qed.

(** X14.  On the Gemini branch, a failing import ends construction: a
    [ModuleNotFoundError] is turned into the [ImportError] of line 53, any
    other exception passes as it is, and the module is never configured. *)
Theorem init_import_failure environ google_model openrouter_model w e :
  reads_environ environ ->
  truthy_str (environ "GOOGLE_MAPS_API_KEY") = true ->
  truthy_str openrouter_model = false ->
  truthy_str (environ "GEMINI_API_KEY") = true ->
  fst (handler (import_module "google.generativeai") w) = Raise e ->
  outcome handler (__init__ google_model openrouter_model) w
  = Raise (if isinstance e ModuleNotFoundError
           then mk_exn ImportError
                  "google-generativeai package is required for StreetViewRetrievalAndAnalysis"
           else e) /\
  calls_made handler (__init__ google_model openrouter_model) w
  = first_reads google_model
      ++ [os_getenv "GEMINI_API_KEY"; import_module "google.generativeai"].
Proof.
  intros E K O G I. unfold outcome, calls_made.
  rewrite (run_init handler environ) by exact E. cbv zeta.
  rewrite K, O, G. cbn [negb]. unfold connect_gemini.
  rewrite run_bind, run_try_except, run_call.
  destruct (handler (import_module "google.generativeai") w) as [r w1].
  cbn [fst] in I. subst r. cbn -[isinstance first_reads].
  destruct (isinstance e ModuleNotFoundError); split; reflexivity.
Qed.

(** X15.  On the Gemini branch, when the import, the configuration and the
    model construction go through, construction made exactly these calls in
    this order: the environment reads, the import, [configure] with the
    Gemini key, [GenerativeModel] with the chosen model name; the instance
    holds the client so obtained. *)
Theorem init_gemini_sequence
        environ google_model openrouter_model w w1 w2 w3 client :
  reads_environ environ ->
  truthy_str (environ "GOOGLE_MAPS_API_KEY") = true ->
  truthy_str openrouter_model = false ->
  truthy_str (environ "GEMINI_API_KEY") = true ->
  handler (import_module "google.generativeai") w = (Return tt, w1) ->
  handler (genai_configure (str_of_opt (environ "GEMINI_API_KEY"))) w1
  = (Return tt, w2) ->
  handler (genai_GenerativeModel (chosen_model environ google_model)) w2
  = (Return client, w3) ->
  exists self,
    run handler (__init__ google_model openrouter_model) w
    = (Return self, w3,
       first_reads google_model
         ++ [ os_getenv "GEMINI_API_KEY";
              import_module "google.generativeai";
              genai_configure (str_of_opt (environ "GEMINI_API_KEY"));
              genai_GenerativeModel (chosen_model environ google_model) ]) /\
    gemini_client self = Some client /\
    gemini_model_name self = chosen_model environ google_model /\
    gemini_api_key self = environ "GEMINI_API_KEY".
Proof.
  intros E K O G I C M.
  rewrite (run_init handler environ) by exact E. cbv zeta.
  rewrite K, O, G. cbn [negb]. unfold connect_gemini.
  rewrite run_bind, run_try_except, run_call, I.
  cbn -[isinstance first_reads chosen_model]. rewrite C.
  cbn -[isinstance first_reads chosen_model]. rewrite M.
  cbn -[isinstance first_reads chosen_model].
  eexists. split; [reflexivity|]. cbn. auto.
Qed.

End InitMore.

(** ** More on context extraction *)

Section ContextMore.

Context {world : Type} (handler : forall c : call, world -> answer c * world).
Variable object_str : pyval -> string.

Local Abbreviation report_read := (report_read handler).
Local Abbreviation loaded_report := (loaded_report handler).

Lemma context_of_report_time report_data summary time_descriptor :
  context_of_report object_str report_data
  = Return (summary, time_descriptor) ->
  exists v, describe_time v = Return time_descriptor.
Proof.
  unfold context_of_report.
  destruct (py_get report_data "accident_weather" (VDict [])) as [aw|];
    cbn [rbind]; [|discriminate].
  destruct (py_get (if truthy aw then aw else VDict []) "weather" VNone);
    cbn [rbind]; [|discriminate].
  destruct (py_get (if truthy aw then aw else VDict []) "light" VNone);
    cbn [rbind]; [|discriminate].
  destruct (py_get (if truthy aw then aw else VDict [])
                   "road_surface_condition" VNone);
    cbn [rbind]; [|discriminate].
  destruct (py_get report_data "accident_time" VNone) as [t|];
    cbn [rbind]; [|discriminate].
  destruct (describe_time t) as [td|] eqn:D; cbn [rbind]; [|discriminate].
  intros [= _ <-]. exists t. exact D.
Qed.

(** X16.  Whatever the report holds, a time descriptor that context
    extraction returns is one of the five labels. *)
Theorem time_descriptor_is_a_label w path_to_fcd summary label :
  outcome handler (_load_environment_context object_str path_to_fcd) w
  = Return (summary, Some label) ->
  In label ["morning"; "noon"; "afternoon"; "evening"; "night"].
Proof.
  rewrite load_environment_context_outcome.
  assert (D : forall v, describe_time v = Return (Some label) ->
                        In label ["morning"; "noon"; "afternoon"; "evening";
                                  "night"]).
  { intros v. unfold describe_time, rtry. destruct (truthy v); [|discriminate].
    destruct (strptime v) as [dt|e]; cbn -[time_of_day isinstance In].
    - intros [= <-]. apply time_of_day_cases.
    - destruct (isinstance e ValueError); discriminate. }
  destruct (report_read w path_to_fcd) as [[data|e]|]; [| |discriminate].
  - intros H. destruct (context_of_report_time _ _ _ H) as [v Hv]. eauto.
  - destruct (isinstance e OSError || isinstance e YAMLError); [discriminate|].
    discriminate.
Qed.

(** X17.  Context extraction probes the report beside the FCD file once,
    loads it once when it is there, and makes no other call. *)
Theorem load_environment_context_calls w path_to_fcd :
  calls_made handler (_load_environment_context object_str path_to_fcd) w
  = path_exists (joinpath (parent path_to_fcd) "report.yaml")
      :: (if fst (handler
                    (path_exists (joinpath (parent path_to_fcd) "report.yaml"))
                    w)
          then [yaml_safe_load (joinpath (parent path_to_fcd) "report.yaml")]
          else []).
Proof.
  unfold calls_made, _load_environment_context. rewrite run_call.
  destruct (handler (path_exists _) w) as [found w1].
  cbn [fst snd]. destruct found; cbn [negb]; [|reflexivity].
  rewrite run_bind, run_try_except, run_call.
  destruct (handler (yaml_safe_load _) w1)
    as [[data|e] w2]; cbn -[isinstance context_of_report truthy].
  - rewrite run_lift. reflexivity.
  - destruct (isinstance e OSError || isinstance e YAMLError); reflexivity.
Qed.

(** X18.  A report that loads as a falsy value, an empty file or an empty
    mapping, gives the empty summary and no time descriptor. *)
Theorem empty_report_gives_no_context w path_to_fcd data :
  report_read w path_to_fcd = Some (Return data) ->
  truthy data = false ->
  outcome handler (_load_environment_context object_str path_to_fcd) w
  = Return ("", None).
Proof.
  intros R T. rewrite load_environment_context_outcome, R, T. reflexivity.
Qed.

(** X19.  What context extraction does not absorb. An exception of the load
    that is neither [OSError] nor [YAMLError] is raised as it is; a report
    that loads as a truthy value that is no mapping raises [AttributeError],
    and so does a truthy weather section that is no mapping; a truthy
    accident time that is no string raises [TypeError]. *)
Theorem load_environment_context_raises w path_to_fcd :
  (forall e,
      report_read w path_to_fcd = Some (Raise e) ->
      isinstance e OSError || isinstance e YAMLError = false ->
      outcome handler (_load_environment_context object_str path_to_fcd) w
      = Raise e) /\
  (forall data,
      report_read w path_to_fcd = Some (Return data) ->
      truthy data = true ->
      (forall items, data <> VDict items) ->
      exists e,
        outcome handler (_load_environment_context object_str path_to_fcd) w
        = Raise e /\ exn_type e = AttributeError) /\
  (forall items section,
      loaded_report w path_to_fcd = Some (VDict items) ->
      dict_lookup "accident_weather" items = Some section ->
      truthy section = true ->
      (forall fields, section <> VDict fields) ->
      exists e,
        outcome handler (_load_environment_context object_str path_to_fcd) w
        = Raise e /\ exn_type e = AttributeError) /\
  (forall items v,
      loaded_report w path_to_fcd = Some (VDict items) ->
      weather_section_ok items = true ->
      dict_lookup "accident_time" items = Some v ->
      truthy v = true ->
      (forall s, v <> VStr s) ->
      exists e,
        outcome handler (_load_environment_context object_str path_to_fcd) w
        = Raise e /\ exn_type e = TypeError).
Proof.
  repeat split.
  - intros e R C. rewrite load_environment_context_outcome, R, C. reflexivity.
  - intros data R T N. rewrite load_environment_context_outcome, R, T.
    destruct data; try (eexists; split; reflexivity).
    destruct (N _ eq_refl).
  - intros items section L S T N.
    rewrite (outcome_loaded handler object_str _ _ _ L).
    unfold context_of_report. cbn [py_get rbind]. rewrite S, T.
    destruct section; try (eexists; split; reflexivity).
    destruct (N _ eq_refl).
  - intros items v L W A T N.
    rewrite (outcome_loaded handler object_str _ _ _ L).
    rewrite (context_of_report_dict object_str _ W).
    unfold item. rewrite A. unfold describe_time. rewrite T.
    destruct v; try (eexists; split; reflexivity).
    destruct (N _ eq_refl).
Qed.

End ContextMore.

(** ** More on the orchestrator *)

Section OrchestratorMore.

Context {world : Type} (handler : forall c : call, world -> answer c * world).

Variable str_to_float : string -> option float.
Variable float_to_str : float -> string.
Variable object_str : pyval -> string.
Variable b64encode : bytes -> string.

Local Abbreviation camera_attempt :=
  (camera_attempt float_to_str b64encode).
Local Abbreviation describe_camera :=
  (describe_camera float_to_str b64encode).
Local Abbreviation prepare := (prepare str_to_float float_to_str object_str).
Local Abbreviation street_view_request :=
  (street_view_request float_to_str).
Local Abbreviation get_streetview_image_and_description :=
  (get_streetview_image_and_description str_to_float float_to_str object_str
                                        b64encode).

Ltac confine :=
  repeat first
    [ exact I
    | apply only_lift
    | apply only_bind
    | apply only_try_except
    | progress intros
    | match goal with
      | |- only _ (Call _ _) => split; [try exact I|]
      | |- only _ (if ?b then _ else _) => destruct b
      | |- only _ (match ?x with _ => _ end) => destruct x
      end
    | progress unfold analyze_image_with_llm, _generate_with_openrouter,
        raise_for_status, get_street_view_image, _load_environment_context
    | progress cbn [only bind lift try_except] ].

Lemma prepare_writes_nothing fcd net vid target :
  only (fun c => is_open_write c = false /\ is_requests_get c = false)
       (prepare fcd net vid target).
Proof. unfold prepare. confine; split; reflexivity. Qed.

Lemma prepare_error_aborts self out fcd net vid target w e :
  outcome handler (prepare fcd net vid target) w = Raise e ->
  outcome handler
    (get_streetview_image_and_description self out fcd net vid target) w
  = Raise e /\
  calls_made handler
    (get_streetview_image_and_description self out fcd net vid target) w
  = calls_made handler (prepare fcd net vid target) w.
Proof.
  unfold outcome, calls_made, get_streetview_image_and_description.
  rewrite run_bind.
  destruct (run handler (prepare fcd net vid target) w) as [[r w1] c1].
  cbn [fst snd]. intros ->. split; reflexivity.
Qed.

(** X20.  When the lookup finds no pose the run ends there: it returns the
    text of line 205, having read the network and the FCD file and done
    nothing else. *)
Theorem no_pose_stops_run self out fcd net vid target w network w1 root w2 :
  handler (sumolib_readNet net) w = (Return network, w1) ->
  handler (ET_parse fcd) w1 = (Return root, w2) ->
  get_vehicle_position_at_time str_to_float root vid target = Return None ->
  run handler
      (get_streetview_image_and_description self out fcd net vid target) w
  = (Return "Vehicle not found at the specified time", w2,
     [sumolib_readNet net; ET_parse fcd]).
Proof.
  intros N P L. unfold get_streetview_image_and_description, prepare.
  cbn [run bind lift]. rewrite N. cbn [run bind lift]. rewrite P.
  cbn [run bind lift]. rewrite L. reflexivity.
Qed.

(** X21.  A network or an FCD file that cannot be read, and a lookup that
    raises, end the run with that exception: the network is read first, the
    FCD file second, and nothing is fetched or written. *)
Theorem unreadable_inputs_abort self out fcd net vid target w :
  (forall e,
      fst (handler (sumolib_readNet net) w) = Raise e ->
      outcome handler
        (get_streetview_image_and_description self out fcd net vid target) w
      = Raise e /\
      calls_made handler
        (get_streetview_image_and_description self out fcd net vid target) w
      = [sumolib_readNet net]) /\
  (forall network w1 e,
      handler (sumolib_readNet net) w = (Return network, w1) ->
      fst (handler (ET_parse fcd) w1) = Raise e ->
      outcome handler
        (get_streetview_image_and_description self out fcd net vid target) w
      = Raise e /\
      calls_made handler
        (get_streetview_image_and_description self out fcd net vid target) w
      = [sumolib_readNet net; ET_parse fcd]) /\
  (forall network w1 root w2 e,
      handler (sumolib_readNet net) w = (Return network, w1) ->
      handler (ET_parse fcd) w1 = (Return root, w2) ->
      get_vehicle_position_at_time str_to_float root vid target = Raise e ->
      outcome handler
        (get_streetview_image_and_description self out fcd net vid target) w
      = Raise e /\
      calls_made handler
        (get_streetview_image_and_description self out fcd net vid target) w
      = [sumolib_readNet net; ET_parse fcd]).
Proof.
  unfold outcome, calls_made, get_streetview_image_and_description, prepare.
  repeat split.
  - cbn [run bind lift]. destruct (handler (sumolib_readNet net) w) as [r w1].
    cbn [fst] in *. subst r. reflexivity.
  - cbn [run bind lift]. destruct (handler (sumolib_readNet net) w) as [r w1].
    cbn [fst] in *. subst r. reflexivity.
  - cbn [run bind lift]. rewrite H. cbn [run bind lift].
    destruct (handler (ET_parse fcd) w1) as [r w2].
    cbn [fst] in *. subst r. reflexivity.
  - cbn [run bind lift]. rewrite H. cbn [run bind lift].
    destruct (handler (ET_parse fcd) w1) as [r w2].
    cbn [fst] in *. subst r. reflexivity.
  - cbn [run bind lift]. rewrite H. cbn [run bind lift]. rewrite H0.
    cbn [run bind lift]. rewrite H1. reflexivity.
  - cbn [run bind lift]. rewrite H. cbn [run bind lift]. rewrite H0.
    cbn [run bind lift]. rewrite H1. reflexivity.
Qed.

(** X22.  Context extraction runs outside the loop's [try]: when it raises,
    the whole run raises that exception, and no image has been requested and
    no file written. *)
Theorem report_error_aborts_run
        self out fcd net vid target w network w1 root w2 x y angle lon lat e :
  handler (sumolib_readNet net) w = (Return network, w1) ->
  handler (ET_parse fcd) w1 = (Return root, w2) ->
  get_vehicle_position_at_time str_to_float root vid target
  = Return (Some (x, y, angle)) ->
  convertXY2LonLat network x y = Return (lon, lat) ->
  outcome handler (_load_environment_context object_str fcd)
          (snd (handler
                  (print ("Processing location at lon: " ++ float_to_str lon
                            ++ ", lat: " ++ float_to_str lat
                            ++ ", angle: " ++ float_to_str angle)%string)
                  w2))
  = Raise e ->
  outcome handler
    (get_streetview_image_and_description self out fcd net vid target) w
  = Raise e /\
  filter is_requests_get
    (calls_made handler
       (get_streetview_image_and_description self out fcd net vid target) w)
  = [] /\
  filter is_open_write
    (calls_made handler
       (get_streetview_image_and_description self out fcd net vid target) w)
  = [].
Proof.
  intros N P L C R.
  assert (E : outcome handler (prepare fcd net vid target) w = Raise e).
  { unfold outcome, prepare. cbn [run bind lift]. rewrite N.
    cbn [run bind lift]. rewrite P. cbn [run bind lift]. rewrite L.
    cbn [run bind lift]. rewrite C. cbn [run bind lift].
    match goal with
    | |- context [handler (print ?l) w2] =>
        destruct (handler (print l) w2) as [[] w3]
    end.
    cbn [snd] in R. unfold outcome in R. rewrite run_bind.
    destruct (run handler (_load_environment_context object_str fcd) w3)
      as [[r w4] c4].
    cbn [fst] in R. subst r. reflexivity. }
  destruct (prepare_error_aborts self out fcd net vid target w e E)
    as [-> ->].
  split; [reflexivity|].
  pose proof (only_calls handler _ _ w
                (prepare_writes_nothing fcd net vid target)) as F.
  induction F as [|c l [W G] F IH]; [split; reflexivity|].
  cbn [filter]. rewrite W, G. exact IH.
Qed.

(** X23.  Every file the orchestrator writes is the image or the prompt of
    one of the six cameras, in the output directory. *)
Theorem writes_stay_in_output_directory self out fcd net vid target w :
  Forall (writes_within out)
         (calls_made handler
            (get_streetview_image_and_description self out fcd net vid target)
            w).
Proof.
  apply only_calls. unfold get_streetview_image_and_description.
  apply only_bind.
  - apply (only_weaken (fun c => is_open_write c = false /\
                                 is_requests_get c = false)).
    + intros [] [W _]; try exact I. discriminate W.
    + apply prepare_writes_nothing.
  - intros [[[[[lon lat] angle] ed] td]|]; [|exact I].
    apply only_bind; [|intros; exact I].
    apply only_for_each. intros [name offset] Hin.
    unfold describe_camera, camera_attempt.
    cbn in Hin.
    repeat (destruct Hin as [[= <- <-] | Hin];
            [confine; eexists; (split; [|(left + right); reflexivity]);
             cbn; auto 10 |]).
    destruct Hin.
Qed.

(** X24.  A viewpoint whose image cannot be fetched, the request raising or
    answering with a status other than 200, costs one request and one
    printed line: its section is the placeholder, nothing is written for it
    and no caption is asked for. *)
Theorem failed_fetch_leaves_no_file
        self out lat lon angle ed td name offset fov w :
  In (name, offset, fov) viewpoints ->
  let request :=
    street_view_request self lat lon
      (PyFloat.add angle (PyFloat.of_Z offset)) fov in
  let turn := describe_camera self out lat lon angle ed td (name, offset) in
  (forall e,
      fst (handler request w) = Raise e ->
      outcome handler turn w = Return (failure_section name) /\
      calls_made handler turn w
      = [request; print (error_line name (exn_msg e))]) /\
  (forall r,
      fst (handler request w) = Return r ->
      status_code r <> 200%Z ->
      outcome handler turn w = Return (failure_section name) /\
      calls_made handler turn w
      = [ request;
          print (error_line name
                   ("Failed to get street view image: "
                      ++ str_of_Z (status_code r))%string) ]).
Proof.
  intros V request turn. subst request turn.
  destruct (viewpoint_tables _ _ _ V) as (_ & F & _).
  unfold outcome, calls_made, describe_camera, camera_attempt.
  rewrite F. cbn [lift bind fst]. unfold get_street_view_image.
  fold (street_view_request self lat lon
          (PyFloat.add angle (PyFloat.of_Z offset)) fov).
  cbn [bind try_except]. rewrite !run_call.
  destruct (handler (street_view_request self lat lon
                       (PyFloat.add angle (PyFloat.of_Z offset)) fov) w)
    as [a w1].
  cbn [fst snd]. split.
  - intros e ->. cbn [lift bind try_except run].
    destruct (handler (print _) w1) as [[] w2]. split; reflexivity.
  - intros r -> S. cbn [lift bind try_except].
    destruct (Z.eqb_spec (status_code r) 200); [contradiction|].
    cbn [bind try_except run].
    destruct (handler (print _) w1) as [[] w2]. split; reflexivity.
Qed.

(** The block of one viewpoint once the image is there and saved: the
    caption is asked for next, and what follows it. *)
Lemma camera_attempt_after_fetch
      self out lat lon angle ed td name offset fov w r w1 w2 prompt :
  In (name, offset, fov) viewpoints ->
  table_item default_prompt_list name = Return prompt ->
  handler (street_view_request self lat lon
             (PyFloat.add angle (PyFloat.of_Z offset)) fov) w
  = (Return r, w1) ->
  status_code r = 200%Z ->
  handler (open_write (image_file out name) (Binary (content r))) w1
  = (Return tt, w2) ->
  run handler (camera_attempt self out lat lon angle ed td (name, offset)) w
  = let '(caption, w3, calls) :=
      run handler (analyze_image_with_llm b64encode self (content r) ed td)
          (snd (handler (print (image_saved_line out name)) w2)) in
    let before :=
      [ street_view_request self lat lon
          (PyFloat.add angle (PyFloat.of_Z offset)) fov;
        open_write (image_file out name) (Binary (content r));
        print (image_saved_line out name) ] in
    match caption with
    | Raise e => (Raise e, w3, before ++ calls)
    | Return v =>
        match str_add (prompt ++ time_prefix td) v with
        | Raise e => (Raise e, w3, before ++ calls)
        | Return full =>
            match handler (open_write (prompt_file out name) (Text full)) w3
            with
            | (Raise e, w4) =>
                (Raise e, w4,
                 before ++ calls
                   ++ [open_write (prompt_file out name) (Text full)])
            | (Return _, w4) =>
                (Return (name ++ ": " ++ full)%string,
                 snd (handler (print (prompt_saved_line out name)) w4),
                 before ++ calls
                   ++ [ open_write (prompt_file out name) (Text full);
                        print (prompt_saved_line out name) ])
            end
        end
    end.
Proof.
  intros V P Q S W.
  destruct (viewpoint_tables _ _ _ V) as (_ & F & _).
  unfold camera_attempt. rewrite F. cbn [lift bind].
  unfold get_street_view_image.
  fold (street_view_request self lat lon
          (PyFloat.add angle (PyFloat.of_Z offset)) fov).
  fold (image_file out name). fold (image_saved_line out name).
  fold (prompt_file out name). fold (prompt_saved_line out name).
  fold (time_prefix td).
  cbn [bind]. rewrite run_call, Q. cbn [fst snd lift bind]. rewrite S.
  change (200 =? 200)%Z with true. cbn iota. cbn [bind].
  rewrite run_call, W. cbn [fst snd lift bind].
  rewrite run_call, run_bind.
  destruct (run handler (analyze_image_with_llm b64encode self (content r) ed td)
                (snd (handler (print (image_saved_line out name)) w2)))
    as [[[v|e] w3] calls]; [|reflexivity].
  rewrite P. cbn [lift bind].
  destruct (str_add (prompt ++ time_prefix td) v) as [full|e];
    cbn [lift bind run]; [|rewrite app_nil_r; reflexivity].
  destruct (handler (open_write (prompt_file out name) (Text full)) w3)
    as [[[]|e] w4]; cbn [lift bind run]; [|reflexivity].
  destruct (handler (print (prompt_saved_line out name)) w4) as [[] w5].
  reflexivity.
Qed.


(** X26.  A viewpoint that goes through leaves two files: the image as
    fetched, and the prompt file, whose text is the camera's fixed prompt,
    the time-of-day sentence and the caption; the section returned for the
    viewpoint is the camera name, a colon and that same text. *)
Theorem viewpoint_files_match_section
        self out lat lon angle ed td name offset fov w r w1 w2 w3 w4
        prompt text calls :
  In (name, offset, fov) viewpoints ->
  table_item default_prompt_list name = Return prompt ->
  let request :=
    street_view_request self lat lon
      (PyFloat.add angle (PyFloat.of_Z offset)) fov in
  let turn := describe_camera self out lat lon angle ed td (name, offset) in
  let full := ((prompt ++ time_prefix td) ++ text)%string in
  handler request w = (Return r, w1) ->
  status_code r = 200%Z ->
  handler (open_write (image_file out name) (Binary (content r))) w1
  = (Return tt, w2) ->
  run handler (analyze_image_with_llm b64encode self (content r) ed td)
      (snd (handler (print (image_saved_line out name)) w2))
  = (Return (VStr text), w3, calls) ->
  handler (open_write (prompt_file out name) (Text full)) w3
  = (Return tt, w4) ->
  outcome handler turn w = Return (name ++ ": " ++ full)%string /\
  calls_made handler turn w
  = [ request;
      open_write (image_file out name) (Binary (content r));
      print (image_saved_line out name) ]
      ++ calls
      ++ [ open_write (prompt_file out name) (Text full);
           print (prompt_saved_line out name) ].
Proof.
  intros V P request turn full Q S W C T. subst request turn full.
  unfold outcome, calls_made, describe_camera.
  rewrite run_try_except.
  rewrite (camera_attempt_after_fetch self out lat lon angle ed td _ _ _ _ _ _
             _ _ V P Q S W).
  rewrite C. cbn [str_add]. rewrite T. split; reflexivity.
Qed.

End OrchestratorMore.

(** ** Frame extraction *)

Section FrameInterval.

Import PyFloat.

(** X27.  The frame interval is computed exactly when [fps * interval] is a
    finite number, and is then at least 1; a capture that reports 0 frames
    per second, as one that failed to open does, gives 1. *)
Theorem frame_interval_at_least_one fps interval :
  (forall n, frame_interval fps interval = Return n -> (1 <= n)%Z) /\
  (is_finite (float_mul fps interval) = true <->
   exists n, frame_interval fps interval = Return n) /\
  (forall s,
      is_finite interval = true ->
      frame_interval (S754_zero s) interval = Return 1%Z).
Proof.
  unfold frame_interval. repeat split.
  - intros n. destruct (int_of_float (float_mul fps interval)) as [m|e];
      cbn [rbind]; [|discriminate].
    intros [= <-]. lia.
  - intros F. destruct (float_mul fps interval); try discriminate F;
      eexists; reflexivity.
  - intros [n H]. destruct (float_mul fps interval); try reflexivity;
      discriminate H.
  - intros s F. destruct interval as [[] | [] | | [] m e];
      try discriminate F; destruct s; reflexivity.
Qed.

End FrameInterval.

Section ExtractFrames.

Context {world : Type}.
Variable cv_handler :
  forall c : cv_call, world -> result (cv_answer c) * world.

Local Abbreviation read_loop := (read_loop cv_handler).
Local Abbreviation extract_frames := (extract_frames cv_handler).
Local Abbreviation vcall := (vcall cv_handler).

Lemma vbind_apply {A B} (m : @video world A) (f : A -> @video world B) w :
  vbind m f w
  = match m w return result B * world * list cv_call with
    | (Return a, w1, c1) =>
        let '(r, w2, c2) := f a w1 in (r, w2, c1 ++ c2)
    | (Raise e, w1, c1) => (Raise e, w1, c1)
    end.
Proof. reflexivity. Qed.

Lemma vcall_apply c w :
  vcall c w = (fst (cv_handler c w), snd (cv_handler c w), [c]).
Proof. unfold vcall. destruct (cv_handler c w). reflexivity. Qed.

Lemma imwrites_app a b : imwrites (a ++ b) = imwrites a ++ imwrites b.
Proof. unfold imwrites. apply flat_map_app. Qed.

(** One turn of the loop. *)
Lemma read_loop_S fuel output_dir i frame_count saved_count :
  read_loop (S fuel) output_dir i frame_count saved_count
  = vbind (vcall cap_read)
      (fun test =>
         if fst test then
           vbind
             (if (frame_count mod i =? 0)%Z then
                vbind (vcall (cap_set_pos_frames frame_count))
                  (fun _ =>
                     vbind (vcall cap_read)
                       (fun ret_frame =>
                          vbind
                            (vcall (cv2_imwrite
                                      (frame_path output_dir saved_count)
                                      (snd ret_frame)))
                            (fun _ => vret (saved_count + 1)%Z)))
              else vret saved_count)
             (fun saved_count' =>
                read_loop fuel output_dir i (frame_count + 1)%Z saved_count')
         else vret (Some tt)).
Proof. reflexivity. Qed.

Lemma read_loop_calls fuel output_dir i :
  forall frame_count saved_count w,
    ~ In cap_release
         (snd (read_loop fuel output_dir i frame_count saved_count w)) /\
    map fst (imwrites
               (snd (read_loop fuel output_dir i frame_count saved_count w)))
    = map (fun k => frame_path output_dir (saved_count + Z.of_nat k))
          (seq 0 (List.length
                    (imwrites
                       (snd (read_loop fuel output_dir i frame_count
                                       saved_count w))))).
Proof.
  induction fuel as [|fuel IH]; intros c s w.
  - cbn. split; [intros [] | reflexivity].
  - rewrite read_loop_S, vbind_apply, vcall_apply.
    destruct (cv_handler cap_read w) as [[[ok fr]|e] w1]; cbn [fst snd].
    2:{ cbn. split; [intros [H|[]]; discriminate H | reflexivity]. }
    destruct ok.
    2:{ cbn. split; [intros [H|[]]; discriminate H | reflexivity]. }
    rewrite vbind_apply.
    destruct (c mod i =? 0)%Z.
    + rewrite vbind_apply, vcall_apply.
      destruct (cv_handler (cap_set_pos_frames c) w1) as [[moved|e] w2];
        cbn [fst snd].
      2:{ cbn. split; [intros [H|[H|[]]]; discriminate H | reflexivity]. }
      rewrite vbind_apply, vcall_apply.
      destruct (cv_handler cap_read w2) as [[[ret fr2]|e] w3]; cbn [fst snd].
      2:{ cbn. split; [intros [H|[H|[H|[]]]]; discriminate H | reflexivity]. }
      rewrite vbind_apply, vcall_apply.
      destruct (cv_handler (cv2_imwrite (frame_path output_dir s) fr2) w3)
        as [[written|e] w4]; cbn [fst snd].
      2:{ cbn -[frame_path]. split; [intros [H|[H|[H|[H|[]]]]]; discriminate H |].
          rewrite Z.add_0_r. reflexivity. }
      unfold vret. cbn -[frame_path imwrites Z.add].
      specialize (IH (c + 1)%Z (s + 1)%Z w4).
      destruct (read_loop fuel output_dir i (c + 1)%Z (s + 1)%Z w4)
        as [[r w5] calls].
      cbn [fst snd app] in *. destruct IH as [NoRel Names]. split.
      * intros [H|[H|[H|[H|H]]]]; try discriminate H. exact (NoRel H).
      * change (cap_read :: cap_set_pos_frames c :: cap_read
                  :: cv2_imwrite (frame_path output_dir s) fr2 :: calls)
          with ([cap_read; cap_set_pos_frames c; cap_read;
                 cv2_imwrite (frame_path output_dir s) fr2] ++ calls).
        rewrite imwrites_app.
        change (imwrites [cap_read; cap_set_pos_frames c; cap_read;
                          cv2_imwrite (frame_path output_dir s) fr2])
          with [(frame_path output_dir s, fr2)].
        cbn [app map fst List.length seq]. rewrite Names, Z.add_0_r. f_equal.
        rewrite <- seq_shift, map_map. apply map_ext. intros k.
        f_equal. lia.
    + unfold vret. cbn -[frame_path imwrites Z.add].
      specialize (IH (c + 1)%Z s w1).
      destruct (read_loop fuel output_dir i (c + 1)%Z s w1)
        as [[r w5] calls].
      cbn [fst snd app] in *. destruct IH as [NoRel Names]. split.
      * intros [H|H]; [discriminate H | exact (NoRel H)].
      * change (cap_read :: calls) with ([cap_read] ++ calls).
        rewrite imwrites_app. exact Names.
Qed.

Lemma last_occurrence {A} (x : A) l :
  forall before after,
    ~ In x l -> l ++ [x] = before ++ x :: after ->
    after = [] /\ before = l.
Proof.
  induction l as [|y l IH]; intros before after N E.
  - destruct before as [|z before]; cbn in E.
    + injection E as <-. split; reflexivity.
    + injection E as _ E. destruct before; discriminate E.
  - destruct before as [|z before]; cbn in E.
    + injection E as -> _. destruct N. left; reflexivity.
    + injection E as <- E.
      destruct (IH before after (fun H => N (or_intror H)) E) as [-> ->].
      split; reflexivity.
Qed.

(** The calls of a run: those before the closing [release], among which
    there is no [release], and the [release] itself exactly when the loop
    came to its end. *)
Lemma extract_frames_calls fuel video_path output_dir interval w r w' calls :
  extract_frames fuel video_path output_dir interval w = (r, w', calls) ->
  exists before,
    ~ In cap_release before /\
    map fst (imwrites before)
    = map (fun k => frame_path output_dir (Z.of_nat k))
          (seq 0 (List.length (imwrites before))) /\
    (calls = before \/ calls = before ++ [cap_release]) /\
    (r = Return (Some tt) -> calls = before ++ [cap_release]) /\
    (r = Return None -> calls = before).
Proof.
  unfold extract_frames, vbind at 1, vcall at 1.
  destruct (cv_handler (cv2_VideoCapture video_path) w) as [[[]|e] w1].
  2:{ intros [= <- _ <-]. exists [cv2_VideoCapture video_path].
      split; [intros [H|[]]; discriminate H|]. split; [reflexivity|].
      split; [left; reflexivity|]. split; discriminate. }
  unfold vbind at 1, vcall at 1.
  destruct (cv_handler cap_get_fps w1) as [[fps|e] w2].
  2:{ intros [= <- _ <-]. exists [cv2_VideoCapture video_path; cap_get_fps].
      split; [intros [H|[H|[]]]; discriminate H|]. split; [reflexivity|].
      split; [left; reflexivity|]. split; discriminate. }
  unfold vbind at 1, vlift at 1.
  destruct (frame_interval fps interval) as [i|e].
  2:{ intros [= <- _ <-]. exists [cv2_VideoCapture video_path; cap_get_fps].
      split; [intros [H|[H|[]]]; discriminate H|]. split; [reflexivity|].
      split; [left; reflexivity|]. split; discriminate. }
  unfold vbind at 1, vcall at 1.
  destruct (cv_handler (os_makedirs output_dir) w2) as [[[]|e] w3].
  2:{ intros [= <- _ <-].
      exists [cv2_VideoCapture video_path; cap_get_fps;
              os_makedirs output_dir].
      split; [intros [H|[H|[H|[]]]]; discriminate H|]. split; [reflexivity|].
      split; [left; reflexivity|]. split; discriminate. }
  unfold vbind at 1.
  destruct (read_loop_calls fuel output_dir i 0%Z 0%Z w3) as [NoRel Names].
  destruct (read_loop fuel output_dir i 0%Z 0%Z w3) as [[r0 w4] calls0].
  cbn [fst snd] in NoRel, Names.
  assert (Pre : ~ In cap_release
                     (cv2_VideoCapture video_path :: cap_get_fps
                        :: os_makedirs output_dir :: calls0)).
  { intros [H|[H|[H|H]]]; try discriminate H. exact (NoRel H). }
  assert (Nm : map fst
                 (imwrites (cv2_VideoCapture video_path :: cap_get_fps
                              :: os_makedirs output_dir :: calls0))
               = map (fun k => frame_path output_dir (Z.of_nat k))
                     (seq 0 (List.length
                               (imwrites
                                  (cv2_VideoCapture video_path :: cap_get_fps
                                     :: os_makedirs output_dir :: calls0))))).
  { change (cv2_VideoCapture video_path :: cap_get_fps
              :: os_makedirs output_dir :: calls0)
      with ([cv2_VideoCapture video_path; cap_get_fps;
             os_makedirs output_dir] ++ calls0).
    rewrite imwrites_app. exact Names. }
  intros R.
  exists (cv2_VideoCapture video_path :: cap_get_fps
            :: os_makedirs output_dir :: calls0).
  split; [exact Pre|]. split; [exact Nm|].
  destruct r0 as [[[]|]|e].
  - unfold vbind, vcall, vret in R.
    destruct (cv_handler cap_release w4) as [[[]|e] w5];
      cbn [fst snd app] in R; injection R as <- _ <-;
      (split; [right; reflexivity|]); (split; [reflexivity | discriminate]).
  - unfold vret in R. cbn [fst snd app] in R. rewrite app_nil_r in R.
    injection R as <- _ <-.
    split; [left; reflexivity|]. split; [discriminate | reflexivity].
  - cbn [fst snd app] in R. injection R as <- _ <-.
    split; [left; reflexivity|]. split; discriminate.
Qed.

(** X28.  However the capture and the disk answer, the files a run writes
    are named frame_000000.png, frame_000001.png, ... in the output
    directory, in this order and without a gap. *)
Theorem frames_numbered_from_zero fuel video_path output_dir interval w :
  map fst (imwrites (snd (extract_frames fuel video_path output_dir
                                         interval w)))
  = map (fun k => frame_path output_dir (Z.of_nat k))
        (seq 0 (List.length
                  (imwrites (snd (extract_frames fuel video_path output_dir
                                                 interval w))))).
Proof.
  destruct (extract_frames fuel video_path output_dir interval w)
    as [[r w'] calls] eqn:R.
  destruct (extract_frames_calls _ _ _ _ _ _ _ _ R)
    as (before & _ & Names & [E | E] & _); cbn [snd]; rewrite E;
    [exact Names|].
  rewrite imwrites_app. cbn [imwrites flat_map]. rewrite app_nil_r.
  exact Names.
Qed.


End ExtractFrames.

Section Sampling.

Context {A : Type}.

Lemma indexed_from_cons start (x : A) l :
  indexed_from start (x :: l) = (Z.of_nat start, x) :: indexed_from (S start) l.
Proof. reflexivity. Qed.

Lemma multiples_from_cons i start (x : A) l :
  multiples_from i start (x :: l)
  = (if (Z.of_nat start mod i =? 0)%Z then [x] else [])
      ++ multiples_from i (S start) l.
Proof.
  unfold multiples_from. rewrite indexed_from_cons. cbn [filter fst].
  destruct (Z.of_nat start mod i =? 0)%Z; reflexivity.
Qed.

Lemma nth_error_indexed_from (l : list A) :
  forall start k,
    nth_error (indexed_from start l) k
    = option_map (fun x => (Z.of_nat (start + k), x)) (nth_error l k).
Proof.
  induction l as [|x l IH]; intros start k.
  - destruct k; reflexivity.
  - rewrite indexed_from_cons. destruct k as [|k]; cbn [nth_error option_map].
    + rewrite Nat.add_0_r. reflexivity.
    + rewrite IH. rewrite <- plus_n_Sm. reflexivity.
Qed.

(** The items at the multiples of [i], by position: the [k]-th of them is
    the item at [skip + k * i], where [skip] is the distance from [start]
    to the next multiple. *)
Lemma nth_error_multiples_from (i : Z) (l : list A) :
  (1 <= i)%Z ->
  forall start skip k,
    (skip < Z.to_nat i)%nat ->
    (Z.of_nat (start + skip) mod i = 0)%Z ->
    nth_error (multiples_from i start l) k
    = nth_error l (skip + k * Z.to_nat i).
Proof.
  intros Hi. induction l as [|x l IH]; intros start skip k Hs Hm.
  - unfold multiples_from. cbn. destruct k, (skip + _)%nat; reflexivity.
  - rewrite multiples_from_cons. destruct skip as [|skip].
    + rewrite Nat.add_0_r in Hm. rewrite Hm. cbn [Z.eqb app].
      destruct k as [|k]; [reflexivity|].
      replace (0 + S k * Z.to_nat i)%nat
        with (S (Z.to_nat i - 1 + k * Z.to_nat i))
        by (cbn [Nat.mul Nat.add]; lia).
      cbn [nth_error].
      rewrite (IH (S start) (Z.to_nat i - 1)%nat k).
      * reflexivity.
      * lia.
      * replace (Z.of_nat (S start + (Z.to_nat i - 1)))
          with (Z.of_nat start + 1 * i)%Z by lia.
        rewrite Z_mod_plus_full. exact Hm.
    + assert (N : (Z.of_nat start mod i =? 0)%Z = false).
      { apply Z.eqb_neq. intros Z0.
        replace (Z.of_nat (start + S skip))
          with (Z.of_nat start + Z.of_nat (S skip))%Z in Hm by lia.
        rewrite Z.add_mod, Z0, Z.add_0_l, Z.mod_mod in Hm by lia.
        rewrite Z.mod_small in Hm by lia. lia. }
      rewrite N. cbn [app Nat.add nth_error].
      apply IH; [lia|].
      replace (S start + skip)%nat with (start + S skip)%nat by lia.
      exact Hm.
Qed.

End Sampling.

Section ClipRun.

Lemma nth_error_middle {A} (pre : list A) x rest :
  nth_error (pre ++ x :: rest) (List.length pre) = Some x.
Proof. induction pre; [reflexivity | assumption]. Qed.

(** The loop on a clip, from frame [length pre] on: it comes to its end
    within one test more than there are frames left, and has then written
    the frames at the multiples of the interval, numbered from its
    counter. *)
Lemma read_loop_clip output_dir i fps :
  forall rest pre saved written fuel,
    (List.length rest < fuel)%nat ->
    exists w calls,
      read_loop clip_handler fuel output_dir i (Z.of_nat (List.length pre))
                (Z.of_nat saved)
                {| clip := pre ++ rest; clip_fps := fps;
                   position := Z.of_nat (List.length pre);
                   disk := written |}
      = (Return (Some tt), w, calls) /\
      disk w
      = written
          ++ map (fun p => (frame_path output_dir (fst p), Some (snd p)))
                 (indexed_from saved
                    (multiples_from i (List.length pre) rest)).
Proof.
  induction rest as [|x rest IH]; intros pre saved written fuel Hf;
    (destruct fuel as [|fuel]; [inversion Hf|]).
  - rewrite (read_loop_S clip_handler). unfold vbind at 1, vcall at 1.
    cbn [clip_handler position clip].
    replace (Z.of_nat (List.length pre) <? 0)%Z with false
      by (symmetry; apply Z.ltb_ge; lia).
    rewrite Nat2Z.id, app_nil_r.
    replace (nth_error pre (List.length pre)) with (@None bytes)
      by (symmetry; apply nth_error_None; lia).
    cbn. eexists _, _. split; [reflexivity|]. cbn. rewrite app_nil_r.
    reflexivity.
  - assert (Hr : (List.length rest < fuel)%nat) by (cbn in Hf; lia).
    rewrite (read_loop_S clip_handler). unfold vbind at 1, vcall at 1.
    cbn [clip_handler position clip].
    replace (Z.of_nat (List.length pre) <? 0)%Z with false
      by (symmetry; apply Z.ltb_ge; lia).
    rewrite Nat2Z.id, nth_error_middle. cbn [fst snd clip clip_fps disk].
    destruct (IH (pre ++ [x]) saved written fuel Hr)
      as (w0 & calls0 & R0 & D0).
    destruct (IH (pre ++ [x]) (S saved)
                 (written ++ [(frame_path output_dir (Z.of_nat saved),
                               Some x)]) fuel Hr)
      as (w1 & calls1 & R1 & D1).
    rewrite <- app_assoc in R0, R1. cbn [app] in R0, R1.
    rewrite length_app in R0, R1, D0, D1. cbn [List.length] in R0, R1, D0, D1.
    rewrite Nat.add_1_r in D0, D1.
    replace (Z.of_nat (List.length pre + 1))
      with (Z.of_nat (List.length pre) + 1)%Z in R0, R1 by lia.
    replace (Z.of_nat (S saved)) with (Z.of_nat saved + 1)%Z in R1 by lia.
    rewrite multiples_from_cons.
    destruct (Z.of_nat (List.length pre) mod i =? 0)%Z.
    + unfold vbind, vcall, vret.
      cbn [clip_handler position clip clip_fps disk].
      replace (Z.of_nat (List.length pre) <? 0)%Z with false
        by (symmetry; apply Z.ltb_ge; lia).
      rewrite Nat2Z.id, nth_error_middle.
      cbn [fst snd clip clip_fps disk position].
      match goal with
      | |- context [read_loop ?h ?f ?o ?j ?c ?s ?w] =>
          replace (read_loop h f o j c s w)
            with (@Return (option unit) (Some tt), w1, calls1)
            by (symmetry; exact R1)
      end.
      eexists _, _. split; [reflexivity|].
      rewrite D1, <- app_assoc. reflexivity.
    + unfold vbind, vret.
      match goal with
      | |- context [read_loop ?h ?f ?o ?j ?c ?s ?w] =>
          replace (read_loop h f o j c s w)
            with (@Return (option unit) (Some tt), w0, calls0)
            by (symmetry; exact R0)
      end.
      eexists _, _. split; [reflexivity|].
      exact D0.
Qed.

(** X30.  On a video file that decodes to the frames [frames] and seeks
    exactly, with a frame interval of [i], a run given one loop test more
    than there are frames comes to its end, and the disk then holds, as its
    [k]-th file, frame number [k * i] under the name of number [k], for
    every [k] with [k * i] below the number of frames, and nothing else. *)
Theorem extract_frames_samples_clip
        frames fps interval i video_path output_dir fuel :
  frame_interval fps interval = Return i ->
  (List.length frames < fuel)%nat ->
  exists w calls,
    extract_frames clip_handler fuel video_path output_dir interval
                   (fresh_clip frames fps)
    = (Return (Some tt), w, calls) /\
    forall k,
      nth_error (disk w) k
      = option_map
          (fun image => (frame_path output_dir (Z.of_nat k), Some image))
          (nth_error frames (k * Z.to_nat i)).
Proof.
  intros I F.
  assert (Hi : (1 <= i)%Z).
  { unfold frame_interval in I.
    destruct (int_of_float (float_mul fps interval)); [|discriminate I].
    cbn [rbind] in I. injection I as <-. lia. }
  destruct (read_loop_clip output_dir i fps frames [] 0%nat [] fuel F)
    as (w & calls & R & D).
  unfold extract_frames, vbind at 1, vcall at 1. cbn [clip_handler].
  unfold vbind at 1, vcall at 1. cbn [clip_handler fresh_clip clip_fps].
  unfold vbind at 1, vlift at 1. rewrite I.
  unfold vbind at 1, vcall at 1. cbn [clip_handler].
  unfold vbind at 1.
  match goal with
  | |- context [read_loop ?h ?f ?o ?j ?c ?s ?v] =>
      replace (read_loop h f o j c s v)
        with (@Return (option unit) (Some tt), w, calls)
        by (symmetry; exact R)
  end.
  unfold vbind, vcall, vret. cbn [clip_handler].
  eexists _, _. split; [reflexivity|].
  intros k. rewrite D. cbn [app List.length].
  rewrite nth_error_map, nth_error_indexed_from.
  rewrite (nth_error_multiples_from i frames Hi 0 0 k);
    [|lia | apply Z.mod_0_l; lia].
  cbn [Nat.add]. destruct (nth_error frames (k * Z.to_nat i)); reflexivity.
Qed.

End ClipRun.

(** ** Worked examples for the further properties *)

Lemma malformed_timestep_raises_witness :
  find (fun x => negb (numeric_time decimal_str_to_float x))
       (findall broken_log "timestep")
  = Some (Element "timestep" [("time", "soon")] []) /\
  get_vehicle_position_at_time decimal_str_to_float broken_log (Some "v0")
                               (PyFloat.of_Z 1)
  = Raise (mk_exn ValueError "could not convert string to float").
Proof.
  split; [reflexivity|].
  exact (proj1 (malformed_timestep_raises
                  decimal_str_to_float broken_log (Some "v0") (PyFloat.of_Z 1)
                  (Element "timestep" [("time", "soon")] []) eq_refl)).
Defined.

Lemma exact_time_selected_witness :
  PyFloat.is_finite (PyFloat.of_Z 10) = true /\
  forallb (finite_time decimal_str_to_float) (findall departed_log "timestep")
  = true /\
  exists s,
    closest_timestep decimal_str_to_float departed_log (PyFloat.of_Z 10)
    = Return (Some s) /\
    In s (findall departed_log "timestep") /\
    distance decimal_str_to_float (PyFloat.of_Z 10) s = S754_zero false.
Proof.
  split; [reflexivity|]. split; [reflexivity|].
  apply (exact_time_selected decimal_str_to_float departed_log
           (PyFloat.of_Z 10) (Element "timestep" [("time", "10")] []));
    [reflexivity | reflexivity | right; left; reflexivity | reflexivity].
Defined.

Lemma lookup_ignores_file_order_witness :
  Permutation (findall departed_log "timestep")
              (findall departed_log_reversed "timestep") /\
  distinct_times decimal_str_to_float (findall departed_log "timestep") /\
  get_vehicle_position_at_time decimal_str_to_float departed_log (Some "v0")
                               (PyFloat.of_Z 1)
  = get_vehicle_position_at_time decimal_str_to_float departed_log_reversed
                                 (Some "v0") (PyFloat.of_Z 1).
Proof.
  assert (P : Permutation (findall departed_log "timestep")
                          (findall departed_log_reversed "timestep"))
    by apply perm_swap.
  assert (D : distinct_times decimal_str_to_float
                             (findall departed_log "timestep")).
  { apply NoDup_cons.
    - intros [H | []]. vm_compute in H. discriminate H.
    - apply NoDup_cons; [intros [] | apply NoDup_nil]. }
  split; [exact P|]. split; [exact D|].
  exact (lookup_ignores_file_order decimal_str_to_float departed_log
           departed_log_reversed (Some "v0") (PyFloat.of_Z 1) P eq_refl D).
Defined.

Lemma non_finite_target_finds_nothing_witness :
  PyFloat.is_finite PyFloat.inf = false /\
  get_vehicle_position_at_time decimal_str_to_float example_log (Some "v0")
                               PyFloat.inf
  = Return None.
Proof.
  split; [reflexivity|].
  apply (non_finite_target_finds_nothing decimal_str_to_float example_log
           (Some "v0") PyFloat.inf); reflexivity.
Defined.

Lemma no_vehicle_id_matches_no_record_witness :
  (forall ts v,
      In ts (findall example_log "timestep") ->
      In v (findall ts "vehicle") ->
      get v "id" <> None) /\
  get_vehicle_position_at_time decimal_str_to_float example_log None
                               (PyFloat.of_Z 2)
  = Return None.
Proof.
  assert (Ids : forall ts v,
             In ts (findall example_log "timestep") ->
             In v (findall ts "vehicle") ->
             get v "id" <> None).
  { intros ts v [<- | []] [<- | []]. discriminate. }
  split; [exact Ids|].
  exact (no_vehicle_id_matches_no_record decimal_str_to_float example_log
           (PyFloat.of_Z 2) eq_refl Ids).
Defined.

(** A refused image request. *)
Lemma street_view_image_only_on_200_witness :
  outcome (scripted (city example_log (Return forbidden_response)
                          (Raise unreachable) (Raise unreachable)))
          (get_street_view_image sample_float_to_str remote_instance
                                 (PyFloat.of_Z 20) (PyFloat.of_Z 10)
                                 (PFloat (PyFloat.of_Z 90)) 0 120) tt
  = Raise (mk_exn Exception "Failed to get street view image: 403").
Proof.
  destruct (street_view_image_only_on_200
              (scripted (city example_log (Return forbidden_response)
                              (Raise unreachable) (Raise unreachable)))
              sample_float_to_str remote_instance
              (PyFloat.of_Z 20) (PyFloat.of_Z 10)
              (PFloat (PyFloat.of_Z 90)) 0 120 tt) as (_ & _ & H & _).
  apply (H forbidden_response); [reflexivity | discriminate].
Defined.

Lemma openrouter_http_error_witness :
  (400 <= status_code rate_limited_response < 600)%Z /\
  outcome (scripted (city example_log (Return image_response)
                          (Return rate_limited_response) (Raise unreachable)))
          (_generate_with_openrouter sample_b64encode remote_instance
                                     "Describe." sample_image) tt
  = Raise (mk_exn HTTPError "429").
Proof.
  assert (S : (400 <= status_code rate_limited_response < 600)%Z)
    by (cbn; lia).
  split; [exact S|].
  exact (openrouter_http_error
           (scripted (city example_log (Return image_response)
                           (Return rate_limited_response) (Raise unreachable)))
           sample_b64encode remote_instance "Describe." sample_image tt
           rate_limited_response eq_refl S).
Defined.

Lemma openrouter_returns_first_choice_witness :
  outcome (scripted (city example_log (Return image_response)
                          (Return (completion (VStr "A wet street.")))
                          (Raise unreachable)))
          (_generate_with_openrouter sample_b64encode remote_instance
                                     "Describe." sample_image) tt
  = Return (VStr "A wet street.").
Proof.
  apply (openrouter_returns_first_choice
           (scripted (city example_log (Return image_response)
                           (Return (completion (VStr "A wet street.")))
                           (Raise unreachable)))
           sample_b64encode remote_instance "Describe." sample_image tt
           (completion (VStr "A wet street."))
           [ (VStr "id", VStr "gen-1");
             (VStr "choices",
              VList
                [ VDict
                    [ (VStr "index", VInt 0);
                      (VStr "message",
                       VDict [ (VStr "role", VStr "assistant");
                               (VStr "content", VStr "A wet street.") ]) ] ]) ]
           [ (VStr "index", VInt 0);
             (VStr "message",
              VDict [ (VStr "role", VStr "assistant");
                      (VStr "content", VStr "A wet street.") ]) ]
           []
           [ (VStr "role", VStr "assistant");
             (VStr "content", VStr "A wet street.") ]
           (VStr "A wet street."));
    first [reflexivity | left; reflexivity].
Defined.

(** A 200 that carries an error object: the caller sees a [KeyError]. *)
Lemma openrouter_malformed_body_witness :
  outcome (scripted (city example_log (Return image_response)
                          (Return error_body_response) (Raise unreachable)))
          (_generate_with_openrouter sample_b64encode remote_instance
                                     "Describe." sample_image) tt
  = Raise (mk_exn (OtherError "KeyError") "choices").
Proof.
  destruct (openrouter_malformed_body
              (scripted (city example_log (Return image_response)
                              (Return error_body_response)
                              (Raise unreachable)))
              sample_b64encode remote_instance "Describe." sample_image tt
              error_body_response eq_refl (or_introl eq_refl))
    as (_ & H & _).
  apply (H [(VStr "error", VDict [(VStr "message", VStr "overloaded")])]);
    reflexivity.
Defined.

Lemma gemini_caption_witness :
  run (scripted (city example_log (Return image_response) (Raise unreachable)
                      (Return "A wet street.")))
      (analyze_image_with_llm sample_b64encode local_instance sample_image
                              "weather: Rain" (Some "morning")) tt
  = (Return (VStr "A wet street."), tt,
     [ generate_content
         {| model_name := "gemini-2.0-flash" |}
         (caption_prompt "weather: Rain" (Some "morning"))
         "image/jpeg" sample_image ]).
Proof.
  destruct (gemini_caption
              (scripted (city example_log (Return image_response)
                              (Raise unreachable) (Return "A wet street.")))
              sample_b64encode local_instance
              {| model_name := "gemini-2.0-flash" |} sample_image
              "weather: Rain" (Some "morning") tt eq_refl eq_refl)
    as [C O].
  unfold calls_made in C. unfold outcome in O.
  destruct (run _ _ tt) as [[r []] calls]. cbn [fst snd] in C, O.
  rewrite C, O. reflexivity.
Defined.

Lemma caption_backend_exclusive_witness :
  calls_made (scripted (field_trip example_log crash_report))
             (analyze_image_with_llm sample_b64encode remote_instance
                                     sample_image "weather: Rain" None) tt
  = [ openrouter_request sample_b64encode remote_instance
        (caption_prompt "weather: Rain" None) sample_image ].
Proof.
  destruct (caption_backend_exclusive
              (scripted (field_trip example_log crash_report))
              sample_b64encode remote_instance sample_image
              "weather: Rain" None tt) as [H _].
  exact (H eq_refl).
Defined.

Lemma init_model_names_witness :
  reads_environ (scripted (city example_log (Return image_response)
                                (Raise unreachable) (Return "A wet street.")))
                (environ (city example_log (Return image_response)
                               (Raise unreachable) (Return "A wet street."))) /\
  outcome (scripted (city example_log (Return image_response)
                          (Raise unreachable) (Return "A wet street.")))
          (__init__ (Some "gemini-2.0-flash") None) tt
  = Return local_instance /\
  gemini_model_name local_instance = "gemini-2.0-flash".
Proof.
  assert (E : reads_environ
                (scripted (city example_log (Return image_response)
                                (Raise unreachable) (Return "A wet street.")))
                (environ (city example_log (Return image_response)
                               (Raise unreachable) (Return "A wet street."))))
    by (intros name []; reflexivity).
  split; [exact E|]. split; [reflexivity|].
  destruct (init_model_names
              (scripted (city example_log (Return image_response)
                              (Raise unreachable) (Return "A wet street.")))
              (environ (city example_log (Return image_response)
                             (Raise unreachable) (Return "A wet street.")))
              (Some "gemini-2.0-flash") None tt local_instance E eq_refl)
    as [H _].
  apply H; [reflexivity | discriminate].
Defined.

Lemma init_import_failure_witness :
  reads_environ
    (scripted (without_genai (city example_log (Return image_response)
                                   (Raise unreachable) (Raise unreachable))))
    (environ (city example_log (Return image_response)
                   (Raise unreachable) (Raise unreachable))) /\
  run (scripted (without_genai (city example_log (Return image_response)
                                     (Raise unreachable) (Raise unreachable))))
      (__init__ None None) tt
  = (Raise (mk_exn ImportError
              "google-generativeai package is required for StreetViewRetrievalAndAnalysis"),
     tt,
     [ os_getenv "GOOGLE_MAPS_API_KEY"; os_getenv "GEMINI_MODEL_NAME";
       os_getenv "GEMINI_API_KEY"; import_module "google.generativeai" ]).
Proof.
  assert (E : reads_environ
                (scripted (without_genai
                             (city example_log (Return image_response)
                                   (Raise unreachable) (Raise unreachable))))
                (environ (city example_log (Return image_response)
                               (Raise unreachable) (Raise unreachable))))
    by (intros name []; reflexivity).
  split; [exact E|].
  destruct (init_import_failure
              (scripted (without_genai
                           (city example_log (Return image_response)
                                 (Raise unreachable) (Raise unreachable))))
              (environ (city example_log (Return image_response)
                             (Raise unreachable) (Raise unreachable)))
              None None tt
              (mk_exn ModuleNotFoundError "google.generativeai")
              E eq_refl eq_refl eq_refl eq_refl) as [O C].
  unfold calls_made in C. unfold outcome in O.
  destruct (run _ _ tt) as [[r []] calls]. cbn [fst snd] in C, O.
  rewrite C, O. reflexivity.
Defined.

Lemma init_gemini_sequence_witness :
  exists self,
    run (scripted (city example_log (Return image_response)
                        (Raise unreachable) (Return "A wet street.")))
        (__init__ None None) tt
    = (Return self, tt,
       [ os_getenv "GOOGLE_MAPS_API_KEY"; os_getenv "GEMINI_MODEL_NAME";
         os_getenv "GEMINI_API_KEY"; import_module "google.generativeai";
         genai_configure "gemini-key";
         genai_GenerativeModel "gemini-2.5-pro" ]) /\
    gemini_client self = Some {| model_name := "gemini-2.5-pro" |} /\
    gemini_model_name self = "gemini-2.5-pro" /\
    gemini_api_key self = Some "gemini-key".
Proof.
  apply (init_gemini_sequence
           (scripted (city example_log (Return image_response)
                           (Raise unreachable) (Return "A wet street.")))
           (environ (city example_log (Return image_response)
                          (Raise unreachable) (Return "A wet street.")))
           None None tt tt tt tt {| model_name := "gemini-2.5-pro" |});
    first [reflexivity | intros name []; reflexivity].
Defined.

Lemma time_descriptor_is_a_label_witness :
  outcome (scripted (field_trip example_log crash_report))
          (_load_environment_context sample_object_str sample_fcd) tt
  = Return ("weather: Rain, road surface: Wet, time of day: morning",
            Some "morning") /\
  In "morning" ["morning"; "noon"; "afternoon"; "evening"; "night"].
Proof.
  split; [reflexivity|].
  apply (time_descriptor_is_a_label
           (scripted (field_trip example_log crash_report)) sample_object_str
           tt sample_fcd
           "weather: Rain, road surface: Wet, time of day: morning" "morning").
  reflexivity.
Defined.

(** A report file that is empty: [yaml.safe_load] yields [None]. *)
Lemma empty_report_gives_no_context_witness :
  report_read (scripted (with_report (field_trip example_log crash_report)
                                     (Return VNone))) tt sample_fcd
  = Some (Return VNone) /\
  outcome (scripted (with_report (field_trip example_log crash_report)
                                 (Return VNone)))
          (_load_environment_context sample_object_str sample_fcd) tt
  = Return ("", None).
Proof.
  split; [reflexivity|].
  apply (empty_report_gives_no_context
           (scripted (with_report (field_trip example_log crash_report)
                                  (Return VNone)))
           sample_object_str tt sample_fcd VNone); reflexivity.
Defined.

(** A report that is a YAML list. *)
Lemma load_environment_context_raises_witness :
  exists e,
    outcome (scripted (with_report (field_trip example_log crash_report)
                                   (Return (VList [VStr "weather: Rain"]))))
            (_load_environment_context sample_object_str sample_fcd) tt
    = Raise e /\
    exn_type e = AttributeError.
Proof.
  destruct (load_environment_context_raises
              (scripted (with_report (field_trip example_log crash_report)
                                     (Return (VList [VStr "weather: Rain"]))))
              sample_object_str tt sample_fcd) as (_ & H & _).
  apply (H (VList [VStr "weather: Rain"])); [reflexivity | reflexivity|].
  intros items. discriminate.
Defined.

Lemma no_pose_stops_run_witness :
  get_vehicle_position_at_time decimal_str_to_float departed_log (Some "v0")
                               (PyFloat.of_Z 10)
  = Return None /\
  run (scripted (field_trip departed_log crash_report))
      (get_streetview_image_and_description
         decimal_str_to_float sample_float_to_str sample_object_str
         sample_b64encode remote_instance sample_out sample_fcd sample_map
         (Some "v0") (PyFloat.of_Z 10)) tt
  = (Return "Vehicle not found at the specified time", tt,
     [sumolib_readNet sample_map; ET_parse sample_fcd]).
Proof.
  split; [reflexivity|].
  apply (no_pose_stops_run
           (scripted (field_trip departed_log crash_report))
           decimal_str_to_float sample_float_to_str sample_object_str
           sample_b64encode remote_instance sample_out sample_fcd sample_map
           (Some "v0") (PyFloat.of_Z 10) tt plain_net tt departed_log tt);
    reflexivity.
Defined.

(** No network file: the run ends before the FCD file is looked at. *)
Lemma unreadable_inputs_abort_witness :
  outcome (scripted offline)
          (get_streetview_image_and_description
             decimal_str_to_float sample_float_to_str sample_object_str
             sample_b64encode remote_instance sample_out sample_fcd sample_map
             (Some "v0") (PyFloat.of_Z 2)) tt
  = Raise (mk_exn FileNotFoundError "run/map.net.xml") /\
  calls_made (scripted offline)
             (get_streetview_image_and_description
                decimal_str_to_float sample_float_to_str sample_object_str
                sample_b64encode remote_instance sample_out sample_fcd
                sample_map (Some "v0") (PyFloat.of_Z 2)) tt
  = [sumolib_readNet sample_map].
Proof.
  destruct (unreadable_inputs_abort
              (scripted offline)
              decimal_str_to_float sample_float_to_str sample_object_str
              sample_b64encode remote_instance sample_out sample_fcd
              sample_map (Some "v0") (PyFloat.of_Z 2) tt) as [H _].
  apply (H (mk_exn FileNotFoundError "run/map.net.xml")). reflexivity.
Defined.

(** A report that is a YAML list stops the run before any image is asked
    for. *)
Lemma report_error_aborts_run_witness :
  outcome (scripted (with_report (field_trip example_log crash_report)
                                 (Return (VList [VStr "weather: Rain"]))))
          (get_streetview_image_and_description
             decimal_str_to_float sample_float_to_str sample_object_str
             sample_b64encode remote_instance sample_out sample_fcd sample_map
             (Some "v0") (PyFloat.of_Z 2)) tt
  = Raise (mk_exn AttributeError "object has no attribute 'get'") /\
  filter is_requests_get
    (calls_made (scripted (with_report (field_trip example_log crash_report)
                                       (Return (VList [VStr "weather: Rain"]))))
                (get_streetview_image_and_description
                   decimal_str_to_float sample_float_to_str sample_object_str
                   sample_b64encode remote_instance sample_out sample_fcd
                   sample_map (Some "v0") (PyFloat.of_Z 2)) tt)
  = [] /\
  filter is_open_write
    (calls_made (scripted (with_report (field_trip example_log crash_report)
                                       (Return (VList [VStr "weather: Rain"]))))
                (get_streetview_image_and_description
                   decimal_str_to_float sample_float_to_str sample_object_str
                   sample_b64encode remote_instance sample_out sample_fcd
                   sample_map (Some "v0") (PyFloat.of_Z 2)) tt)
  = [].
Proof.
  apply (report_error_aborts_run
           (scripted (with_report (field_trip example_log crash_report)
                                  (Return (VList [VStr "weather: Rain"]))))
           decimal_str_to_float sample_float_to_str sample_object_str
           sample_b64encode remote_instance sample_out sample_fcd sample_map
           (Some "v0") (PyFloat.of_Z 2) tt plain_net tt example_log tt
           (PyFloat.of_Z 10) (PyFloat.of_Z 20) (PyFloat.of_Z 90)
           (PyFloat.of_Z 10) (PyFloat.of_Z 20)
           (mk_exn AttributeError "object has no attribute 'get'"));
    reflexivity.
Defined.

(** No network: the rear camera costs one request and one printed line. *)
Lemma failed_fetch_leaves_no_file_witness :
  In ("rear", 180, 30)%Z viewpoints /\
  run (scripted (field_trip example_log crash_report))
      (describe_camera sample_float_to_str sample_b64encode remote_instance
                       sample_out (PyFloat.of_Z 20) (PyFloat.of_Z 10)
                       (PyFloat.of_Z 90) "" None ("rear", 180%Z)) tt
  = (Return "rear: Failed to retrieve street view", tt,
     [ street_view_request sample_float_to_str remote_instance
         (PyFloat.of_Z 20) (PyFloat.of_Z 10)
         (PyFloat.add (PyFloat.of_Z 90) (PyFloat.of_Z 180)) 30;
       print "Error retrieving street view for rear: network is unreachable"
     ]).
Proof.
  assert (V : In ("rear", 180, 30)%Z viewpoints)
    by (right; right; right; left; reflexivity).
  split; [exact V|].
  destruct (failed_fetch_leaves_no_file
              (scripted (field_trip example_log crash_report))
              sample_float_to_str sample_b64encode remote_instance
              sample_out (PyFloat.of_Z 20) (PyFloat.of_Z 10)
              (PyFloat.of_Z 90) "" None "rear" 180%Z 30%Z tt V) as [H _].
  destruct (H unreachable eq_refl) as [O C].
  unfold calls_made in C. unfold outcome in O.
  destruct (run _ _ tt) as [[r []] calls]. cbn [fst snd] in C, O.
  rewrite C, O. reflexivity.
Defined.


(** The front camera on a machine where everything answers. *)
Lemma viewpoint_files_match_section_witness :
  run (scripted (city example_log (Return image_response)
                      (Raise unreachable) (Return "A wet street.")))
      (describe_camera sample_float_to_str sample_b64encode local_instance
                       sample_out (PyFloat.of_Z 20) (PyFloat.of_Z 10)
                       (PyFloat.of_Z 90) "weather: Rain" (Some "morning")
                       ("front", 0%Z)) tt
  = (Return "front: The video is captured from a camera mounted on a car. The camera is facing forward. The scene occurs during the morning. A wet street.",
     tt,
     [ street_view_request sample_float_to_str local_instance
         (PyFloat.of_Z 20) (PyFloat.of_Z 10)
         (PyFloat.add (PyFloat.of_Z 90) (PyFloat.of_Z 0)) 120;
       open_write ["run"; "out"; "streetview_image_front.jpg"]
                  (Binary sample_image);
       print "Street view image saved as run/out/streetview_image_front.jpg";
       generate_content {| model_name := "gemini-2.0-flash" |}
                        (caption_prompt "weather: Rain" (Some "morning"))
                        "image/jpeg" sample_image;
       open_write ["run"; "out"; "prompt_front.txt"]
                  (Text "The video is captured from a camera mounted on a car. The camera is facing forward. The scene occurs during the morning. A wet street.");
       print "Environment description saved as run/out/prompt_front.txt" ]).
Proof.
  destruct (viewpoint_files_match_section
              (scripted (city example_log (Return image_response)
                              (Raise unreachable) (Return "A wet street.")))
              sample_float_to_str sample_b64encode local_instance
              sample_out (PyFloat.of_Z 20) (PyFloat.of_Z 10)
              (PyFloat.of_Z 90) "weather: Rain" (Some "morning")
              "front" 0%Z 120%Z tt image_response tt tt tt tt
              "The video is captured from a camera mounted on a car. The camera is facing forward. "
              "A wet street."
              [ generate_content {| model_name := "gemini-2.0-flash" |}
                  (caption_prompt "weather: Rain" (Some "morning"))
                  "image/jpeg" sample_image ]
              (or_introl eq_refl) eq_refl eq_refl eq_refl eq_refl eq_refl
              eq_refl) as [O C].
  unfold calls_made in C. unfold outcome in O.
  destruct (run _ _ tt) as [[r []] calls]. cbn [fst snd] in C, O.
  rewrite C, O. reflexivity.
Defined.

(** Thirty frames per second at the default interval: 30 * 0.1 is a
    little above 3, and every third frame is kept. *)
Example interval_at_30_fps :
  frame_interval (PyFloat.of_Z 30) tenth = Return 3%Z.
Proof. reflexivity. Qed.

Lemma frame_interval_at_least_one_witness :
  frame_interval (PyFloat.of_Z 30) tenth = Return 3%Z /\ (1 <= 3)%Z.
Proof.
  split; [reflexivity|].
  destruct (frame_interval_at_least_one (PyFloat.of_Z 30) tenth) as [H _].
  apply H. reflexivity.
Defined.

(** Seven frames at interval 3: frames 0, 3 and 6 are saved. *)
Example seven_frames_sampled :
  let '(r, w, calls) :=
    extract_frames clip_handler 8 "clip.mp4" "frames" tenth
                   (fresh_clip seven_frames (PyFloat.of_Z 30)) in
  r = Return (Some tt) /\
  disk w = [ ("frames/frame_000000.png", Some [Byte.x00]);
             ("frames/frame_000001.png", Some [Byte.x03]);
             ("frames/frame_000002.png", Some [Byte.x06]) ].
Proof. vm_compute. split; reflexivity. Qed.

Lemma extract_frames_samples_clip_witness :
  frame_interval (PyFloat.of_Z 30) tenth = Return 3%Z /\
  (List.length seven_frames < 8)%nat /\
  exists w calls,
    extract_frames clip_handler 8 "clip.mp4" "frames" tenth
                   (fresh_clip seven_frames (PyFloat.of_Z 30))
    = (Return (Some tt), w, calls) /\
    forall k,
      nth_error (disk w) k
      = option_map
          (fun image => (frame_path "frames" (Z.of_nat k), Some image))
          (nth_error seven_frames (k * Z.to_nat 3)).
Proof.
  assert (F : (List.length seven_frames < 8)%nat) by (cbn; lia).
  split; [reflexivity|]. split; [exact F|].
  exact (extract_frames_samples_clip seven_frames (PyFloat.of_Z 30) tenth 3%Z
           "clip.mp4" "frames" 8 eq_refl F).
Defined.

